(** * CareerNest job board: the application workflow and the listing query

    A shallow embedding of [main.py].  The four MongoDB collections are
    lists of documents in natural (insertion) order, request handlers are
    computations in a small state-and-exception monad over the database,
    and everything a handler reads from outside the process (the answer of
    the token-introspection endpoint, [uuid.uuid4()], [datetime.utcnow()])
    is an explicit input of the handler. *)

From Stdlib Require Import ZArith List String Ascii Bool Lia Permutation.
Import ListNotations.

Local Open Scope Z_scope.
Local Open Scope string_scope.
Local Open Scope list_scope.

(** ** Enumerations *)

Inductive JobType :=
| full_time | part_time | jt_internship | contract | remote | hybrid.

Inductive ExperienceLevel :=
| entry | mid | senior | el_internship.

Inductive ApplicationStatus :=
| pending | reviewing | shortlisted | rejected | accepted.

Inductive JobCategory :=
| technology | finance | marketing | design | operations | hr
| sales | engineering | healthcare | education | other.

(** The string each member is stored as ([class ...(str, Enum)]). *)
Definition JobType_value (t : JobType) : string :=
  match t with
  | full_time => "Full-Time"
  | part_time => "Part-Time"
  | jt_internship => "Internship"
  | contract => "Contract"
  | remote => "Remote"
  | hybrid => "Hybrid"
  end.

Definition ExperienceLevel_value (l : ExperienceLevel) : string :=
  match l with
  | entry => "Entry Level"
  | mid => "Mid Level"
  | senior => "Senior Level"
  | el_internship => "Internship / No Experience"
  end.

Definition JobCategory_value (c : JobCategory) : string :=
  match c with
  | technology => "Technology"
  | finance => "Finance"
  | marketing => "Marketing"
  | design => "Design"
  | operations => "Operations"
  | hr => "Human Resources"
  | sales => "Sales"
  | engineering => "Engineering"
  | healthcare => "Healthcare"
  | education => "Education"
  | other => "Other"
  end.

(** ** Request models and stored documents

    A [datetime] is its timestamp, a [date] its ISO string, and a
    [float], which the handlers carry but never compute with, its IEEE-754
    binary64 bit pattern.  A document in a collection stands for the
    document as the handler sent it; the store keeps a datetime to the
    millisecond only, so a statement that compares a document read back
    from the store with the document a handler built leaves the
    timestamps out.  The store-internal [_id] key is
    not part of a document here, so [_clean], which only strips that key,
    is the identity. *)

Definition datetime := Z.
Definition date := string.
Definition float := Z.

Module CompanyCreate.
Record t := mk {
  name : string;
  industry : string;
  website : option string;
  description : option string;
  logo_url : option string;
  location : string;
}.
End CompanyCreate.

Module Company.
(** [{**data.model_dump(), "id", "created_at", "total_jobs_posted"}] *)
Record t := mk {
  fields : CompanyCreate.t;
  id : string;
  created_at : datetime;
  total_jobs_posted : Z;
}.
Definition name (c : t) : string := CompanyCreate.name (fields c).
End Company.

Module JobCreate.
Record t := mk {
  title : string;
  company_id : string;
  category : JobCategory;
  job_type : JobType;
  experience_level : ExperienceLevel;
  location : string;
  is_remote : bool;
  description : string;
  responsibilities : list string;
  requirements : list string;
  nice_to_have : option (list string);
  salary_min : option Z;
  salary_max : option Z;
  salary_currency : string;
  application_deadline : option date;
  openings : Z;
  tags : option (list string);
}.
End JobCreate.

Module Job.
(** Every job document this program writes ([create_job], [_seed])
    carries all of these keys, so [job.get(k, default)] reads the field. *)
Record t := mk {
  title : string;
  company_id : string;
  category : string;
  job_type : string;
  experience_level : string;
  location : string;
  is_remote : bool;
  description : string;
  responsibilities : list string;
  requirements : list string;
  nice_to_have : option (list string);
  salary_min : option Z;
  salary_max : option Z;
  salary_currency : string;
  application_deadline : option string;
  openings : Z;
  tags : option (list string);
  id : string;
  is_active : bool;
  views : Z;
  applications_count : Z;
  created_at : datetime;
  updated_at : datetime;
}.

(** [{"$inc": {"views": n}}] *)
Definition inc_views (n : Z) (j : t) : t :=
  mk (title j) (company_id j) (category j) (job_type j)
     (experience_level j) (location j) (is_remote j) (description j)
     (responsibilities j) (requirements j) (nice_to_have j)
     (salary_min j) (salary_max j) (salary_currency j)
     (application_deadline j) (openings j) (tags j) (id j)
     (is_active j) (views j + n) (applications_count j)
     (created_at j) (updated_at j).

(** [{"$inc": {"applications_count": n}}] *)
Definition inc_applications_count (n : Z) (j : t) : t :=
  mk (title j) (company_id j) (category j) (job_type j)
     (experience_level j) (location j) (is_remote j) (description j)
     (responsibilities j) (requirements j) (nice_to_have j)
     (salary_min j) (salary_max j) (salary_currency j)
     (application_deadline j) (openings j) (tags j) (id j)
     (is_active j) (views j) (applications_count j + n)
     (created_at j) (updated_at j).

(** [job["views"] = v], on the handler's own copy of the document. *)
Definition set_views (v : Z) (j : t) : t :=
  mk (title j) (company_id j) (category j) (job_type j)
     (experience_level j) (location j) (is_remote j) (description j)
     (responsibilities j) (requirements j) (nice_to_have j)
     (salary_min j) (salary_max j) (salary_currency j)
     (application_deadline j) (openings j) (tags j) (id j)
     (is_active j) v (applications_count j)
     (created_at j) (updated_at j).
End Job.

Module ApplicationCreate.
(** Used by [POST /jobs/{id}/apply]. *)
Record t := mk {
  applicant_name : string;
  applicant_email : string;
  google_access_token : option string;
  phone : option string;
  resume_url : string;
  cover_letter : option string;
  linkedin_url : option string;
  portfolio_url : option string;
  years_of_experience : option float;
  current_institution : option string;
  graduation_year : option Z;
}.
End ApplicationCreate.

Module ApplicationCreateCompat.
(** Frontend-friendly shape for [POST /applications]. *)
Record t := mk {
  job_id : string;
  full_name : string;
  email : string;
  google_access_token : option string;
  phone : option string;
  resume_url : string;
  cover_letter : option string;
  linkedin_url : option string;
  portfolio_url : option string;
  years_experience : option float;
  institution : option string;
  graduation_year : option Z;
}.
End ApplicationCreateCompat.

Module Application.
(** [{**data.model_dump(), "id", "job_id", "job_title", ...}]: the
    dumped request fields and the added keys are disjoint. *)
Record t := mk {
  fields : ApplicationCreate.t;
  id : string;
  job_id : string;
  job_title : string;
  company_name : string;
  status : ApplicationStatus;
  applied_at : datetime;
  updated_at : datetime;
  notes : option string;
}.
Definition applicant_email (a : t) : string :=
  ApplicationCreate.applicant_email (fields a).
End Application.

Module Bookmark.
Record t := mk {
  student_email : string;
  job_id : string;
  saved_at : datetime;
}.
End Bookmark.

(** ** The document store

    The operations of a pymongo [Collection] that the handlers use, on a
    list of documents in natural order.  A filter document is the boolean
    predicate it denotes. *)

Module Cursor.
Section Ops.
Context {A : Type}.

(** First document matching the filter, [None] when there is none. *)
Definition find_one (p : A -> bool) (c : list A) : option A := List.find p c.

Definition find (p : A -> bool) (c : list A) : list A := List.filter p c.

Definition count_documents (p : A -> bool) (c : list A) : Z :=
  Z.of_nat (List.length (List.filter p c)).

(** Applies the update to the first matching document only. *)
Fixpoint update_one (p : A -> bool) (f : A -> A) (c : list A) : list A :=
  match c with
  | [] => []
  | d :: c' => if p d then f d :: c' else d :: update_one p f c'
  end.

(** Removes the first matching document; the second component is
    [deleted_count]. *)
Fixpoint delete_one (p : A -> bool) (c : list A) : list A * Z :=
  match c with
  | [] => ([], 0)
  | d :: c' =>
      if p d then (c', 1)
      else let (r, n) := delete_one p c' in (d :: r, n)
  end.

(** A stable sort: documents with equal keys keep their stored order. *)
Fixpoint insert_sorted (le : A -> A -> bool) (x : A) (l : list A) : list A :=
  match l with
  | [] => [x]
  | y :: l' => if le x y then x :: l else y :: insert_sorted le x l'
  end.

Definition sort (le : A -> A -> bool) (c : list A) : list A :=
  List.fold_right (insert_sorted le) [] c.

(** The driver refuses a negative [skip]; the handlers pass none. *)
Definition skip (n : Z) (c : list A) : list A := List.skipn (Z.to_nat n) c.

(** [limit(0)] is no limit; a negative limit is taken by absolute value. *)
Definition limit (n : Z) (c : list A) : list A :=
  if Z.eqb n 0 then c else List.firstn (Z.to_nat (Z.abs n)) c.

End Ops.
End Cursor.

(** Sort keys: [null] orders before every number. *)
Definition key_le (a b : option Z) : bool :=
  match a, b with
  | None, _ => true
  | Some _, None => false
  | Some x, Some y => Z.leb x y
  end.

Inductive Direction := ASCENDING | DESCENDING.

Definition sort_le {A : Type} (key : A -> option Z) (d : Direction)
  (a b : A) : bool :=
  match d with
  | ASCENDING => key_le (key a) (key b)
  | DESCENDING => key_le (key b) (key a)
  end.

(** ** The database and the handler monad *)

Record DB := mkDB {
  companies : list Company.t;
  jobs : list Job.t;
  applications : list Application.t;
  bookmarks : list Bookmark.t;
}.

(** Besides the handlers' own [HTTPException], what the driver and the
    store raise: [DuplicateKeyError] for a unique index, [OverflowError]
    for an [int] that does not fit 8 bytes, [OperationFailure] for a query
    that the store refuses. *)
Inductive Exception :=
| HTTPException (status_code : Z) (detail : string)
| DuplicateKeyError
| OverflowError
| OperationFailure.

(** The driver encodes a Python [int] in at most 8 bytes and raises
    [OverflowError] for any other, before anything is sent. *)
Definition int64 (z : Z) : bool := Z.leb (- 2 ^ 63) z && Z.ltb z (2 ^ 63).

Definition opt_int64 (z : option Z) : bool :=
  match z with
  | Some v => int64 v
  | None => true
  end.

Inductive Outcome (A : Type) :=
| Returned (a : A)
| Raised (e : Exception).
Arguments Returned {A} a.
Arguments Raised {A} e.

(** A raise keeps the database as the handler left it: nothing is rolled
    back. *)
Definition Handler (A : Type) : Type := DB -> Outcome A * DB.

Definition ret {A : Type} (a : A) : Handler A := fun db => (Returned a, db).

Definition raise {A : Type} (e : Exception) : Handler A :=
  fun db => (Raised e, db).

Definition bind {A B : Type} (m : Handler A) (k : A -> Handler B)
  : Handler B :=
  fun db =>
    match m db with
    | (Returned a, db') => k a db'
    | (Raised e, db') => (Raised e, db')
    end.

Declare Scope handler_scope.
Delimit Scope handler_scope with handler.
Notation "x <- m ;; k" := (bind m (fun x => k))
  (at level 61, m at next level, right associativity) : handler_scope.
Notation "m ;; k" := (bind m (fun _ => k))
  (at level 61, right associativity) : handler_scope.
Local Open Scope handler_scope.

(** A collection handle: where its documents live in the database, the
    key of its unique index, and whether the driver can encode a document
    (every [int] in it fits 8 bytes). *)
Record Collection (A : Type) := mkCollection {
  docs : DB -> list A;
  store : list A -> DB -> DB;
  unique_id : A -> string;
  encodable : A -> bool;
}.
Arguments docs {A} _ _.
Arguments store {A} _ _ _.
Arguments unique_id {A} _ _.
Arguments encodable {A} _ _.

Definition company_encodable (c : Company.t) : bool :=
  int64 (Company.total_jobs_posted c).

Definition job_encodable (j : Job.t) : bool :=
  opt_int64 (Job.salary_min j) && opt_int64 (Job.salary_max j) &&
  int64 (Job.openings j) && int64 (Job.views j) &&
  int64 (Job.applications_count j).

Definition application_encodable (a : Application.t) : bool :=
  opt_int64 (ApplicationCreate.graduation_year (Application.fields a)).

Definition col_companies : Collection Company.t :=
  mkCollection _ companies
    (fun c db => mkDB c (jobs db) (applications db) (bookmarks db))
    Company.id company_encodable.

Definition col_jobs : Collection Job.t :=
  mkCollection _ jobs
    (fun c db => mkDB (companies db) c (applications db) (bookmarks db))
    Job.id job_encodable.

Definition col_applications : Collection Application.t :=
  mkCollection _ applications
    (fun c db => mkDB (companies db) (jobs db) c (bookmarks db))
    Application.id application_encodable.

Definition find_one {A : Type} (col : Collection A) (p : A -> bool)
  : Handler (option A) :=
  fun db => (Returned (Cursor.find_one p (docs col db)), db).

Definition count_documents {A : Type} (col : Collection A) (p : A -> bool)
  : Handler Z :=
  fun db => (Returned (Cursor.count_documents p (docs col db)), db).

(** The driver encodes the document first and raises when it cannot;
    then [create_index("id", unique=True)]: inserting a document whose
    [id] is already stored raises.  Either way nothing is stored. *)
Definition insert_one {A : Type} (col : Collection A) (d : A)
  : Handler unit :=
  fun db =>
    if negb (encodable col d) then (Raised OverflowError, db)
    else if List.existsb
              (fun x => String.eqb (unique_id col x) (unique_id col d))
              (docs col db)
    then (Raised DuplicateKeyError, db)
    else (Returned tt, store col (docs col db ++ [d]) db).

Definition update_one {A : Type} (col : Collection A) (p : A -> bool)
  (f : A -> A) : Handler unit :=
  fun db => (Returned tt, store col (Cursor.update_one p f (docs col db)) db).

(** Returns [deleted_count]. *)
Definition delete_one {A : Type} (col : Collection A) (p : A -> bool)
  : Handler Z :=
  fun db =>
    let (c, n) := Cursor.delete_one p (docs col db) in
    (Returned n, store col c db).

Definition find {A : Type} (col : Collection A) (p : A -> bool)
  : Handler (list A) :=
  fun db => (Returned (Cursor.find p (docs col db)), db).

Fixpoint mapM {A B : Type} (f : A -> Handler B) (l : list A)
  : Handler (list B) :=
  match l with
  | [] => ret []
  | a :: l' => b <- f a ;; bs <- mapM f l' ;; ret (b :: bs)
  end.

(** ** Filter documents *)

(** [{"id": job_id}] *)
Definition job_with_id (job_id : string) (j : Job.t) : bool :=
  String.eqb (Job.id j) job_id.

(** [{"id": company_id}] *)
Definition company_with_id (company_id : string) (c : Company.t) : bool :=
  String.eqb (Company.id c) company_id.

(** [{"job_id": job_id, "applicant_email": email}] *)
Definition application_of (job_id email : string) (a : Application.t)
  : bool :=
  String.eqb (Application.job_id a) job_id &&
  String.eqb (Application.applicant_email a) email.

(** [{"$inc": {"total_jobs_posted": n}}] *)
Definition inc_total_jobs_posted (n : Z) (c : Company.t) : Company.t :=
  Company.mk (Company.fields c) (Company.id c) (Company.created_at c)
    (Company.total_jobs_posted c + n).

(** ** MongoDB helpers *)

(** Strip MongoDB internal [_id]. *)
Definition _clean {A : Type} (doc : A) : A := doc.

Record EnrichedJob := mkEnrichedJob {
  job : Job.t;
  company : option Company.t;
}.

(** Attach the company sub-document to a job dict. *)
Definition _enrich_job (job : Job.t) : Handler EnrichedJob :=
  let job := _clean job in
  company <- find_one col_companies
               (company_with_id (Job.company_id job)) ;;
  ret (mkEnrichedJob job (option_map _clean company)).

(** Truth value of an [Optional[str]]: [None] and the empty string are
    false. *)
Definition truthy (s : option string) : bool :=
  match s with
  | None => false
  | Some s => negb (String.eqb s "")
  end.

(** ** Jobs *)

Record JobPosted := mkJobPosted {
  jp_message : string;
  jp_job : EnrichedJob;
}.

(** The document [doc] that posting a job stores. *)
Definition new_job_doc (data : JobCreate.t) (jid : string) (now : datetime)
  : Job.t :=
  Job.mk (JobCreate.title data) (JobCreate.company_id data)
    (JobCategory_value (JobCreate.category data))
    (JobType_value (JobCreate.job_type data))
    (ExperienceLevel_value (JobCreate.experience_level data))
    (JobCreate.location data) (JobCreate.is_remote data)
    (JobCreate.description data) (JobCreate.responsibilities data)
    (JobCreate.requirements data) (JobCreate.nice_to_have data)
    (JobCreate.salary_min data) (JobCreate.salary_max data)
    (JobCreate.salary_currency data)
    (JobCreate.application_deadline data)
    (JobCreate.openings data) (JobCreate.tags data)
    jid true 0 0 now now.

Definition create_job (uuid4 : string) (utcnow : datetime)
  (data : JobCreate.t) : Handler JobPosted :=
  c <- find_one col_companies
         (company_with_id (JobCreate.company_id data)) ;;
  match c with
  | None =>
      raise (HTTPException 404 "Company not found. Create the company first.")
  | Some _ =>
      let jid := uuid4 in
      let now := utcnow in
      let doc := new_job_doc data jid now in
      insert_one col_jobs doc ;;
      update_one col_companies
        (company_with_id (JobCreate.company_id data))
        (inc_total_jobs_posted 1) ;;
      j <- _enrich_job doc ;;
      ret (mkJobPosted "Job posted successfully" j)
  end.

Definition get_job (job_id : string) : Handler EnrichedJob :=
  job <- find_one col_jobs (job_with_id job_id) ;;
  match job with
  | None => raise (HTTPException 404 "Job not found")
  | Some job =>
      update_one col_jobs (job_with_id job_id) (Job.inc_views 1) ;;
      let job := Job.set_views (Job.views job + 1) job in
      _enrich_job job
  end.

Definition delete_job (job_id : string) : Handler string :=
  n <- delete_one col_jobs (job_with_id job_id) ;;
  if Z.eqb n 0 then raise (HTTPException 404 "Job not found")
  else ret "Job deleted successfully".

(** ** Application core logic *)

(** What [requests.get(".../tokeninfo", ...)] produced.  [JsonObject e]:
    [resp.json()] is an object and [.get("email")] is the string [e]
    ([None] when the key is absent or holds anything but a string, which
    compares unequal to every email).  [JsonError]: [resp.json()] raised
    or its result has no [.get].  [RequestException]: the call itself
    raised (network error, timeout). *)
Inductive JsonBody :=
| JsonObject (email : option string)
| JsonError.

Inductive TokenInfo :=
| Response (status_code : Z) (body : JsonBody)
| RequestException.

Definition same_email (verified : option string) (claimed : string) : bool :=
  match verified with
  | Some e => String.eqb e claimed
  | None => false
  end.

(** Optional Google token verification. *)
Definition verify_google_token (tokeninfo : TokenInfo)
  (data : ApplicationCreate.t) : Handler unit :=
  if truthy (ApplicationCreate.google_access_token data) then
    match tokeninfo with
    | Response status_code body =>
        if negb (Z.eqb status_code 200) then
          raise (HTTPException 401 "Invalid Google authentication token.")
        else
          match body with
          | JsonObject email =>
              if negb (same_email email
                         (ApplicationCreate.applicant_email data))
              then raise (HTTPException 403 "Email mismatch with Google account.")
              else ret tt
          | JsonError => ret tt
          end
    | RequestException => ret tt
    end
  else ret tt.

(** The document [app_doc] that a submission stores. *)
Definition new_app_doc (data : ApplicationCreate.t) (id job_id : string)
  (job : Job.t) (company : option Company.t) (now : datetime)
  : Application.t :=
  Application.mk data id job_id (Job.title job)
    (match company with
     | Some c => Company.name c
     | None => "Unknown"
     end)
    pending now now None.

Definition _submit_application (tokeninfo : TokenInfo) (uuid4 : string)
  (utcnow : datetime) (job_id : string) (data : ApplicationCreate.t)
  : Handler Application.t :=
  job <- find_one col_jobs (job_with_id job_id) ;;
  match job with
  | None => raise (HTTPException 404 "Job not found")
  | Some job =>
      if negb (Job.is_active job) then
        raise (HTTPException 400 "This job listing is no longer active")
      else
        verify_google_token tokeninfo data ;;
        dup <- find_one col_applications
                 (application_of job_id
                    (ApplicationCreate.applicant_email data)) ;;
        match dup with
        | Some _ =>
            raise (HTTPException 409 "You have already applied for this job")
        | None =>
            company <- find_one col_companies
                         (company_with_id (Job.company_id job)) ;;
            let now := utcnow in
            let app_doc := new_app_doc data uuid4 job_id job company now in
            insert_one col_applications app_doc ;;
            update_one col_jobs (job_with_id job_id)
              (Job.inc_applications_count 1) ;;
            ret (_clean app_doc)
        end
  end.

(** ** Applications *)

Record Submitted := mkSubmitted {
  message : string;
  application_id : string;
  application : Application.t;
}.

Definition apply_for_job (tokeninfo : TokenInfo) (uuid4 : string)
  (utcnow : datetime) (job_id : string) (data : ApplicationCreate.t)
  : Handler Submitted :=
  app_doc <- _submit_application tokeninfo uuid4 utcnow job_id data ;;
  ret (mkSubmitted "Application submitted successfully!"
         (Application.id app_doc) app_doc).

(** Frontend sends this shape; we map it to the canonical model. *)
Definition apply_for_job_compat (tokeninfo : TokenInfo) (uuid4 : string)
  (utcnow : datetime) (data : ApplicationCreateCompat.t)
  : Handler Submitted :=
  let mapped :=
    ApplicationCreate.mk
      (ApplicationCreateCompat.full_name data)
      (ApplicationCreateCompat.email data)
      (ApplicationCreateCompat.google_access_token data)
      (ApplicationCreateCompat.phone data)
      (ApplicationCreateCompat.resume_url data)
      (ApplicationCreateCompat.cover_letter data)
      (ApplicationCreateCompat.linkedin_url data)
      (ApplicationCreateCompat.portfolio_url data)
      (ApplicationCreateCompat.years_experience data)
      (ApplicationCreateCompat.institution data)
      (ApplicationCreateCompat.graduation_year data) in
  app_doc <- _submit_application tokeninfo uuid4 utcnow
               (ApplicationCreateCompat.job_id data) mapped ;;
  ret (mkSubmitted "Application submitted successfully!"
         (Application.id app_doc) app_doc).

(** ** The listing query *)

(** [str.strip()].  A character of a string is a code point below 256;
    of these Python counts as whitespace 9 to 13, 28 to 32, 133 and
    160. *)
Definition isspace (c : ascii) : bool :=
  let n := nat_of_ascii c in
  (Nat.leb 9 n && Nat.leb n 13) || (Nat.leb 28 n && Nat.leb n 32) ||
  Nat.eqb n 133 || Nat.eqb n 160.

Fixpoint lstrip (s : string) : string :=
  match s with
  | EmptyString => EmptyString
  | String c s' => if isspace c then lstrip s' else s
  end.

Fixpoint rstrip (s : string) : string :=
  match s with
  | EmptyString => EmptyString
  | String c s' =>
      match rstrip s' with
      | EmptyString => if isspace c then EmptyString else String c EmptyString
      | r => String c r
      end
  end.

Definition strip (s : string) : string := rstrip (lstrip s).

(** The store's pattern matcher: [regex_i pattern] is what the store makes
    of [{"$regex": pattern, "$options": "i"}], the test it applies to a
    string field, or [None] for a pattern it cannot compile, which makes
    it refuse the whole query. *)
Class RegexEngine := { regex_i : string -> option (string -> bool) }.

(** The filter document [q], one field per key the handler may set. *)
Record JobFilter := mkJobFilter {
  q_is_active : option bool;
  q_or : option string;
  q_category : option string;
  q_job_type : option string;
  q_experience_level : option string;
  q_location : option string;
  q_is_remote : option bool;
  q_salary_max : option Z;
}.

(** A key that is not in the filter constrains nothing. *)
Definition when_set {A : Type} (c : option A) (test : A -> bool) : bool :=
  match c with
  | None => true
  | Some a => test a
  end.

(** [{"$gte": x}] matches a number that is at least [x], never [null]. *)
Definition gte (x : Z) (field : option Z) : bool :=
  match field with
  | Some v => Z.leb x v
  | None => false
  end.

Definition elemMatch (p : string -> bool) (field : option (list string))
  : bool :=
  match field with
  | Some l => List.existsb p l
  | None => false
  end.

Section ListJobs.
Context `{RegexEngine}.

(** The test of a pattern on a string field. *)
Definition regex_test (re s : string) : bool :=
  match regex_i re with
  | Some test => test s
  | None => false
  end.

Definition compiles (re : string) : bool :=
  match regex_i re with
  | Some _ => true
  | None => false
  end.

(** The documents that the filter document matches. *)
Definition matches (q : JobFilter) (j : Job.t) : bool :=
  when_set (q_is_active q) (Bool.eqb (Job.is_active j)) &&
  when_set (q_or q)
    (fun re => regex_test re (Job.title j)
               || regex_test re (Job.description j)
               || elemMatch (regex_test re) (Job.tags j)) &&
  when_set (q_category q) (fun re => regex_test re (Job.category j)) &&
  when_set (q_job_type q) (fun re => regex_test re (Job.job_type j)) &&
  when_set (q_experience_level q)
    (fun re => regex_test re (Job.experience_level j)) &&
  when_set (q_location q) (fun re => regex_test re (Job.location j)) &&
  when_set (q_is_remote q) (Bool.eqb (Job.is_remote j)) &&
  when_set (q_salary_max q) (fun x => gte x (Job.salary_max j)).

(** What keeps a filter document from being answered: the driver raises
    on a salary floor beyond 8 bytes, then the store on a pattern it
    cannot compile. *)
Definition refusal (q : JobFilter) : option Exception :=
  if negb (opt_int64 (q_salary_max q)) then Some OverflowError
  else if when_set (q_or q) compiles && when_set (q_category q) compiles &&
          when_set (q_job_type q) compiles &&
          when_set (q_experience_level q) compiles &&
          when_set (q_location q) compiles
  then None
  else Some OperationFailure.

(** [col_jobs.count_documents(q)] *)
Definition count_jobs (q : JobFilter) : Handler Z :=
  fun db =>
    match refusal q with
    | Some e => (Raised e, db)
    | None => (Returned (Cursor.count_documents (matches q) (jobs db)), db)
    end.

(** [col_jobs.find(q).sort(order).skip(skip).limit(limit)], read to the
    end: the driver raises on an offset beyond 8 bytes. *)
Definition find_jobs (q : JobFilter) (le : Job.t -> Job.t -> bool)
  (skip limit : Z) : Handler (list Job.t) :=
  fun db =>
    match refusal q with
    | Some e => (Raised e, db)
    | None =>
        if negb (int64 skip) then (Raised OverflowError, db)
        else
          (Returned
             (Cursor.limit limit
                (Cursor.skip skip
                   (Cursor.sort le (Cursor.find (matches q) (jobs db))))),
           db)
    end.

(** Query parameters of [GET /jobs]. *)
Record ListJobsParams := mkListJobsParams {
  search : option string;
  category : option string;
  job_type : option string;
  experience_level : option string;
  location : option string;
  is_remote : option bool;
  salary_min : option Z;
  active_only : bool;
  sort_by : string;
  page : Z;
  page_size : Z;
}.

Definition regex_of (param : option string) : option string :=
  if truthy param then option_map strip param else None.

Definition build_filter (p : ListJobsParams) : JobFilter :=
  mkJobFilter
    (if active_only p then Some true else None)
    (regex_of (search p))
    (regex_of (category p))
    (regex_of (job_type p))
    (regex_of (experience_level p))
    (regex_of (location p))
    (is_remote p)
    (salary_min p).

Inductive SortField :=
| by_created_at | by_salary_max | by_salary_min | by_applications_count.

Definition sort_map : list (string * (SortField * Direction)) :=
  [ ("newest", (by_created_at, DESCENDING));
    ("oldest", (by_created_at, ASCENDING));
    ("salary_high", (by_salary_max, DESCENDING));
    ("salary_low", (by_salary_min, ASCENDING));
    ("most_applied", (by_applications_count, DESCENDING)) ].

Fixpoint dict_get {V : Type} (d : list (string * V)) (k : string)
  (default : V) : V :=
  match d with
  | [] => default
  | (k', v) :: d' => if String.eqb k' k then v else dict_get d' k default
  end.

Definition sort_value (f : SortField) (j : Job.t) : option Z :=
  match f with
  | by_created_at => Some (Job.created_at j)
  | by_salary_max => Job.salary_max j
  | by_salary_min => Job.salary_min j
  | by_applications_count => Some (Job.applications_count j)
  end.

Definition job_le (o : SortField * Direction) : Job.t -> Job.t -> bool :=
  sort_le (sort_value (fst o)) (snd o).

Record Pagination := mkPagination {
  total : Z;
  pg_page : Z;
  pg_page_size : Z;
  total_pages : Z;
}.

Record JobsPage := mkJobsPage {
  page_jobs : list EnrichedJob;
  pagination : Pagination;
}.

Definition list_jobs (p : ListJobsParams) : Handler JobsPage :=
  let q := build_filter p in
  let sort_order := dict_get sort_map (sort_by p) (by_created_at, DESCENDING) in
  total <- count_jobs q ;;
  let skip := (page p - 1) * page_size p in
  found <- find_jobs q (job_le sort_order) skip (page_size p) ;;
  jobs <- mapM _enrich_job found ;;
  ret (mkJobsPage jobs
         (mkPagination total (page p) (page_size p)
            (Z.max 1 ((total + page_size p - 1) / page_size p)))).

End ListJobs.

(** ** Seed data (skipped if the database already has data)

    [c1 c2 c3] and [ids] are the successive results of [uuid.uuid4()]. *)

Definition seed_job (title company_id category job_type experience_level
  location : string) (is_remote : bool) (description : string)
  (responsibilities requirements nice_to_have : list string)
  (salary_min salary_max : Z) (application_deadline : string)
  (openings : Z) (tags : list string) (id : string) (now : datetime)
  : Job.t :=
  Job.mk title company_id category job_type experience_level location
    is_remote description responsibilities requirements (Some nice_to_have)
    (Some salary_min) (Some salary_max) "INR" (Some application_deadline)
    openings (Some tags) id true 0 0 now now.

Definition seeds (c1 c2 c3 : string) : list (string -> datetime -> Job.t) :=
  [ seed_job "Backend Engineering Intern" c1 "Technology" "Internship"
      "Internship / No Experience" "Bangalore, India" true
      "Join our core backend team and build production-grade REST APIs using Python and FastAPI."
      ["Develop REST APIs using FastAPI"; "Write unit tests";
       "Participate in standups"]
      ["Pursuing B.Tech/BE in CS"; "Proficiency in Python";
       "Understands HTTP/REST"]
      ["Docker experience"; "Open-source contributions"]
      15000 25000 "2025-09-30" 3
      ["python"; "fastapi"; "backend"; "intern"];
    seed_job "Full Stack Developer" c1 "Technology" "Full-Time"
      "Mid Level" "Bangalore, India" false
      "We're looking for a Full Stack Developer to join our product team."
      ["Ship product features"; "Collaborate with designers";
       "Mentor junior engineers"]
      ["2+ years experience"; "React + Node.js or Python";
       "PostgreSQL experience"]
      ["AWS/GCP experience"; "TypeScript"]
      800000 1400000 "2025-10-15" 2
      ["react"; "nodejs"; "fullstack"; "postgres"];
    seed_job "Finance & Investment Intern" c2 "Finance" "Internship"
      "Internship / No Experience" "Mumbai, India" false
      "Get real-world exposure to equity research and financial modelling."
      ["Equity research"; "Build financial models";
       "Prepare investment memos"]
      ["MBA (Finance) or B.Com final year"; "Strong Excel skills"]
      ["CFA Level 1"; "Bloomberg Terminal"]
      20000 30000 "2025-09-20" 2
      ["finance"; "equity"; "excel"; "intern"];
    seed_job "UI/UX Design Intern" c3 "Design" "Internship"
      "Internship / No Experience" "Hyderabad, India" true
      "Work alongside senior designers on real client projects."
      ["Create wireframes and prototypes"; "User research"; "Dev handoff"]
      ["Degree in Design/HCI"; "Proficient in Figma"; "Portfolio required"]
      ["Motion design"; "Design systems experience"]
      12000 18000 "2025-10-01" 1
      ["figma"; "ux"; "ui"; "design"; "intern"] ].

Fixpoint insert_seeds (seeds : list (string -> datetime -> Job.t))
  (ids : list string) (now : datetime) : Handler unit :=
  match seeds, ids with
  | s :: seeds', id :: ids' =>
      insert_one col_jobs (s id now) ;; insert_seeds seeds' ids' now
  | _, _ => ret tt
  end.

Definition _seed (c1 c2 c3 : string) (ids : list string) (now : datetime)
  : Handler unit :=
  n <- count_documents col_companies (fun _ => true) ;;
  if Z.ltb 0 n then ret tt
  else
    insert_one col_companies
      (Company.mk
         (CompanyCreate.mk "TechNova Solutions" "Software Development"
            (Some "https://technova.io")
            (Some "Building next-gen cloud platforms for enterprises.")
            (Some "https://placehold.co/100x100?text=TN")
            "Bangalore, India")
         c1 now 2) ;;
    insert_one col_companies
      (Company.mk
         (CompanyCreate.mk "FinEdge Capital" "Finance & Fintech"
            (Some "https://finedge.in")
            (Some "Democratizing investment for retail investors.")
            (Some "https://placehold.co/100x100?text=FE")
            "Mumbai, India")
         c2 now 1) ;;
    insert_one col_companies
      (Company.mk
         (CompanyCreate.mk "DesignPulse Agency" "Design & Creative"
            (Some "https://designpulse.co")
            (Some "Award-winning UI/UX agency.")
            (Some "https://placehold.co/100x100?text=DP")
            "Hyderabad, India")
         c3 now 1) ;;
    insert_seeds (seeds c1 c2 c3) ids now.

(** ** Sample data *)

Module Sample.

Definition empty : DB := mkDB [] [] [] [].

(** The database right after start-up on an empty store. *)
Definition seeded : DB :=
  snd (_seed "c1" "c2" "c3" ["j1"; "j2"; "j3"; "j4"] 1000 empty).

Definition asha : ApplicationCreate.t :=
  ApplicationCreate.mk "Asha Rao" "asha@example.com" None None
    "https://example.com/asha.pdf" None None None (Some 0) None
    (Some 2026).

Definition asha_with_token : ApplicationCreate.t :=
  ApplicationCreate.mk "Asha Rao" "asha@example.com" (Some "ya29.token")
    None "https://example.com/asha.pdf" None None None (Some 0) None
    (Some 2026).

Definition asha_compat : ApplicationCreateCompat.t :=
  ApplicationCreateCompat.mk "j1" "Asha Rao" "asha@example.com" None None
    "https://example.com/asha.pdf" None None None (Some 0) None
    (Some 2026).

(** [seeded] after Asha applied to job [j1]. *)
Definition applied : DB :=
  snd (_submit_application RequestException "a1" 2000 "j1" asha seeded).

(** [applied] after job [j1] was deleted. *)
Definition applied_deleted : DB := snd (delete_job "j1" applied).

(** A matcher for patterns without metacharacters: case-insensitive
    substring search on ASCII letters.  It refuses the pattern that is a
    lone opening parenthesis. *)
Definition lower (c : ascii) : ascii :=
  let n := nat_of_ascii c in
  if Nat.leb 65 n && Nat.leb n 90 then ascii_of_nat (n + 32) else c.

Fixpoint lower_string (s : string) : string :=
  match s with
  | EmptyString => EmptyString
  | String c s' => String (lower c) (lower_string s')
  end.

Fixpoint contains (pat s : string) : bool :=
  String.prefix pat s ||
  match s with
  | EmptyString => false
  | String _ s' => contains pat s'
  end.

(** One company and twenty-five open jobs, with identifiers [A] to [Y]. *)
Definition letter (n : nat) : string :=
  String (ascii_of_nat (65 + n)) EmptyString.

Definition twenty_five : DB :=
  mkDB (companies seeded)
    (map (fun n =>
            seed_job "Engineer" "c1" "Technology" "Full-Time" "Mid Level"
              "Pune, India" false "Build things." [] [] [] 100 200
              "2026-01-01" 1 [] (letter n) (Z.of_nat n))
       (List.seq 0 25))
    [] [].

(** [applied] with job [j1] closed to applications. *)
Definition close (j : Job.t) : Job.t :=
  Job.mk (Job.title j) (Job.company_id j) (Job.category j) (Job.job_type j)
    (Job.experience_level j) (Job.location j) (Job.is_remote j)
    (Job.description j) (Job.responsibilities j) (Job.requirements j)
    (Job.nice_to_have j) (Job.salary_min j) (Job.salary_max j)
    (Job.salary_currency j) (Job.application_deadline j) (Job.openings j)
    (Job.tags j) (Job.id j) false (Job.views j) (Job.applications_count j)
    (Job.created_at j) (Job.updated_at j).

Definition applied_closed : DB :=
  mkDB (companies applied)
    (Cursor.update_one (job_with_id "j1") close (jobs applied))
    (applications applied) (bookmarks applied).

Definition new_job : JobCreate.t :=
  JobCreate.mk "Data Analyst" "c1" technology full_time entry
    "Pune, India" false "Analyse product data." ["Build dashboards"]
    ["SQL"] (Some []) (Some 500000) None "INR" (Some "2026-03-31") 1
    (Some ["sql"]).

(** [GET /jobs?salary_min=25000&sort_by=salary_low] *)
Definition floor_25000 : ListJobsParams :=
  mkListJobsParams None None None None None None (Some 25000) true
    "salary_low" 1 10.

(** [GET /jobs?page=n&page_size=10] *)
Definition tenth (n : Z) : ListJobsParams :=
  mkListJobsParams None None None None None None None true "newest" n 10.

(** [GET /jobs?search=(] *)
Definition open_paren : ListJobsParams :=
  mkListJobsParams (Some "(") None None None None None None true "newest"
    1 10.

#[export] Instance literal_engine : RegexEngine :=
  {| regex_i := fun re =>
       if String.eqb re "(" then None
       else Some (fun s => contains (lower_string re) (lower_string s)) |}.

End Sample.

(** ** Vocabulary of the statements *)

(** An application for the pair (job identifier, applicant email) is
    stored. *)
Definition applied_already (job_id email : string) (db : DB) : Prop :=
  exists a, In a (applications db) /\ Application.job_id a = job_id /\
            Application.applicant_email a = email.

(** [{"job_id": job_id}] *)
Definition application_for (job_id : string) (a : Application.t) : bool :=
  String.eqb (Application.job_id a) job_id.

(** Each listing's counter is the number of stored applications that
    reference it. *)
Definition counters_agree (db : DB) : Prop :=
  forall L, In L (jobs db) ->
    Job.applications_count L =
    Cursor.count_documents (application_for (Job.id L)) (applications db).

(** The unique index on the job identifier. *)
Definition unique_job_ids (db : DB) : Prop := NoDup (map Job.id (jobs db)).

(** What the handlers keep true of the stored jobs, and when a new job
    identifier is safe for it: no stored application references it. *)
Definition consistent (db : DB) : Prop :=
  unique_job_ids db /\ counters_agree db.

Definition unreferenced (job_id : string) (db : DB) : Prop :=
  forall a, In a (applications db) -> Application.job_id a <> job_id.

(** A submission request with what it reads from outside, and a
    sequential run of such requests. *)
Record Submission := mkSubmission {
  sub_tokeninfo : TokenInfo;
  sub_uuid4 : string;
  sub_utcnow : datetime;
  sub_job_id : string;
  sub_data : ApplicationCreate.t;
}.

Definition submit (s : Submission) (db : DB) : Outcome Application.t * DB :=
  _submit_application (sub_tokeninfo s) (sub_uuid4 s) (sub_utcnow s)
    (sub_job_id s) (sub_data s) db.

Fixpoint submit_all (l : list Submission) (db : DB) : DB :=
  match l with
  | [] => db
  | s :: l' => submit_all l' (snd (submit s db))
  end.

(** The failures of the external call that the code swallows: the
    request raised (network error, timeout), or the success response
    carries no JSON object.  A success response whose JSON object has no
    email is not among them. *)
Definition call_failed (tokeninfo : TokenInfo) : Prop :=
  tokeninfo = RequestException \/ tokeninfo = Response 200 JsonError.

(** The failures of the external call other than a non-success status
    and a verified email that differs, read as widely as the words
    network error, timeout, unexpected payload allow: the request raised,
    or the success response carries a payload other than a JSON object
    with an email. *)
Definition other_failure (tokeninfo : TokenInfo) : Prop :=
  tokeninfo = RequestException \/
  tokeninfo = Response 200 JsonError \/
  tokeninfo = Response 200 (JsonObject None).

(** The same request without an identity token. *)
Definition without_token (d : ApplicationCreate.t) : ApplicationCreate.t :=
  ApplicationCreate.mk (ApplicationCreate.applicant_name d)
    (ApplicationCreate.applicant_email d) None (ApplicationCreate.phone d)
    (ApplicationCreate.resume_url d) (ApplicationCreate.cover_letter d)
    (ApplicationCreate.linkedin_url d) (ApplicationCreate.portfolio_url d)
    (ApplicationCreate.years_of_experience d)
    (ApplicationCreate.current_institution d)
    (ApplicationCreate.graduation_year d).

(** A stored application with its [google_access_token] key blanked, and
    the result of a submission with that key blanked in every
    application. *)
Definition forget_token (a : Application.t) : Application.t :=
  Application.mk (without_token (Application.fields a)) (Application.id a)
    (Application.job_id a) (Application.job_title a)
    (Application.company_name a) (Application.status a)
    (Application.applied_at a) (Application.updated_at a)
    (Application.notes a).

Definition forget_tokens (r : Outcome Application.t * DB)
  : Outcome Application.t * DB :=
  (match fst r with
   | Returned a => Returned (forget_token a)
   | Raised e => Raised e
   end,
   mkDB (companies (snd r)) (jobs (snd r))
     (map forget_token (applications (snd r))) (bookmarks (snd r))).

(** The renaming of the alternate shape, field by field: [full_name] to
    [applicant_name], [email] to [applicant_email], [years_experience] to
    [years_of_experience], [institution] to [current_institution], every
    other field under its own name. *)
Definition canonical_shape (d : ApplicationCreateCompat.t)
  : ApplicationCreate.t :=
  {| ApplicationCreate.applicant_name := ApplicationCreateCompat.full_name d;
     ApplicationCreate.applicant_email := ApplicationCreateCompat.email d;
     ApplicationCreate.google_access_token :=
       ApplicationCreateCompat.google_access_token d;
     ApplicationCreate.phone := ApplicationCreateCompat.phone d;
     ApplicationCreate.resume_url := ApplicationCreateCompat.resume_url d;
     ApplicationCreate.cover_letter := ApplicationCreateCompat.cover_letter d;
     ApplicationCreate.linkedin_url := ApplicationCreateCompat.linkedin_url d;
     ApplicationCreate.portfolio_url :=
       ApplicationCreateCompat.portfolio_url d;
     ApplicationCreate.years_of_experience :=
       ApplicationCreateCompat.years_experience d;
     ApplicationCreate.current_institution :=
       ApplicationCreateCompat.institution d;
     ApplicationCreate.graduation_year :=
       ApplicationCreateCompat.graduation_year d |}.

(** The renaming read backwards. *)
Definition compat_shape (job_id : string) (d : ApplicationCreate.t)
  : ApplicationCreateCompat.t :=
  {| ApplicationCreateCompat.job_id := job_id;
     ApplicationCreateCompat.full_name := ApplicationCreate.applicant_name d;
     ApplicationCreateCompat.email := ApplicationCreate.applicant_email d;
     ApplicationCreateCompat.google_access_token :=
       ApplicationCreate.google_access_token d;
     ApplicationCreateCompat.phone := ApplicationCreate.phone d;
     ApplicationCreateCompat.resume_url := ApplicationCreate.resume_url d;
     ApplicationCreateCompat.cover_letter := ApplicationCreate.cover_letter d;
     ApplicationCreateCompat.linkedin_url := ApplicationCreate.linkedin_url d;
     ApplicationCreateCompat.portfolio_url :=
       ApplicationCreate.portfolio_url d;
     ApplicationCreateCompat.years_experience :=
       ApplicationCreate.years_of_experience d;
     ApplicationCreateCompat.institution :=
       ApplicationCreate.current_institution d;
     ApplicationCreateCompat.graduation_year :=
       ApplicationCreate.graduation_year d |}.

(** The same query with another [salary_min]. *)
Definition with_salary_min (x : option Z) (p : ListJobsParams)
  : ListJobsParams :=
  mkListJobsParams (search p) (category p) (job_type p)
    (experience_level p) (location p) (is_remote p) x (active_only p)
    (sort_by p) (page p) (page_size p).

(** The listing's maximum salary is defined and at least [x]. *)
Definition max_salary_at_least (x : Z) (j : Job.t) : Prop :=
  exists m, Job.salary_max j = Some m /\ x <= m.

(** [ceil(a / b)] for a positive [b]. *)
Definition ceil_div (a b : Z) : Z :=
  if Z.eqb (a mod b) 0 then a / b else a / b + 1.

(** A job with its company attached, as [_enrich_job] finds it in [db]. *)
Definition enriched (db : DB) (j : Job.t) : EnrichedJob :=
  mkEnrichedJob j
    (Cursor.find_one (company_with_id (Job.company_id j)) (companies db)).

(** The driver can encode the job that a request describes: the ints of
    the request fit 8 bytes (the two counters start at zero). *)
Definition job_request_encodable (data : JobCreate.t) : bool :=
  opt_int64 (JobCreate.salary_min data) &&
  opt_int64 (JobCreate.salary_max data) && int64 (JobCreate.openings data).

(** The driver and the store answer the query: the salary floor and the
    offset fit 8 bytes and every pattern compiles. *)
Definition answered `{RegexEngine} (p : ListJobsParams) : Prop :=
  refusal (build_filter p) = None /\
  int64 ((page p - 1) * page_size p) = true.

(** * The remaining handlers *)

(** ** General *)

Module Health.
Record t := mk {
  status : string;
  total_companies : Z;
  total_jobs : Z;
  active_jobs : Z;
  total_applications : Z;
  docs : string;
}.
End Health.

(** [{"is_active": True}] *)
Definition active (j : Job.t) : bool := Bool.eqb (Job.is_active j) true.

(** [{}] *)
Definition every {A : Type} (d : A) : bool := true.

Definition root : Handler Health.t :=
  nc <- count_documents col_companies every ;;
  nj <- count_documents col_jobs every ;;
  na <- count_documents col_jobs active ;;
  np <- count_documents col_applications every ;;
  ret (Health.mk "CareerNest API running (MongoDB)" nc nj na np "/docs").

(** ** Companies *)

Definition create_company (uuid4 : string) (utcnow : datetime)
  (data : CompanyCreate.t) : Handler Company.t :=
  let cid := uuid4 in
  let doc := Company.mk data cid utcnow 0 in
  insert_one col_companies doc ;;
  ret (_clean doc).

Module CompanyList.
Record t := mk {
  companies : list Company.t;
  total : Z;
}.
End CompanyList.

Definition list_companies : Handler CompanyList.t :=
  cs <- find col_companies every ;;
  n <- count_documents col_companies every ;;
  ret (CompanyList.mk (map _clean cs) n).

Module CompanyProfile.
Record t := mk {
  company : Company.t;
  active_jobs : list Job.t;
  active_jobs_count : Z;
}.
End CompanyProfile.

(** [{"company_id": company_id, "is_active": True}] *)
Definition active_job_of (company_id : string) (j : Job.t) : bool :=
  String.eqb (Job.company_id j) company_id && Bool.eqb (Job.is_active j) true.

Definition get_company (company_id : string) : Handler CompanyProfile.t :=
  c <- find_one col_companies (company_with_id company_id) ;;
  match c with
  | None => raise (HTTPException 404 "Company not found")
  | Some c =>
      found <- find col_jobs (active_job_of company_id) ;;
      let jobs := map _clean found in
      ret (CompanyProfile.mk (_clean c) jobs (Z.of_nat (List.length jobs)))
  end.

(** ** Updating a job *)

Module JobUpdate.
Record t := mk {
  title : option string;
  description : option string;
  responsibilities : option (list string);
  requirements : option (list string);
  nice_to_have : option (list string);
  salary_min : option Z;
  salary_max : option Z;
  application_deadline : option date;
  openings : option Z;
  is_active : option bool;
  tags : option (list string);
}.
End JobUpdate.

(** A key of [updates]: the dumped value when it is not [None], else the
    stored value stays. *)
Definition updated {A : Type} (v : option A) (stored : A) : A :=
  match v with
  | Some x => x
  | None => stored
  end.

(** The same for a stored field that may hold [null]. *)
Definition updated_opt {A : Type} (v : option A) (stored : option A)
  : option A :=
  match v with
  | Some x => Some x
  | None => stored
  end.

(** [{"$set": updates}] for the [updates] of a request without an
    [application_deadline]: every key of the request that is not [None],
    and [updated_at]. *)
Definition set_updates (data : JobUpdate.t) (now : datetime) (j : Job.t)
  : Job.t :=
  Job.mk (updated (JobUpdate.title data) (Job.title j)) (Job.company_id j)
    (Job.category j) (Job.job_type j) (Job.experience_level j)
    (Job.location j) (Job.is_remote j)
    (updated (JobUpdate.description data) (Job.description j))
    (updated (JobUpdate.responsibilities data) (Job.responsibilities j))
    (updated (JobUpdate.requirements data) (Job.requirements j))
    (updated_opt (JobUpdate.nice_to_have data) (Job.nice_to_have j))
    (updated_opt (JobUpdate.salary_min data) (Job.salary_min j))
    (updated_opt (JobUpdate.salary_max data) (Job.salary_max j))
    (Job.salary_currency j) (Job.application_deadline j)
    (updated (JobUpdate.openings data) (Job.openings j))
    (updated_opt (JobUpdate.tags data) (Job.tags j)) (Job.id j)
    (updated (JobUpdate.is_active data) (Job.is_active j)) (Job.views j)
    (Job.applications_count j) (Job.created_at j) now.

(** What a handler can end with besides returning or raising an
    [Exception]: [InvalidDocument], raised by the driver for a value of a
    type it cannot encode, before anything is sent to the store (here a
    [datetime.date], which [model_dump] leaves as it is), and
    [AttributeError], raised by [_enrich_job] on [None]. *)
Inductive Crash := InvalidDocument | AttributeError.

(** The driver encodes the keys of [updates] in the order of the request
    model and raises at the first value it cannot encode: [salary_min],
    [salary_max], [application_deadline], [openings]. *)
Definition updates_refusal (data : JobUpdate.t)
  : option (Crash + Exception) :=
  if negb (opt_int64 (JobUpdate.salary_min data)) then Some (inr OverflowError)
  else if negb (opt_int64 (JobUpdate.salary_max data))
  then Some (inr OverflowError)
  else
    match JobUpdate.application_deadline data with
    | Some _ => Some (inl InvalidDocument)
    | None =>
        if negb (opt_int64 (JobUpdate.openings data))
        then Some (inr OverflowError)
        else None
    end.

Module JobUpdated.
Record t := mk {
  message : string;
  job : EnrichedJob;
}.
End JobUpdated.

Definition update_job (utcnow : datetime) (job_id : string)
  (data : JobUpdate.t) (db : DB) : (Crash + Outcome JobUpdated.t) * DB :=
  match Cursor.find_one (job_with_id job_id) (jobs db) with
  | None => (inr (Raised (HTTPException 404 "Job not found")), db)
  | Some _ =>
      match updates_refusal data with
      | Some (inl c) => (inl c, db)
      | Some (inr e) => (inr (Raised e), db)
      | None =>
          let db1 :=
            snd (update_one col_jobs (job_with_id job_id)
                   (set_updates data utcnow) db) in
          match Cursor.find_one (job_with_id job_id) (jobs db1) with
          | None => (inl AttributeError, db1)
          | Some j =>
              match _enrich_job j db1 with
              | (Returned e, db2) =>
                  (inr (Returned (JobUpdated.mk "Job updated" e)), db2)
              | (Raised x, db2) => (inr (Raised x), db2)
              end
          end
      end
  end.

(** ** Reading and reviewing applications *)

Definition ApplicationStatus_value (s : ApplicationStatus) : string :=
  match s with
  | pending => "Pending"
  | reviewing => "Reviewing"
  | shortlisted => "Shortlisted"
  | rejected => "Rejected"
  | accepted => "Accepted"
  end.

(** [{"status": status}] *)
Definition with_status (s : ApplicationStatus) (a : Application.t) : bool :=
  String.eqb (ApplicationStatus_value (Application.status a))
    (ApplicationStatus_value s).

(** [{"id": application_id}] *)
Definition application_with_id (application_id : string)
  (a : Application.t) : bool :=
  String.eqb (Application.id a) application_id.

(** [{"applicant_email": email}] *)
Definition application_by (email : string) (a : Application.t) : bool :=
  String.eqb (Application.applicant_email a) email.

Module ApplicationList.
Record t := mk {
  applications : list Application.t;
  total : Z;
}.
End ApplicationList.

(** Every member of [ApplicationStatus] is a non-empty string, so
    [if status:] tests for [None]. *)
Definition get_job_applications (job_id : string)
  (status : option ApplicationStatus) : Handler ApplicationList.t :=
  j <- find_one col_jobs (job_with_id job_id) ;;
  match j with
  | None => raise (HTTPException 404 "Job not found")
  | Some _ =>
      found <- find col_applications
                 (fun a => application_for job_id a &&
                           when_set status (fun s => with_status s a)) ;;
      let apps := map _clean found in
      ret (ApplicationList.mk apps (Z.of_nat (List.length apps)))
  end.

Definition get_application (application_id : string)
  : Handler Application.t :=
  a <- find_one col_applications (application_with_id application_id) ;;
  match a with
  | None => raise (HTTPException 404 "Application not found")
  | Some a => ret (_clean a)
  end.

Module ApplicationStatusUpdate.
Record t := mk {
  status : ApplicationStatus;
  notes : option string;
}.
End ApplicationStatusUpdate.

(** [{"$set": updates}]: [status] and [updated_at] always, [notes] when
    the request's notes are truthy. *)
Definition set_status (data : ApplicationStatusUpdate.t) (now : datetime)
  (a : Application.t) : Application.t :=
  Application.mk (Application.fields a) (Application.id a)
    (Application.job_id a) (Application.job_title a)
    (Application.company_name a) (ApplicationStatusUpdate.status data)
    (Application.applied_at a) now
    (if truthy (ApplicationStatusUpdate.notes data)
     then ApplicationStatusUpdate.notes data
     else Application.notes a).

Module StatusUpdated.
Record t := mk {
  message : string;
  application : option Application.t;
}.
End StatusUpdated.

(** [format_status] is how the interpreter renders an enum member inside
    an f-string, which differs between Python versions (the member's value
    or its qualified name). *)
Definition update_application_status
  (format_status : ApplicationStatus -> string) (utcnow : datetime)
  (application_id : string) (data : ApplicationStatusUpdate.t)
  : Handler StatusUpdated.t :=
  a <- find_one col_applications (application_with_id application_id) ;;
  match a with
  | None => raise (HTTPException 404 "Application not found")
  | Some _ =>
      update_one col_applications (application_with_id application_id)
        (set_status data utcnow) ;;
      a' <- find_one col_applications
              (application_with_id application_id) ;;
      ret (StatusUpdated.mk
             (String.append "Status updated to '"
                (String.append
                   (format_status (ApplicationStatusUpdate.status data))
                   "'"))
             (option_map _clean a'))
  end.

Module StudentApplications.
Record t := mk {
  applications : list Application.t;
  total : Z;
  message : option string;
}.
End StudentApplications.

Definition get_student_applications (email : string)
  : Handler StudentApplications.t :=
  found <- find col_applications (application_by email) ;;
  let apps := map _clean found in
  ret (StudentApplications.mk apps (Z.of_nat (List.length apps))
         (match apps with
          | [] => Some "No applications found for this email"
          | _ :: _ => None
          end)).

(** ** Bookmarks

    [col_bookmarks] carries a lookup index only, no unique one: an insert
    into it never raises. *)

Module BookmarkCreate.
Record t := mk {
  student_email : string;
  job_id : string;
}.
End BookmarkCreate.

(** [{"student_email": student_email, "job_id": job_id}] *)
Definition bookmark_of (student_email job_id : string) (b : Bookmark.t)
  : bool :=
  String.eqb (Bookmark.student_email b) student_email &&
  String.eqb (Bookmark.job_id b) job_id.

(** [{"student_email": email}] *)
Definition bookmark_by (email : string) (b : Bookmark.t) : bool :=
  String.eqb (Bookmark.student_email b) email.

Definition set_bookmarks (c : list Bookmark.t) (db : DB) : DB :=
  mkDB (companies db) (jobs db) (applications db) c.

Definition bookmarks_find_one (p : Bookmark.t -> bool)
  : Handler (option Bookmark.t) :=
  fun db => (Returned (Cursor.find_one p (bookmarks db)), db).

Definition bookmarks_find (p : Bookmark.t -> bool)
  : Handler (list Bookmark.t) :=
  fun db => (Returned (Cursor.find p (bookmarks db)), db).

Definition bookmarks_insert_one (d : Bookmark.t) : Handler unit :=
  fun db => (Returned tt, set_bookmarks (bookmarks db ++ [d]) db).

(** Returns [deleted_count]. *)
Definition bookmarks_delete_one (p : Bookmark.t -> bool) : Handler Z :=
  fun db =>
    let (c, n) := Cursor.delete_one p (bookmarks db) in
    (Returned n, set_bookmarks c db).

Definition bookmarks_count_documents (p : Bookmark.t -> bool) : Handler Z :=
  fun db => (Returned (Cursor.count_documents p (bookmarks db)), db).

Definition bookmark_job (utcnow : datetime) (data : BookmarkCreate.t)
  : Handler string :=
  j <- find_one col_jobs (job_with_id (BookmarkCreate.job_id data)) ;;
  match j with
  | None => raise (HTTPException 404 "Job not found")
  | Some _ =>
      b <- bookmarks_find_one
             (bookmark_of (BookmarkCreate.student_email data)
                (BookmarkCreate.job_id data)) ;;
      match b with
      | Some _ => raise (HTTPException 409 "Job already bookmarked")
      | None =>
          bookmarks_insert_one
            (Bookmark.mk (BookmarkCreate.student_email data)
               (BookmarkCreate.job_id data) utcnow) ;;
          ret "Job bookmarked successfully"
      end
  end.

Definition remove_bookmark (data : BookmarkCreate.t) : Handler string :=
  n <- bookmarks_delete_one
         (bookmark_of (BookmarkCreate.student_email data)
            (BookmarkCreate.job_id data)) ;;
  if Z.eqb n 0 then raise (HTTPException 404 "Bookmark not found")
  else ret "Bookmark removed".

Module BookmarkList.
Record t := mk {
  bookmarks : list EnrichedJob;
  total : Z;
}.
End BookmarkList.

(** The loop over the student's bookmarks: [jobs] is the list built so
    far. *)
Fixpoint bookmarked_jobs (bms : list Bookmark.t) (jobs : list EnrichedJob)
  : Handler (list EnrichedJob) :=
  match bms with
  | [] => ret jobs
  | bm :: bms' =>
      job <- find_one col_jobs (job_with_id (Bookmark.job_id bm)) ;;
      match job with
      | Some job =>
          e <- _enrich_job job ;;
          bookmarked_jobs bms' (jobs ++ [e])
      | None => bookmarked_jobs bms' jobs
      end
  end.

Definition get_bookmarks (email : string) : Handler BookmarkList.t :=
  bms <- bookmarks_find (bookmark_by email) ;;
  jobs <- bookmarked_jobs bms [] ;;
  ret (BookmarkList.mk jobs (Z.of_nat (List.length jobs))).

(** ** Stats *)

(** A [dict] with string keys, in insertion order. *)
Fixpoint dict_set {V : Type} (d : list (string * V)) (k : string) (v : V)
  : list (string * V) :=
  match d with
  | [] => [(k, v)]
  | (k', v') :: d' =>
      if String.eqb k' k then (k', v) :: d' else (k', v') :: dict_set d' k v
  end.

(** [d[k] = d.get(k, 0) + 1] *)
Definition count_one (d : list (string * Z)) (k : string)
  : list (string * Z) :=
  dict_set d k (dict_get d k 0 + 1).

(** [sorted(l, key=key, reverse=True)]: a stable sort, equal keys keep
    their order. *)
Definition sorted_reverse {A : Type} (key : A -> Z) (l : list A) : list A :=
  Cursor.sort (fun a b => Z.leb (key b) (key a)) l.

Module Overview.
Record t := mk {
  total_companies : Z;
  total_jobs : Z;
  active_jobs : Z;
  total_applications : Z;
  total_bookmarks : Z;
}.
End Overview.

Module Stats.
Record t := mk {
  overview : Overview.t;
  jobs_by_category : list (string * Z);
  jobs_by_type : list (string * Z);
  applications_by_status : list (string * Z);
  most_viewed_jobs : list Job.t;
  most_applied_jobs : list Job.t;
}.
End Stats.

Definition get_stats : Handler Stats.t :=
  jobs <- find col_jobs every ;;
  apps <- find col_applications every ;;
  let (cat_breakdown, type_breakdown) :=
    List.fold_left
      (fun (acc : list (string * Z) * list (string * Z)) j =>
         (count_one (fst acc) (Job.category j),
          count_one (snd acc) (Job.job_type j)))
      jobs ([], []) in
  let status_breakdown :=
    List.fold_left
      (fun acc a =>
         count_one acc (ApplicationStatus_value (Application.status a)))
      apps [] in
  nc <- count_documents col_companies every ;;
  na <- count_documents col_jobs active ;;
  nb <- bookmarks_count_documents every ;;
  ret (Stats.mk
         (Overview.mk nc (Z.of_nat (List.length jobs)) na
            (Z.of_nat (List.length apps)) nb)
         cat_breakdown type_breakdown status_breakdown
         (map _clean (List.firstn 5 (sorted_reverse Job.views jobs)))
         (map _clean
            (List.firstn 5 (sorted_reverse Job.applications_count jobs)))).

(** ** Vocabulary of the further statements *)

(** The pair (student email, job identifier) is bookmarked. *)
Definition bookmarked (student_email job_id : string) (db : DB) : Prop :=
  exists b, In b (bookmarks db) /\ Bookmark.student_email b = student_email /\
            Bookmark.job_id b = job_id.

Definition bookmark_key (b : Bookmark.t) : string * string :=
  (Bookmark.student_email b, Bookmark.job_id b).

(** At most one bookmark per (student email, job identifier). *)
Definition unique_bookmarks (db : DB) : Prop :=
  NoDup (map bookmark_key (bookmarks db)).

Definition application_key (a : Application.t) : string * string :=
  (Application.job_id a, Application.applicant_email a).

(** At most one application per (job identifier, applicant email), and
    per application identifier. *)
Definition unique_applications (db : DB) : Prop :=
  NoDup (map application_key (applications db)).

Definition unique_application_ids (db : DB) : Prop :=
  NoDup (map Application.id (applications db)).

(** The sum of the counts of a breakdown. *)
Definition dict_total (d : list (string * Z)) : Z :=
  List.fold_right Z.add 0 (map snd d).

(** The store after [n] fetches of one job in a row. *)
Fixpoint fetched (n : nat) (job_id : string) (db : DB) : DB :=
  match n with
  | O => db
  | S n' => fetched n' job_id (snd (get_job job_id db))
  end.

(** The same query for another page. *)
Definition with_page (n : Z) (p : ListJobsParams) : ListJobsParams :=
  mkListJobsParams (search p) (category p) (job_type p)
    (experience_level p) (location p) (is_remote p) (salary_min p)
    (active_only p) (sort_by p) n (page_size p).

(** The same query under another sort key. *)
Definition with_sort_by (k : string) (p : ListJobsParams) : ListJobsParams :=
  mkListJobsParams (search p) (category p) (job_type p)
    (experience_level p) (location p) (is_remote p) (salary_min p)
    (active_only p) k (page p) (page_size p).

(** Non-increasing in [key]. *)
Fixpoint descending {A : Type} (key : A -> Z) (l : list A) : Prop :=
  match l with
  | [] => True
  | x :: l' => (forall y, In y l' -> key y <= key x) /\ descending key l'
  end.

(** The listings on page [n] of a query, and the first [count] pages one
    after the other. *)
Definition page_of `{RegexEngine} (p : ListJobsParams) (db : DB) (n : Z)
  : list EnrichedJob :=
  match fst (list_jobs (with_page n p) db) with
  | Returned r => page_jobs r
  | Raised _ => []
  end.

Definition pages `{RegexEngine} (count : nat) (p : ListJobsParams) (db : DB)
  : list EnrichedJob :=
  List.flat_map (fun i => page_of p db (Z.of_nat i + 1)) (List.seq 0 count).

(** The number of pages that a query reports, asked on its first page. *)
Definition page_count `{RegexEngine} (p : ListJobsParams) (db : DB) : Z :=
  match fst (list_jobs (with_page 1 p) db) with
  | Returned r => total_pages (pagination r)
  | Raised _ => 0
  end.

(** A document without its timestamps: what a statement can say of a
    document that is read back from the store, which keeps a datetime to
    the millisecond, when it compares it with the document a handler
    built. *)
Definition company_undated (c : Company.t) : Company.t :=
  Company.mk (Company.fields c) (Company.id c) 0
    (Company.total_jobs_posted c).

Definition job_undated (j : Job.t) : Job.t :=
  Job.mk (Job.title j) (Job.company_id j) (Job.category j)
    (Job.job_type j) (Job.experience_level j) (Job.location j)
    (Job.is_remote j) (Job.description j) (Job.responsibilities j)
    (Job.requirements j) (Job.nice_to_have j) (Job.salary_min j)
    (Job.salary_max j) (Job.salary_currency j)
    (Job.application_deadline j) (Job.openings j) (Job.tags j) (Job.id j)
    (Job.is_active j) (Job.views j) (Job.applications_count j) 0 0.


(** ** Further sample data *)

Module Scenario.

(** [PATCH /jobs/j1] with [{"is_active": false}] *)
Definition close_request : JobUpdate.t :=
  JobUpdate.mk None None None None None None None None None (Some false)
    None.

Definition closed : (Crash + Outcome JobUpdated.t) * DB :=
  update_job 6000 "j1" close_request Sample.applied.

Definition asha_bookmark : BookmarkCreate.t :=
  BookmarkCreate.mk "asha@example.com" "j1".

(** [GET /jobs?sort_by=cheapest] *)
Definition by_unknown_key : ListJobsParams :=
  mkListJobsParams None None None None None None None true "cheapest" 1 10.

End Scenario.
(** * Properties *)

(** ** The store *)

Lemma find_one_Some_In {A : Type} (p : A -> bool) (c : list A) (d : A) :
  Cursor.find_one p c = Some d -> In d c /\ p d = true.
Proof. apply List.find_some. Qed.

Lemma find_one_None {A : Type} (p : A -> bool) (c : list A) :
  Cursor.find_one p c = None <-> forall d, In d c -> p d = false.
Proof.
  split.
  - intros Hn d Hd. exact (List.find_none p c Hn d Hd).
  - induction c as [|x c IH]; simpl; intros Hall; [reflexivity|].
    rewrite (Hall x (or_introl eq_refl)). apply IH.
    intros d Hd. apply Hall. now right.
Qed.

Lemma find_one_exists {A : Type} (p : A -> bool) (c : list A) :
  (exists d, In d c /\ p d = true) -> exists d, Cursor.find_one p c = Some d.
Proof.
  intros (d & Hd & Hp).
  destruct (Cursor.find_one p c) as [x|] eqn:E; [now exists x|].
  rewrite (proj1 (find_one_None p c) E d Hd) in Hp. discriminate.
Qed.

(** The first match splits the collection. *)
Lemma find_one_split {A : Type} (p : A -> bool) (c : list A) (d : A) :
  Cursor.find_one p c = Some d ->
  exists l1 l2, c = l1 ++ d :: l2 /\ p d = true /\
                (forall x, In x l1 -> p x = false).
Proof.
  induction c as [|x c IH]; simpl; [discriminate|].
  destruct (p x) eqn:Px.
  - intros [= <-]. exists [], c. repeat split; auto. intros ? [].
  - intros Hf. destruct (IH Hf) as (l1 & l2 & -> & Hp & Hl1).
    exists (x :: l1), l2. repeat split; auto.
    intros y [<-|Hy]; auto.
Qed.

Lemma update_one_split {A : Type} (p : A -> bool) (f : A -> A)
  (l1 l2 : list A) (d : A) :
  p d = true -> (forall x, In x l1 -> p x = false) ->
  Cursor.update_one p f (l1 ++ d :: l2) = l1 ++ f d :: l2.
Proof.
  intros Hp. induction l1 as [|x l1 IH]; simpl; intros Hl1.
  - now rewrite Hp.
  - rewrite (Hl1 x (or_introl eq_refl)). f_equal. apply IH.
    intros y Hy. apply Hl1. now right.
Qed.

Lemma update_one_absent {A : Type} (p : A -> bool) (f : A -> A)
  (c : list A) :
  Cursor.find_one p c = None -> Cursor.update_one p f c = c.
Proof.
  induction c as [|x c IH]; simpl; [reflexivity|].
  destruct (p x); [discriminate|]. intros Hn. now rewrite IH.
Qed.

Lemma delete_one_split {A : Type} (p : A -> bool) (l1 l2 : list A) (d : A) :
  p d = true -> (forall x, In x l1 -> p x = false) ->
  Cursor.delete_one p (l1 ++ d :: l2) = (l1 ++ l2, 1).
Proof.
  intros Hp. induction l1 as [|x l1 IH]; simpl; intros Hl1.
  - now rewrite Hp.
  - rewrite (Hl1 x (or_introl eq_refl)). rewrite IH; [reflexivity|].
    intros y Hy. apply Hl1. now right.
Qed.

Lemma delete_one_absent {A : Type} (p : A -> bool) (c : list A) :
  Cursor.find_one p c = None -> Cursor.delete_one p c = (c, 0).
Proof.
  induction c as [|x c IH]; simpl; [reflexivity|].
  destruct (p x); [discriminate|]. intros Hn. now rewrite IH.
Qed.

(** ** The application workflow *)

Lemma verify_google_token_cases tokeninfo data db :
  verify_google_token tokeninfo data db = (Returned tt, db) \/
  verify_google_token tokeninfo data db =
    (Raised (HTTPException 401 "Invalid Google authentication token."), db) \/
  verify_google_token tokeninfo data db =
    (Raised (HTTPException 403 "Email mismatch with Google account."), db).
Proof.
  unfold verify_google_token.
  destruct (truthy _); [|now left].
  destruct tokeninfo as [sc body|]; [|now left].
  destruct (Z.eqb sc 200); simpl; [|now right; left].
  destruct body as [e|]; [|now left].
  destruct (same_email _ _); simpl; [now left|now right; right].
Qed.

(** The handler as one case analysis on the stored state. *)
Lemma submit_application_unfold tokeninfo uuid4 utcnow job_id data db :
  _submit_application tokeninfo uuid4 utcnow job_id data db =
  match Cursor.find_one (job_with_id job_id) (jobs db) with
  | None => (Raised (HTTPException 404 "Job not found"), db)
  | Some job =>
      if negb (Job.is_active job) then
        (Raised (HTTPException 400 "This job listing is no longer active"),
         db)
      else
        match fst (verify_google_token tokeninfo data db) with
        | Raised e => (Raised e, db)
        | Returned _ =>
            match
              Cursor.find_one
                (application_of job_id
                   (ApplicationCreate.applicant_email data))
                (applications db)
            with
            | Some _ =>
                (Raised
                   (HTTPException 409 "You have already applied for this job"),
                 db)
            | None =>
                let app_doc :=
                  new_app_doc data uuid4 job_id job
                    (Cursor.find_one (company_with_id (Job.company_id job))
                       (companies db))
                    utcnow in
                if negb
                     (opt_int64 (ApplicationCreate.graduation_year data))
                then (Raised OverflowError, db)
                else if List.existsb
                          (fun x => String.eqb (Application.id x) uuid4)
                          (applications db)
                then (Raised DuplicateKeyError, db)
                else
                  (Returned app_doc,
                   mkDB (companies db)
                     (Cursor.update_one (job_with_id job_id)
                        (Job.inc_applications_count 1) (jobs db))
                     (applications db ++ [app_doc]) (bookmarks db))
            end
        end
  end.
Proof.
  unfold _submit_application, bind, find_one. simpl.
  destruct (Cursor.find_one (job_with_id job_id) (jobs db)) as [job|];
    [|reflexivity].
  destruct (negb (Job.is_active job)); [reflexivity|].
  destruct (verify_google_token_cases tokeninfo data db) as [E|[E|E]];
    rewrite E; simpl; try reflexivity.
  destruct (Cursor.find_one (application_of _ _) _); [reflexivity|].
  unfold insert_one, update_one, ret, _clean. simpl.
  unfold application_encodable. simpl.
  destruct (negb (opt_int64 _)); [reflexivity|].
  destruct (List.existsb _ _); reflexivity.
Qed.

Lemma applied_already_find job_id email db :
  applied_already job_id email db <->
  exists a, Cursor.find_one (application_of job_id email) (applications db)
            = Some a.
Proof.
  split.
  - intros (a & Ha & Hj & He). apply find_one_exists. exists a.
    split; [exact Ha|]. unfold application_of.
    now rewrite Hj, He, !String.eqb_refl.
  - intros (a & Hf). apply find_one_Some_In in Hf as (Ha & Hp).
    unfold application_of in Hp. apply andb_true_iff in Hp as (Hj & He).
    exists a. now rewrite String.eqb_eq in Hj, He.
Qed.

Lemma job_with_id_inc job_id n j :
  job_with_id job_id (Job.inc_applications_count n j) = job_with_id job_id j.
Proof. reflexivity. Qed.

(** Incrementing the counter of the first job with this identifier keeps
    it the first job with this identifier. *)
Lemma find_one_after_inc job_id c job :
  Cursor.find_one (job_with_id job_id) c = Some job ->
  Cursor.find_one (job_with_id job_id)
    (Cursor.update_one (job_with_id job_id) (Job.inc_applications_count 1) c)
  = Some (Job.inc_applications_count 1 job).
Proof.
  intros Hf. destruct (find_one_split _ _ _ Hf) as (l1 & l2 & -> & Hp & Hl1).
  rewrite update_one_split by assumption.
  clear Hf. induction l1 as [|x l1 IH]; simpl.
  - now rewrite job_with_id_inc, Hp.
  - rewrite (Hl1 x (or_introl eq_refl)). apply IH.
    intros y Hy. apply Hl1. now right.
Qed.

Lemma submit_raise_keeps_db tokeninfo uuid4 utcnow job_id data db e db' :
  _submit_application tokeninfo uuid4 utcnow job_id data db = (Raised e, db')
  -> db' = db.
Proof.
  rewrite submit_application_unfold.
  destruct (Cursor.find_one (job_with_id job_id) (jobs db)) as [job|];
    [|now intros [= _ <-]].
  destruct (negb (Job.is_active job)); [now intros [= _ <-]|].
  destruct (fst (verify_google_token tokeninfo data db));
    [|now intros [= _ <-]].
  destruct (Cursor.find_one (application_of _ _) _); [now intros [= _ <-]|].
  cbv zeta. destruct (negb (opt_int64 _)); [now intros [= _ <-]|].
  destruct (List.existsb _ _); [now intros [= _ <-]|discriminate].
Qed.

Lemma submit_verification_failure tokeninfo uuid4 utcnow job_id data db
  job e :
  Cursor.find_one (job_with_id job_id) (jobs db) = Some job ->
  Job.is_active job = true ->
  fst (verify_google_token tokeninfo data db) = Raised e ->
  _submit_application tokeninfo uuid4 utcnow job_id data db = (Raised e, db).
Proof.
  intros Hj Ha Hv. now rewrite submit_application_unfold, Hj, Ha, Hv.
Qed.

Lemma submit_conflict tokeninfo uuid4 utcnow job_id data db job :
  Cursor.find_one (job_with_id job_id) (jobs db) = Some job ->
  Job.is_active job = true ->
  fst (verify_google_token tokeninfo data db) = Returned tt ->
  applied_already job_id (ApplicationCreate.applicant_email data) db ->
  _submit_application tokeninfo uuid4 utcnow job_id data db =
  (Raised (HTTPException 409 "You have already applied for this job"), db).
Proof.
  intros Hj Ha Hv Hdup. rewrite submit_application_unfold, Hj, Ha, Hv.
  apply applied_already_find in Hdup as (a & ->). reflexivity.
Qed.

(** C9: every failing path of the submission routine leaves the whole
    database as it was, whatever the failure (job not found, inactive
    listing, invalid token, email mismatch, duplicate application, or a
    rejected insert); the insert into the applications and the increment
    of the job's counter happen exactly when the routine returns. *)
Theorem submit_fails_without_writing tokeninfo uuid4 utcnow job_id data db :
  match _submit_application tokeninfo uuid4 utcnow job_id data db with
  | (Raised _, db') => db' = db
  | (Returned app_doc, db') =>
      applications db' = applications db ++ [app_doc] /\
      jobs db' =
        Cursor.update_one (job_with_id job_id)
          (Job.inc_applications_count 1) (jobs db) /\
      db' <> db
  end.
Proof.
  rewrite submit_application_unfold.
  destruct (Cursor.find_one (job_with_id job_id) (jobs db)) as [job|];
    [|reflexivity].
  destruct (negb (Job.is_active job)); [reflexivity|].
  destruct (fst (verify_google_token tokeninfo data db)); [|reflexivity].
  destruct (Cursor.find_one (application_of _ _) _); [reflexivity|].
  cbv zeta. destruct (negb (opt_int64 _)); [reflexivity|].
  destruct (List.existsb _ _); [reflexivity|].
  simpl. repeat split.
  intros Heq. apply (f_equal applications) in Heq. simpl in Heq.
  apply (f_equal (@List.length _)) in Heq.
  rewrite List.length_app in Heq. simpl in Heq. lia.
Qed.

(** C3: the failure checks of a submission run in a fixed order.  A
    missing job is NotFound whatever else holds; an inactive job is the
    inactive-listing failure whatever the applicant data, the token
    service's answer and the stored applications; on an active job a
    verification failure is reported even when the application is a
    duplicate; Conflict is reported only after verification passed. *)
Theorem submit_check_order tokeninfo uuid4 utcnow job_id data db :
  (Cursor.find_one (job_with_id job_id) (jobs db) = None ->
   _submit_application tokeninfo uuid4 utcnow job_id data db =
   (Raised (HTTPException 404 "Job not found"), db)) /\
  (forall job,
     Cursor.find_one (job_with_id job_id) (jobs db) = Some job ->
     Job.is_active job = false ->
     _submit_application tokeninfo uuid4 utcnow job_id data db =
     (Raised (HTTPException 400 "This job listing is no longer active"),
      db)) /\
  (forall job e,
     Cursor.find_one (job_with_id job_id) (jobs db) = Some job ->
     Job.is_active job = true ->
     fst (verify_google_token tokeninfo data db) = Raised e ->
     _submit_application tokeninfo uuid4 utcnow job_id data db =
     (Raised e, db)) /\
  (forall job,
     Cursor.find_one (job_with_id job_id) (jobs db) = Some job ->
     Job.is_active job = true ->
     fst (verify_google_token tokeninfo data db) = Returned tt ->
     applied_already job_id (ApplicationCreate.applicant_email data) db ->
     _submit_application tokeninfo uuid4 utcnow job_id data db =
     (Raised (HTTPException 409 "You have already applied for this job"),
      db)).
Proof.
  rewrite submit_application_unfold. repeat split.
  - intros ->. reflexivity.
  - intros job -> ->. reflexivity.
  - intros job e -> -> ->. reflexivity.
  - intros job Hj Ha Hv Hdup. rewrite <- submit_application_unfold.
    now apply submit_conflict with (job := job).
Qed.

Lemma submit_returns_stored tokeninfo uuid4 utcnow job_id data db a db' :
  _submit_application tokeninfo uuid4 utcnow job_id data db
  = (Returned a, db') ->
  exists job,
    Cursor.find_one (job_with_id job_id) (jobs db) = Some job /\
    Job.is_active job = true /\
    Cursor.find_one
      (application_of job_id (ApplicationCreate.applicant_email data))
      (applications db) = None /\
    a = new_app_doc data uuid4 job_id job
          (Cursor.find_one (company_with_id (Job.company_id job))
             (companies db)) utcnow /\
    db' = mkDB (companies db)
            (Cursor.update_one (job_with_id job_id)
               (Job.inc_applications_count 1) (jobs db))
            (applications db ++ [a]) (bookmarks db).
Proof.
  rewrite submit_application_unfold.
  destruct (Cursor.find_one (job_with_id job_id) (jobs db)) as [job|];
    [|discriminate].
  destruct (Job.is_active job) eqn:Ha; simpl; [|discriminate].
  destruct (fst (verify_google_token tokeninfo data db)); [|discriminate].
  destruct (Cursor.find_one (application_of _ _) _) eqn:Hd; [discriminate|].
  cbv zeta. destruct (negb (opt_int64 _)); [discriminate|].
  destruct (List.existsb _ _); [discriminate|].
  intros [= <- <-]. exists job. repeat split; assumption.
Qed.

(** C1, as the code has it: a submission for a pair (job identifier,
    applicant email) that already has a stored application always fails
    and stores nothing, with the failure of the first check that does not
    pass: NotFound (404) when the job is not stored, the inactive-listing
    failure (400) when it is closed, Unauthorized (401) or Forbidden (403)
    when identity verification fails, and Conflict (409) otherwise.  A
    submission for a pair with no stored application succeeds when the job
    is stored and open, verification does not fail, the driver can encode
    the document and the application identifier is new, and appends one
    application for the pair; hence after one success every further
    submission for the pair fails with one of those five failures, with
    Conflict whenever verification does not fail. *)
Theorem apply_twice_succeeds_once tokeninfo uuid4 utcnow job_id data db :
  let email := ApplicationCreate.applicant_email data in
  let run := _submit_application tokeninfo uuid4 utcnow job_id data in
  let failures :=
    [HTTPException 404 "Job not found";
     HTTPException 400 "This job listing is no longer active";
     HTTPException 401 "Invalid Google authentication token.";
     HTTPException 403 "Email mismatch with Google account.";
     HTTPException 409 "You have already applied for this job"] in
  (applied_already job_id email db ->
   (exists e, run db = (Raised e, db) /\ In e failures) /\
   (Cursor.find_one (job_with_id job_id) (jobs db) = None ->
    run db = (Raised (HTTPException 404 "Job not found"), db)) /\
   (forall job,
      Cursor.find_one (job_with_id job_id) (jobs db) = Some job ->
      Job.is_active job = false ->
      run db =
      (Raised (HTTPException 400 "This job listing is no longer active"),
       db)) /\
   (forall job e,
      Cursor.find_one (job_with_id job_id) (jobs db) = Some job ->
      Job.is_active job = true ->
      fst (verify_google_token tokeninfo data db) = Raised e ->
      run db = (Raised e, db) /\
      (e = HTTPException 401 "Invalid Google authentication token." \/
       e = HTTPException 403 "Email mismatch with Google account.")) /\
   (forall job,
      Cursor.find_one (job_with_id job_id) (jobs db) = Some job ->
      Job.is_active job = true ->
      fst (verify_google_token tokeninfo data db) = Returned tt ->
      run db =
      (Raised (HTTPException 409 "You have already applied for this job"),
       db))) /\
  (~ applied_already job_id email db ->
   forall job,
     Cursor.find_one (job_with_id job_id) (jobs db) = Some job ->
     Job.is_active job = true ->
     fst (verify_google_token tokeninfo data db) = Returned tt ->
     opt_int64 (ApplicationCreate.graduation_year data) = true ->
     List.existsb (fun x => String.eqb (Application.id x) uuid4)
       (applications db) = false ->
     exists a,
       fst (run db) = Returned a /\
       applications (snd (run db)) = applications db ++ [a] /\
       Application.job_id a = job_id /\
       Application.applicant_email a = email) /\
  (forall a db',
     run db = (Returned a, db') ->
     ~ applied_already job_id email db /\
     applied_already job_id email db' /\
     forall tokeninfo' uuid4' utcnow',
       (exists e,
          _submit_application tokeninfo' uuid4' utcnow' job_id data db'
          = (Raised e, db') /\ In e failures) /\
       (fst (verify_google_token tokeninfo' data db') = Returned tt ->
        _submit_application tokeninfo' uuid4' utcnow' job_id data db' =
        (Raised (HTTPException 409 "You have already applied for this job"),
         db'))).
Proof.
  assert (Hfail : forall ti u now d,
            applied_already job_id (ApplicationCreate.applicant_email data) d ->
            exists e,
              _submit_application ti u now job_id data d = (Raised e, d) /\
              In e
                [HTTPException 404 "Job not found";
                 HTTPException 400 "This job listing is no longer active";
                 HTTPException 401 "Invalid Google authentication token.";
                 HTTPException 403 "Email mismatch with Google account.";
                 HTTPException 409 "You have already applied for this job"]).
  { intros ti u now d Hdup. rewrite submit_application_unfold.
    destruct (Cursor.find_one (job_with_id job_id) (jobs d)) as [job|].
    2:{ eexists. split; [reflexivity|]. simpl. auto. }
    destruct (negb (Job.is_active job)).
    { eexists. split; [reflexivity|]. simpl. auto. }
    destruct (verify_google_token_cases ti data d) as [E|[E|E]];
      rewrite E; cbn [fst].
    - apply applied_already_find in Hdup as (x & ->).
      eexists. split; [reflexivity|]. simpl. auto 6.
    - eexists. split; [reflexivity|]. simpl. auto.
    - eexists. split; [reflexivity|]. simpl. auto 6. }
  intros email run failures. subst email run failures. split; [|split].
  - intros Hdup. split; [now apply Hfail|]. split; [|split; [|split]].
    + intros Hj. now rewrite submit_application_unfold, Hj.
    + intros job Hj Ha. now rewrite submit_application_unfold, Hj, Ha.
    + intros job e Hj Ha Hv.
      split; [now apply submit_verification_failure with (job := job)|].
      destruct (verify_google_token_cases tokeninfo data db) as [E|[E|E]];
        rewrite E in Hv; cbn [fst] in Hv.
      * discriminate.
      * injection Hv as <-. now left.
      * injection Hv as <-. now right.
    + intros job Hj Ha Hv. now apply submit_conflict with (job := job).
  - intros Hnew job Hj Ha Hv Henc Hid. rewrite submit_application_unfold.
    rewrite Hj, Ha, Hv. simpl.
    destruct (Cursor.find_one (application_of _ _) _) as [x|] eqn:Hd.
    + exfalso. apply Hnew. apply applied_already_find. now exists x.
    + rewrite Henc, Hid. simpl. eexists. repeat split.
  - intros a db' Hrun.
    apply submit_returns_stored in Hrun as (job & Hj & Ha & Hd & Hdoc & ->).
    assert (Hnow : applied_already job_id
                     (ApplicationCreate.applicant_email data)
                     (mkDB (companies db)
                        (Cursor.update_one (job_with_id job_id)
                           (Job.inc_applications_count 1) (jobs db))
                        (applications db ++ [a]) (bookmarks db))).
    { exists a. simpl. split; [apply List.in_or_app; right; now left|].
      rewrite Hdoc. split; reflexivity. }
    split; [|split; [exact Hnow|]].
    + intros Hdup. apply applied_already_find in Hdup as (x & Hx).
      congruence.
    + intros tokeninfo' uuid4' utcnow'. split; [now apply Hfail|].
      intros Hv.
      apply submit_conflict with (job := Job.inc_applications_count 1 job).
      * simpl. now apply find_one_after_inc.
      * exact Ha.
      * exact Hv.
      * exact Hnow.
Qed.

Lemma count_documents_app {A : Type} (p : A -> bool) (c : list A) (d : A) :
  Cursor.count_documents p (c ++ [d]) =
  Cursor.count_documents p c + (if p d then 1 else 0).
Proof.
  unfold Cursor.count_documents. rewrite List.filter_app, List.length_app.
  simpl. destruct (p d); simpl; lia.
Qed.

Lemma job_with_id_eq job_id j :
  job_with_id job_id j = true <-> Job.id j = job_id.
Proof. unfold job_with_id. apply String.eqb_eq. Qed.

Lemma application_for_unfold job_id a :
  application_for job_id a = String.eqb (Application.job_id a) job_id.
Proof. reflexivity. Qed.

(** Under the unique index only one stored job has a given identifier. *)
Lemma unique_id_elsewhere (l1 l2 : list Job.t) (job x : Job.t) :
  NoDup (map Job.id (l1 ++ job :: l2)) ->
  In x (l1 ++ l2) -> Job.id x <> Job.id job.
Proof.
  rewrite List.map_app. simpl. intros Hnd Hx Heq.
  apply List.NoDup_remove_2 in Hnd. apply Hnd.
  rewrite <- Heq, <- List.map_app. now apply List.in_map.
Qed.

Lemma submit_keeps_counters tokeninfo uuid4 utcnow job_id data db a db' :
  unique_job_ids db ->
  counters_agree db ->
  _submit_application tokeninfo uuid4 utcnow job_id data db
  = (Returned a, db') ->
  counters_agree db' /\ unique_job_ids db'.
Proof.
  intros Huniq Hagree Hrun.
  apply submit_returns_stored in Hrun as (job & Hj & _ & _ & Hdoc & ->).
  destruct (find_one_split _ _ _ Hj) as (l1 & l2 & Hjobs & Hp & Hl1).
  apply job_with_id_eq in Hp as Hid.
  assert (Hja : Application.job_id a = job_id) by now rewrite Hdoc.
  unfold counters_agree, unique_job_ids in *. simpl.
  assert (Hupd : Cursor.update_one (job_with_id job_id)
                   (Job.inc_applications_count 1) (jobs db)
                 = l1 ++ Job.inc_applications_count 1 job :: l2).
  { rewrite Hjobs. now apply update_one_split. }
  rewrite Hupd.
  assert (Hother : forall L, In L (l1 ++ l2) ->
            Job.applications_count L =
            Cursor.count_documents (application_for (Job.id L))
              (applications db ++ [a])).
  { intros L HL.
    pose proof (unique_id_elsewhere l1 l2 job L) as Hne.
    rewrite <- Hjobs in Hne. specialize (Hne Huniq HL).
    rewrite count_documents_app, application_for_unfold, Hja.
    destruct (String.eqb_spec job_id (Job.id L)) as [E|_]; [congruence|].
    rewrite Z.add_0_r. apply Hagree. rewrite Hjobs.
    apply List.in_app_or in HL as [HL|HL]; apply List.in_or_app;
      [now left|right; now right]. }
  split.
  - intros L HL. apply List.in_app_or in HL as [HL|[<-|HL]].
    + apply Hother, List.in_or_app. now left.
    + rewrite count_documents_app, application_for_unfold. simpl.
      rewrite Hja, Hid, String.eqb_refl. rewrite <- Hid.
      rewrite <- (Hagree job); [reflexivity|].
      rewrite Hjobs. apply List.in_or_app. right. now left.
    + apply Hother, List.in_or_app. now right.
  - rewrite Hjobs in Huniq. rewrite List.map_app in *. exact Huniq.
Qed.

(** Over a sequential run of submissions, failed ones included, the
    counters keep agreeing with the stored applications. *)
Lemma counters_agree_after_submissions (l : list Submission) (db : DB) :
  unique_job_ids db -> counters_agree db ->
  unique_job_ids (submit_all l db) /\ counters_agree (submit_all l db).
Proof.
  revert db. induction l as [|s l IH]; simpl; intros db Hu Ha; [now split|].
  destruct (submit s db) as [[a|e] db'] eqn:Hrun; unfold submit in Hrun;
    simpl.
  - destruct (submit_keeps_counters _ _ _ _ _ _ _ _ Hu Ha Hrun)
      as (Ha' & Hu').
    now apply IH.
  - apply submit_raise_keeps_db in Hrun as ->. now apply IH.
Qed.

(** C2: on a store whose job identifiers are unique (the unique index)
    and whose counters agree with the stored applications, a successful
    submission appends exactly one application, which references the job
    applied to, adds exactly one to that job's [applications_count] and
    changes no other job, so that afterwards every listing's counter again
    equals the number of applications that reference it. *)
Theorem counter_tracks_applications tokeninfo uuid4 utcnow job_id data db
  a db' :
  unique_job_ids db ->
  counters_agree db ->
  _submit_application tokeninfo uuid4 utcnow job_id data db
  = (Returned a, db') ->
  counters_agree db' /\
  unique_job_ids db' /\
  applications db' = applications db ++ [a] /\
  Application.job_id a = job_id /\
  Cursor.count_documents (application_for job_id) (applications db') =
  Cursor.count_documents (application_for job_id) (applications db) + 1 /\
  exists l1 job l2,
    jobs db = l1 ++ job :: l2 /\ Job.id job = job_id /\
    jobs db' = l1 ++ Job.inc_applications_count 1 job :: l2 /\
    Job.applications_count (Job.inc_applications_count 1 job) =
    Job.applications_count job + 1.
Proof.
  intros Huniq Hagree Hrun.
  destruct (submit_keeps_counters _ _ _ _ _ _ _ _ Huniq Hagree Hrun)
    as (Hagree' & Huniq').
  split; [exact Hagree'|]. split; [exact Huniq'|].
  apply submit_returns_stored in Hrun as (job & Hj & _ & _ & Hdoc & ->).
  assert (Hja : Application.job_id a = job_id) by now rewrite Hdoc.
  simpl. split; [reflexivity|]. split; [exact Hja|]. split.
  - rewrite count_documents_app, application_for_unfold.
    now rewrite Hja, String.eqb_refl.
  - destruct (find_one_split _ _ _ Hj) as (l1 & l2 & Hjobs & Hp & Hl1).
    exists l1, job, l2. split; [exact Hjobs|].
    split; [now apply job_with_id_eq|]. split; [|reflexivity].
    rewrite Hjobs. now apply update_one_split.
Qed.

Lemma same_email_differs (e : option string) (email : string) :
  e <> Some email -> same_email e email = false.
Proof.
  destruct e as [x|]; simpl; [|reflexivity].
  intros Hne. apply String.eqb_neq. congruence.
Qed.

Lemma verify_without_token tokeninfo data db :
  truthy (ApplicationCreate.google_access_token data) = false ->
  verify_google_token tokeninfo data db = (Returned tt, db).
Proof. unfold verify_google_token. now intros ->. Qed.

Lemma verify_call_failed tokeninfo data db :
  call_failed tokeninfo ->
  verify_google_token tokeninfo data db = (Returned tt, db).
Proof.
  unfold verify_google_token.
  intros [-> | ->]; destruct (truthy _); reflexivity.
Qed.

(** Two submissions that differ only in how verification passed are the
    same submission. *)
Lemma submit_after_verification ti ti' uuid4 utcnow job_id data db :
  verify_google_token ti data db = (Returned tt, db) ->
  verify_google_token ti' data db = (Returned tt, db) ->
  _submit_application ti uuid4 utcnow job_id data db =
  _submit_application ti' uuid4 utcnow job_id data db.
Proof.
  intros Hv Hv'. rewrite !submit_application_unfold, Hv, Hv'. reflexivity.
Qed.

Lemma submit_forgetting_token ti ti' uuid4 utcnow job_id data db :
  verify_google_token ti data db = (Returned tt, db) ->
  forget_tokens (_submit_application ti uuid4 utcnow job_id data db) =
  forget_tokens
    (_submit_application ti' uuid4 utcnow job_id (without_token data) db).
Proof.
  intros Hv. rewrite !submit_application_unfold, Hv.
  rewrite (verify_without_token ti' (without_token data) db) by reflexivity.
  destruct (Cursor.find_one (job_with_id job_id) (jobs db)) as [job|];
    [|reflexivity].
  destruct (negb (Job.is_active job)); [reflexivity|].
  simpl.
  destruct (Cursor.find_one (application_of _ _) _); [reflexivity|].
  destruct (negb (opt_int64 _)); [reflexivity|].
  destruct (List.existsb _ _); [reflexivity|].
  unfold forget_tokens. simpl. rewrite !List.map_app. reflexivity.
Qed.

(** C4, as the code has it: with an identity token supplied the
    verification step ends in one of three ways.  A response whose status
    is not the success status raises Unauthorized (401); a success
    response with a JSON object whose email is not the applicant's email,
    a missing email included, raises Forbidden (403); and these failures
    fail the submission of an open job.  A request that raised and a
    success response without a JSON object are swallowed: the step
    returns, and the submission runs exactly as under a verification that
    passed, and as the same request without a token (up to the stored
    token string).  Without a token the token service's answer is never
    consulted.  With a token the step returns for no other answer than a
    swallowed failure and a success response with the applicant's
    email. *)
Theorem token_verification_outcomes uuid4 utcnow job_id data db :
  let email := ApplicationCreate.applicant_email data in
  let token := ApplicationCreate.google_access_token data in
  let submit ti d := _submit_application ti uuid4 utcnow job_id d db in
  (forall ti,
     verify_google_token ti data db = (Returned tt, db) \/
     verify_google_token ti data db =
       (Raised (HTTPException 401 "Invalid Google authentication token."),
        db) \/
     verify_google_token ti data db =
       (Raised (HTTPException 403 "Email mismatch with Google account."),
        db)) /\
  (truthy token = true ->
   (forall status_code body,
      status_code <> 200 ->
      verify_google_token (Response status_code body) data db =
      (Raised (HTTPException 401 "Invalid Google authentication token."),
       db)) /\
   (forall verified,
      verified <> Some email ->
      verify_google_token (Response 200 (JsonObject verified)) data db =
      (Raised (HTTPException 403 "Email mismatch with Google account."),
       db)) /\
   verify_google_token (Response 200 (JsonObject (Some email))) data db =
   (Returned tt, db)) /\
  (forall ti job e,
     Cursor.find_one (job_with_id job_id) (jobs db) = Some job ->
     Job.is_active job = true ->
     verify_google_token ti data db = (Raised e, db) ->
     submit ti data = (Raised e, db)) /\
  (forall ti,
     call_failed ti ->
     verify_google_token ti data db = (Returned tt, db) /\
     submit ti data = submit (Response 200 (JsonObject (Some email))) data /\
     forall ti',
       forget_tokens (submit ti data) =
       forget_tokens (submit ti' (without_token data))) /\
  (truthy token = false ->
   forall ti ti',
     verify_google_token ti data db = (Returned tt, db) /\
     submit ti data = submit ti' data) /\
  (truthy token = true ->
   forall ti,
     verify_google_token ti data db = (Returned tt, db) <->
     call_failed ti \/ ti = Response 200 (JsonObject (Some email))).
Proof.
  intros email token submit. subst email token submit.
  split; [|split; [|split; [|split; [|split]]]].
  - intros ti. apply verify_google_token_cases.
  - intros Ht. unfold verify_google_token. rewrite Ht.
    split; [|split].
    + intros sc body Hsc. apply Z.eqb_neq in Hsc. now rewrite Hsc.
    + intros e He. simpl. now rewrite same_email_differs.
    + simpl. unfold same_email. now rewrite String.eqb_refl.
  - intros ti job e Hj Ha Hv.
    apply submit_verification_failure with (job := job); [assumption..|].
    now rewrite Hv.
  - intros ti Hf. pose proof (verify_call_failed ti data db Hf) as Hv.
    split; [exact Hv|]. split.
    + apply submit_after_verification; [exact Hv|].
      unfold verify_google_token. simpl. unfold same_email.
      rewrite String.eqb_refl. simpl. now destruct (truthy _).
    + intros ti'. now apply submit_forgetting_token.
  - intros Ht ti ti'. split; [now apply verify_without_token|].
    apply submit_after_verification; now apply verify_without_token.
  - intros Ht ti. unfold verify_google_token, call_failed. rewrite Ht.
    destruct ti as [sc [[e|]|]|]; cbn [raise ret].
    + destruct (Z.eqb_spec sc 200) as [->|Hsc]; simpl.
      * unfold same_email.
        destruct (String.eqb_spec e (ApplicationCreate.applicant_email data))
          as [->|He]; simpl.
        -- split; [now right|reflexivity].
        -- split; [discriminate|]. intros [[|]|]; congruence.
      * split; [discriminate|]. intros [[|]|]; congruence.
    + destruct (Z.eqb_spec sc 200) as [->|Hsc]; simpl.
      * split; [discriminate|]. intros [[|]|]; congruence.
      * split; [discriminate|]. intros [[|]|]; congruence.
    + destruct (Z.eqb_spec sc 200) as [->|Hsc]; simpl.
      * split; [now left; right|reflexivity].
      * split; [discriminate|]. intros [[|]|]; congruence.
    + split; [now left; left|reflexivity].
Qed.

(** ** Fetching and deleting a job *)

Lemma find_one_after_update {A : Type} (p : A -> bool) (f : A -> A)
  (c : list A) (d : A) :
  (forall x, p (f x) = p x) ->
  Cursor.find_one p c = Some d ->
  Cursor.find_one p (Cursor.update_one p f c) = Some (f d).
Proof.
  intros Hpf. induction c as [|x c IH]; simpl; [discriminate|].
  destruct (p x) eqn:Px.
  - intros [= <-]. simpl. now rewrite Hpf, Px.
  - intros Hf. simpl. rewrite Px. now apply IH.
Qed.

Lemma enrich_job_run j db :
  _enrich_job j db =
  (Returned
     (mkEnrichedJob j
        (Cursor.find_one (company_with_id (Job.company_id j))
           (companies db))),
   db).
Proof.
  unfold _enrich_job, bind, find_one, ret, _clean. simpl.
  now destruct (Cursor.find_one _ _).
Qed.

Lemma get_job_run job_id db :
  get_job job_id db =
  match Cursor.find_one (job_with_id job_id) (jobs db) with
  | None => (Raised (HTTPException 404 "Job not found"), db)
  | Some j =>
      let db' :=
        mkDB (companies db)
          (Cursor.update_one (job_with_id job_id) (Job.inc_views 1)
             (jobs db))
          (applications db) (bookmarks db) in
      (Returned (enriched db' (Job.set_views (Job.views j + 1) j)), db')
  end.
Proof.
  unfold get_job, bind, find_one. cbn [docs col_jobs fst snd].
  destruct (Cursor.find_one (job_with_id job_id) (jobs db)); [|reflexivity].
  unfold update_one. rewrite enrich_job_run. reflexivity.
Qed.

Lemma set_views_inc_views j :
  Job.set_views (Job.views j) (Job.inc_views 1 j) = j.
Proof. now destruct j. Qed.

(** C7: fetching a stored job adds exactly one to the stored view counter
    of that job document, leaves every other field of it and every other
    document of every collection as they were, and returns the job with
    the counter value that is now stored; fetching an identifier that is
    not stored raises NotFound and changes nothing. *)
Theorem get_job_counts_one_view job_id db :
  match Cursor.find_one (job_with_id job_id) (jobs db) with
  | None => get_job job_id db = (Raised (HTTPException 404 "Job not found"), db)
  | Some j =>
      exists l1 l2 r db',
        get_job job_id db = (Returned r, db') /\
        jobs db = l1 ++ j :: l2 /\
        db' = mkDB (companies db) (l1 ++ Job.inc_views 1 j :: l2)
                (applications db) (bookmarks db) /\
        Job.views (Job.inc_views 1 j) = Job.views j + 1 /\
        Job.set_views (Job.views j) (Job.inc_views 1 j) = j /\
        Cursor.find_one (job_with_id job_id) (jobs db') = Some (job r) /\
        Job.views (job r) = Job.views j + 1
  end.
Proof.
  destruct (Cursor.find_one (job_with_id job_id) (jobs db)) as [j|] eqn:Hj.
  - destruct (find_one_split _ _ _ Hj) as (l1 & l2 & Hjobs & Hp & Hl1).
    exists l1, l2. eexists. eexists. split.
    + rewrite get_job_run, Hj. reflexivity.
    + simpl. split; [exact Hjobs|]. split.
      * f_equal. rewrite Hjobs. now apply update_one_split.
      * split; [reflexivity|]. split; [apply set_views_inc_views|].
        split; [|reflexivity].
        now apply (find_one_after_update _ (Job.inc_views 1)).
  - now rewrite get_job_run, Hj.
Qed.

Lemma existsb_job_id (job_id : string) (c : list Job.t) :
  List.existsb (fun x => String.eqb (Job.id x) job_id) c = false ->
  forall x, In x c -> job_with_id job_id x = false.
Proof.
  intros He x Hx. unfold job_with_id.
  destruct (String.eqb (Job.id x) job_id) eqn:E; [|reflexivity].
  rewrite <- He. symmetry. apply List.existsb_exists. now exists x.
Qed.

Lemma int64_zero : int64 0 = true.
Proof. reflexivity. Qed.

Lemma new_job_doc_encodable data uuid4 utcnow :
  encodable col_jobs (new_job_doc data uuid4 utcnow) =
  job_request_encodable data.
Proof.
  unfold job_request_encodable. cbn [encodable col_jobs].
  unfold job_encodable.
  cbn [new_job_doc Job.salary_min Job.salary_max Job.openings Job.views
       Job.applications_count].
  now rewrite int64_zero, !andb_true_r.
Qed.

Lemma create_job_run uuid4 utcnow data db :
  create_job uuid4 utcnow data db =
  match
    Cursor.find_one (company_with_id (JobCreate.company_id data))
      (companies db)
  with
  | None =>
      (Raised
         (HTTPException 404 "Company not found. Create the company first."),
       db)
  | Some _ =>
      if negb (job_request_encodable data) then (Raised OverflowError, db)
      else if List.existsb (fun x => String.eqb (Job.id x) uuid4) (jobs db)
      then (Raised DuplicateKeyError, db)
      else
        let doc := new_job_doc data uuid4 utcnow in
        let db1 :=
          mkDB
            (Cursor.update_one (company_with_id (JobCreate.company_id data))
               (inc_total_jobs_posted 1) (companies db))
            (jobs db ++ [doc]) (applications db) (bookmarks db) in
        (Returned
           (mkJobPosted "Job posted successfully"
              (mkEnrichedJob doc
                 (Cursor.find_one
                    (company_with_id (JobCreate.company_id data))
                    (companies db1)))),
         db1)
  end.
Proof.
  unfold create_job, bind, find_one. cbn [docs col_companies fst snd].
  destruct (Cursor.find_one _ (companies db)); [|reflexivity].
  unfold insert_one. rewrite new_job_doc_encodable.
  cbn [docs col_jobs unique_id new_job_doc Job.id].
  destruct (negb (job_request_encodable data)); [reflexivity|].
  destruct (List.existsb _ (jobs db)); [reflexivity|].
  unfold update_one. rewrite enrich_job_run. reflexivity.
Qed.

Lemma delete_job_run job_id db :
  delete_job job_id db =
  match Cursor.find_one (job_with_id job_id) (jobs db) with
  | None => (Raised (HTTPException 404 "Job not found"), db)
  | Some _ =>
      (Returned "Job deleted successfully",
       mkDB (companies db)
         (fst (Cursor.delete_one (job_with_id job_id) (jobs db)))
         (applications db) (bookmarks db))
  end.
Proof.
  unfold delete_job, bind, delete_one. simpl.
  destruct (Cursor.find_one (job_with_id job_id) (jobs db)) as [j|] eqn:Hj.
  - destruct (find_one_split _ _ _ Hj) as (l1 & l2 & -> & Hp & Hl1).
    rewrite delete_one_split by assumption. reflexivity.
  - rewrite delete_one_absent by assumption. simpl. now destruct db.
Qed.

(** C10: deleting a job touches the jobs collection only.  The
    companies, with their [total_jobs_posted] counters, the applications
    and the bookmarks are stored exactly as before, those that reference
    the deleted identifier included, and of the jobs only the one deleted
    document goes.  So a job that is posted and then deleted leaves the
    jobs as they were and its company's counter one higher: the counter
    counts jobs ever posted. *)
Theorem delete_job_removes_only_the_job job_id db :
  let after := snd (delete_job job_id db) in
  companies after = companies db /\
  applications after = applications db /\
  bookmarks after = bookmarks db /\
  match Cursor.find_one (job_with_id job_id) (jobs db) with
  | None =>
      delete_job job_id db = (Raised (HTTPException 404 "Job not found"), db)
  | Some j =>
      fst (delete_job job_id db) = Returned "Job deleted successfully" /\
      exists l1 l2, jobs db = l1 ++ j :: l2 /\ jobs after = l1 ++ l2
  end /\
  forall now data posted db1,
    create_job job_id now data db = (Returned posted, db1) ->
    let company_id := JobCreate.company_id data in
    let gone := snd (delete_job job_id db1) in
    jobs gone = jobs db /\
    companies gone =
      Cursor.update_one (company_with_id company_id)
        (inc_total_jobs_posted 1) (companies db) /\
    exists c,
      Cursor.find_one (company_with_id company_id) (companies db) = Some c /\
      Cursor.find_one (company_with_id company_id) (companies gone) =
      Some (inc_total_jobs_posted 1 c) /\
      Company.total_jobs_posted (inc_total_jobs_posted 1 c) =
      Company.total_jobs_posted c + 1.
Proof.
  intros after. subst after. rewrite delete_job_run.
  destruct (Cursor.find_one (job_with_id job_id) (jobs db)) as [j|] eqn:Hj;
    simpl.
  - repeat (split; [reflexivity|]). split.
    + split; [reflexivity|].
      destruct (find_one_split _ _ _ Hj) as (l1 & l2 & Hjobs & Hp & Hl1).
      exists l1, l2. split; [exact Hjobs|].
      rewrite Hjobs, delete_one_split by assumption. reflexivity.
    + intros now data posted db1. rewrite create_job_run.
      destruct (Cursor.find_one (company_with_id _) (companies db));
        [|discriminate].
      destruct (negb (job_request_encodable data)); [discriminate|].
      destruct (List.existsb _ (jobs db)) eqn:He; [discriminate|exfalso].
      apply find_one_Some_In in Hj as (Hin & Hp).
      now rewrite (existsb_job_id _ _ He j Hin) in Hp.
  - repeat (split; [reflexivity|]).
    intros now data posted db1. rewrite create_job_run.
    destruct (Cursor.find_one (company_with_id _) (companies db)) as [c|]
      eqn:Hc; [|discriminate].
    destruct (negb (job_request_encodable data)); [discriminate|].
    destruct (List.existsb _ (jobs db)) eqn:He; [discriminate|].
    cbv zeta. intros [= _ <-]. rewrite delete_job_run. simpl.
    assert (Hdel : Cursor.delete_one (job_with_id job_id)
                     (jobs db ++ [new_job_doc data job_id now])
                   = (jobs db, 1)).
    { rewrite delete_one_split.
      - now rewrite List.app_nil_r.
      - unfold job_with_id. simpl. apply String.eqb_refl.
      - apply (proj1 (find_one_None _ _) Hj). }
    destruct (Cursor.find_one (job_with_id job_id) (jobs db ++ _)) eqn:Hf.
    + simpl. rewrite Hdel. simpl. split; [reflexivity|].
      split; [reflexivity|]. exists c. split; [reflexivity|].
      split; [|reflexivity].
      now apply (find_one_after_update _ (inc_total_jobs_posted 1)).
    + exfalso.
      apply (proj1 (find_one_None _ _)) with (d := new_job_doc data job_id now)
        in Hf.
      * unfold job_with_id in Hf. simpl in Hf.
        now rewrite String.eqb_refl in Hf.
      * apply List.in_or_app. right. now left.
Qed.

(** ** What every handler keeps

    The store starts consistent and each handler that writes jobs or
    applications keeps it so. *)

Lemma in_update_one {A : Type} (p : A -> bool) (f : A -> A) (c : list A)
  (y : A) :
  In y (Cursor.update_one p f c) -> exists x, In x c /\ (y = x \/ y = f x).
Proof.
  induction c as [|d c IH]; simpl; [intros []|].
  destruct (p d).
  - intros [Hy|Hy]; [exists d; auto|exists y; auto].
  - intros [Hy|Hy]; [exists d; auto|].
    destruct (IH Hy) as (x & Hx & Hxy). exists x. auto.
Qed.

Lemma map_update_one {A B : Type} (p : A -> bool) (f : A -> A) (g : A -> B)
  (c : list A) :
  (forall x, g (f x) = g x) ->
  map g (Cursor.update_one p f c) = map g c.
Proof.
  intros Hg. induction c as [|d c IH]; simpl; [reflexivity|].
  destruct (p d); simpl; [now rewrite Hg|now rewrite IH].
Qed.

Lemma in_delete_one {A : Type} (p : A -> bool) (c : list A) (y : A) :
  In y (fst (Cursor.delete_one p c)) -> In y c.
Proof.
  induction c as [|d c IH]; simpl; [intros []|].
  destruct (p d); simpl; [now right|].
  destruct (Cursor.delete_one p c) as [r n]. simpl in *.
  intros [<-|Hy]; [now left|right; now apply IH].
Qed.

Lemma nodup_delete_one {A B : Type} (p : A -> bool) (g : A -> B)
  (c : list A) :
  NoDup (map g c) -> NoDup (map g (fst (Cursor.delete_one p c))).
Proof.
  induction c as [|d c IH]; simpl; [trivial|].
  intros Hnd. apply List.NoDup_cons_iff in Hnd as (Hd & Hc).
  destruct (p d); simpl; [exact Hc|].
  specialize (IH Hc). destruct (Cursor.delete_one p c) as [r n] eqn:E.
  simpl in *. constructor; [|exact IH].
  intros Hin. apply Hd. apply List.in_map_iff in Hin as (x & <- & Hx).
  apply List.in_map. apply (in_delete_one p). now rewrite E.
Qed.

Lemma filter_none {A : Type} (p : A -> bool) (c : list A) :
  (forall x, In x c -> p x = false) -> List.filter p c = [].
Proof.
  induction c as [|d c IH]; simpl; intros Hall; [reflexivity|].
  rewrite (Hall d (or_introl eq_refl)). apply IH.
  intros x Hx. apply Hall. now right.
Qed.

Lemma empty_consistent : consistent (mkDB [] [] [] []).
Proof. split; [constructor|intros L []]. Qed.

Lemma get_job_consistent job_id db :
  consistent db -> consistent (snd (get_job job_id db)).
Proof.
  intros (Hu & Ha). rewrite get_job_run.
  destruct (Cursor.find_one (job_with_id job_id) (jobs db)); [|now split].
  split.
  - unfold unique_job_ids. simpl. now rewrite map_update_one.
  - intros L HL. simpl in *.
    apply in_update_one in HL as (x & Hx & [->| ->]);
      [now apply Ha|exact (Ha x Hx)].
Qed.

Lemma delete_job_consistent job_id db :
  consistent db -> consistent (snd (delete_job job_id db)).
Proof.
  intros (Hu & Ha). rewrite delete_job_run.
  destruct (Cursor.find_one (job_with_id job_id) (jobs db)); [|now split].
  split.
  - unfold unique_job_ids. simpl. now apply nodup_delete_one.
  - intros L HL. simpl in *. apply Ha. now apply in_delete_one in HL.
Qed.

Lemma create_job_consistent uuid4 utcnow data db :
  unreferenced uuid4 db ->
  consistent db -> consistent (snd (create_job uuid4 utcnow data db)).
Proof.
  intros Hfresh (Hu & Ha). rewrite create_job_run.
  destruct (Cursor.find_one _ (companies db)); [|now split].
  destruct (negb (job_request_encodable data)); [now split|].
  destruct (List.existsb _ (jobs db)) eqn:He; [now split|].
  cbv zeta. split.
  - unfold unique_job_ids in *. simpl. rewrite List.map_app. simpl.
    apply List.NoDup_app; [exact Hu|repeat constructor; intros []|].
    intros x Hx [<-|[]]. apply List.in_map_iff in Hx as (j & Hid & Hj).
    pose proof (existsb_job_id _ _ He j Hj) as Hne.
    unfold job_with_id in Hne. rewrite Hid, String.eqb_refl in Hne.
    discriminate.
  - intros L HL. simpl in *. apply List.in_app_or in HL as [HL|[<-|[]]];
      [now apply Ha|].
    simpl. unfold Cursor.count_documents.
    rewrite filter_none; [reflexivity|].
    intros a Ha'. rewrite application_for_unfold. apply String.eqb_neq.
    now apply Hfresh.
Qed.

Lemma submit_consistent tokeninfo uuid4 utcnow job_id data db :
  consistent db ->
  consistent (snd (_submit_application tokeninfo uuid4 utcnow job_id data db)).
Proof.
  intros (Hu & Ha).
  destruct (_submit_application tokeninfo uuid4 utcnow job_id data db)
    as [[a|e] db'] eqn:Hrun; simpl.
  - destruct (submit_keeps_counters _ _ _ _ _ _ _ _ Hu Ha Hrun). now split.
  - apply submit_raise_keeps_db in Hrun as ->. now split.
Qed.

(** ** The alternate request shape *)

(** C8: the alternate-shape entry point does exactly what the canonical
    entry point does on the same job identifier with every field renamed
    to its canonical name: same outcome, same stored application, same
    counter change.  The renaming keeps every field value and loses
    none. *)
Theorem compat_entry_point_is_renaming tokeninfo uuid4 utcnow data db :
  let mapped := canonical_shape data in
  apply_for_job_compat tokeninfo uuid4 utcnow data db =
  apply_for_job tokeninfo uuid4 utcnow (ApplicationCreateCompat.job_id data)
    mapped db /\
  compat_shape (ApplicationCreateCompat.job_id data) mapped = data /\
  (ApplicationCreate.applicant_name mapped
   = ApplicationCreateCompat.full_name data /\
   ApplicationCreate.applicant_email mapped
   = ApplicationCreateCompat.email data /\
   ApplicationCreate.years_of_experience mapped
   = ApplicationCreateCompat.years_experience data /\
   ApplicationCreate.current_institution mapped
   = ApplicationCreateCompat.institution data /\
   ApplicationCreate.google_access_token mapped
   = ApplicationCreateCompat.google_access_token data /\
   ApplicationCreate.phone mapped = ApplicationCreateCompat.phone data /\
   ApplicationCreate.resume_url mapped
   = ApplicationCreateCompat.resume_url data /\
   ApplicationCreate.cover_letter mapped
   = ApplicationCreateCompat.cover_letter data /\
   ApplicationCreate.linkedin_url mapped
   = ApplicationCreateCompat.linkedin_url data /\
   ApplicationCreate.portfolio_url mapped
   = ApplicationCreateCompat.portfolio_url data /\
   ApplicationCreate.graduation_year mapped
   = ApplicationCreateCompat.graduation_year data) /\
  match apply_for_job_compat tokeninfo uuid4 utcnow data db with
  | (Returned r, db') =>
      applications db' = applications db ++ [application r] /\
      Application.fields (application r) = mapped /\
      Application.job_id (application r)
      = ApplicationCreateCompat.job_id data
  | (Raised _, db') => db' = db
  end.
Proof.
  intros mapped. subst mapped. split; [reflexivity|].
  split; [now destruct data|]. split; [repeat split|].
  unfold apply_for_job_compat, bind.
  fold (canonical_shape data).
  destruct (_submit_application tokeninfo uuid4 utcnow
              (ApplicationCreateCompat.job_id data) (canonical_shape data) db)
    as [[a|e] db'] eqn:Hrun.
  - apply submit_returns_stored in Hrun as (job & _ & _ & _ & -> & ->).
    simpl. repeat split.
  - now apply submit_raise_keeps_db in Hrun.
Qed.

(** ** The listing query *)

Lemma insert_sorted_perm {A : Type} (le : A -> A -> bool) (x : A)
  (l : list A) :
  Permutation (Cursor.insert_sorted le x l) (x :: l).
Proof.
  induction l as [|y l IH]; simpl; [apply Permutation_refl|].
  destruct (le x y); [apply Permutation_refl|].
  eapply Permutation_trans; [apply perm_skip, IH|apply perm_swap].
Qed.

Lemma sort_perm {A : Type} (le : A -> A -> bool) (c : list A) :
  Permutation (Cursor.sort le c) c.
Proof.
  unfold Cursor.sort. induction c as [|x c IH]; simpl; [constructor|].
  eapply Permutation_trans; [apply insert_sorted_perm|].
  now apply perm_skip.
Qed.

Lemma in_firstn {A : Type} (n : nat) (l : list A) (x : A) :
  In x (List.firstn n l) -> In x l.
Proof.
  intros Hx. rewrite <- (List.firstn_skipn n l).
  apply List.in_or_app. now left.
Qed.

Lemma in_skipn {A : Type} (n : nat) (l : list A) (x : A) :
  In x (List.skipn n l) -> In x l.
Proof.
  intros Hx. rewrite <- (List.firstn_skipn n l).
  apply List.in_or_app. now right.
Qed.

Lemma in_limit {A : Type} (n : Z) (l : list A) (x : A) :
  In x (Cursor.limit n l) -> In x l.
Proof.
  unfold Cursor.limit. destruct (Z.eqb n 0); [trivial|apply in_firstn].
Qed.

Lemma filter_twice {A : Type} (f g : A -> bool) (l : list A) :
  List.filter f (List.filter g l) = List.filter (fun x => g x && f x) l.
Proof.
  induction l as [|x l IH]; simpl; [reflexivity|].
  destruct (g x); simpl; [|exact IH]. destruct (f x); now rewrite IH.
Qed.

Lemma mapM_enrich_job (l : list Job.t) (db : DB) :
  mapM _enrich_job l db = (Returned (map (enriched db) l), db).
Proof.
  induction l as [|j l IH]; simpl; [reflexivity|].
  unfold bind. rewrite enrich_job_run, IH. reflexivity.
Qed.

(** [(a + b - 1) // b] is the ceiling of [a / b]. *)
Lemma ceil_div_floor (a b : Z) :
  0 < b -> (a + b - 1) / b = ceil_div a b.
Proof.
  intros Hb. unfold ceil_div.
  pose proof (Z.div_mod a b ltac:(lia)) as Hdm.
  pose proof (Z.mod_pos_bound a b Hb) as Hm.
  destruct (Z.eqb_spec (a mod b) 0) as [E|E].
  - symmetry. apply (Z.div_unique _ _ _ (b - 1)); lia.
  - symmetry. apply (Z.div_unique _ _ _ (a mod b - 1)); lia.
Qed.

Lemma ceil_div_bounds (a b : Z) :
  0 < b -> (ceil_div a b - 1) * b < a <= ceil_div a b * b.
Proof.
  intros Hb. unfold ceil_div.
  pose proof (Z.div_mod a b ltac:(lia)) as Hdm.
  pose proof (Z.mod_pos_bound a b Hb) as Hm.
  destruct (Z.eqb_spec (a mod b) 0) as [E|E]; nia.
Qed.

Lemma gte_iff (x : Z) (j : Job.t) :
  gte x (Job.salary_max j) = true <-> max_salary_at_least x j.
Proof.
  unfold gte, max_salary_at_least. destruct (Job.salary_max j) as [m|].
  - rewrite Z.leb_le. split; [intros Hm; now exists m|].
    now intros (m' & [= <-] & Hm).
  - split; [discriminate|]. now intros (m & Hm & _).
Qed.

Section ListJobsProperties.
Context `{RegexEngine}.

Lemma refusal_cases (q : JobFilter) :
  refusal q = None \/ refusal q = Some OverflowError \/
  refusal q = Some OperationFailure.
Proof.
  unfold refusal. destruct (negb (opt_int64 (q_salary_max q))); [auto|].
  match goal with |- context [if ?c then _ else _] => destruct c end; auto.
Qed.

Lemma list_jobs_run (p : ListJobsParams) (db : DB) :
  list_jobs p db =
  match refusal (build_filter p) with
  | Some e => (Raised e, db)
  | None =>
      if negb (int64 ((page p - 1) * page_size p))
      then (Raised OverflowError, db)
      else
        let found := Cursor.find (matches (build_filter p)) (jobs db) in
        let total :=
          Cursor.count_documents (matches (build_filter p)) (jobs db) in
        (Returned
           (mkJobsPage
              (map (enriched db)
                 (Cursor.limit (page_size p)
                    (Cursor.skip ((page p - 1) * page_size p)
                       (Cursor.sort
                          (job_le
                             (dict_get sort_map (sort_by p)
                                (by_created_at, DESCENDING)))
                          found))))
              (mkPagination total (page p) (page_size p)
                 (Z.max 1 ((total + page_size p - 1) / page_size p)))),
         db)
  end.
Proof.
  unfold list_jobs, bind, count_jobs, find_jobs.
  destruct (refusal (build_filter p)); [reflexivity|].
  destruct (negb (int64 ((page p - 1) * page_size p))); [reflexivity|].
  rewrite mapM_enrich_job. reflexivity.
Qed.

(** A query either is answered, or raises in the driver or the store
    without a write. *)
Lemma list_jobs_answered (p : ListJobsParams) (db : DB) :
  match list_jobs p db with
  | (Returned _, db') => db' = db /\ answered p
  | (Raised e, db') =>
      db' = db /\ ~ answered p /\
      (e = OverflowError \/ e = OperationFailure)
  end.
Proof.
  rewrite list_jobs_run. unfold answered.
  destruct (refusal_cases (build_filter p)) as [E|[E|E]]; rewrite E.
  - destruct (int64 ((page p - 1) * page_size p)); simpl.
    + now repeat split.
    + split; [reflexivity|]. split; [now intros (_ & [=])|now left].
  - split; [reflexivity|]. split; [now intros ([=] & _)|now left].
  - split; [reflexivity|]. split; [now intros ([=] & _)|now right].
Qed.

Lemma salary_floor_matches (p : ListJobsParams) (x : Z) (j : Job.t) :
  matches (build_filter (with_salary_min (Some x) p)) j =
  matches (build_filter (with_salary_min None p)) j &&
  gte x (Job.salary_max j).
Proof.
  unfold matches, build_filter, with_salary_min. simpl.
  now rewrite andb_true_r.
Qed.

(** C5, as the code has it: for a listing query ([page >= 1], [page_size]
    between 1 and 50) with [salary_min = x] supplied, the listings the
    query is about are
    exactly those that match the rest of the query and whose [salary_max]
    is defined and at least [x]: a maximum equal to [x] is among them, an
    undefined maximum is not.  Whenever the query is answered, the
    reported total is their number and the returned page is the window of
    them, in the order of the sort and with the companies attached, that
    the page parameters select; the query is answered unless the driver or
    the store refuses it ([x] or the offset beyond 8 bytes, a pattern that
    does not compile), and then it raises, has no result set and writes
    nothing. *)
Theorem salary_floor_compares_maximum (p : ListJobsParams) (x : Z)
  (db : DB) :
  1 <= page p ->
  1 <= page_size p <= 50 ->
  let asked := with_salary_min (Some x) p in
  let q := build_filter asked in
  let rest := build_filter (with_salary_min None p) in
  let wanted :=
    List.filter (fun j => gte x (Job.salary_max j))
      (Cursor.find (matches rest) (jobs db)) in
  (forall j,
     In j wanted <->
     In j (jobs db) /\ matches rest j = true /\ max_salary_at_least x j) /\
  Cursor.find (matches q) (jobs db) = wanted /\
  (forall j,
     In j (jobs db) -> matches rest j = true -> Job.salary_max j = Some x ->
     In j wanted) /\
  (forall j, Job.salary_max j = None -> ~ In j wanted) /\
  match list_jobs asked db with
  | (Returned r, db') =>
      db' = db /\ answered asked /\
      total (pagination r) = Z.of_nat (List.length wanted) /\
      page_jobs r =
        map (enriched db)
          (Cursor.limit (page_size p)
             (Cursor.skip ((page p - 1) * page_size p)
                (Cursor.sort
                   (job_le
                      (dict_get sort_map (sort_by p)
                         (by_created_at, DESCENDING)))
                   wanted)))
  | (Raised e, db') =>
      db' = db /\ ~ answered asked /\
      (e = OverflowError \/ e = OperationFailure)
  end.
Proof.
  intros Hpage Hsize asked q rest wanted. subst asked q rest wanted.
  assert (Hfind : Cursor.find
                    (matches (build_filter (with_salary_min (Some x) p)))
                    (jobs db)
                  = List.filter (fun j => gte x (Job.salary_max j))
                      (Cursor.find
                         (matches (build_filter (with_salary_min None p)))
                         (jobs db))).
  { unfold Cursor.find. rewrite filter_twice.
    apply List.filter_ext. intros j. apply salary_floor_matches. }
  assert (Hin : forall j,
            In j (List.filter (fun j => gte x (Job.salary_max j))
                    (Cursor.find
                       (matches (build_filter (with_salary_min None p)))
                       (jobs db))) <->
            In j (jobs db) /\
            matches (build_filter (with_salary_min None p)) j = true /\
            max_salary_at_least x j).
  { intros j. unfold Cursor.find. rewrite !List.filter_In, gte_iff. tauto. }
  split; [exact Hin|]. split; [exact Hfind|]. split; [|split].
  - intros j Hj Hrest Hmax. apply Hin. split; [exact Hj|].
    split; [exact Hrest|]. exists x. split; [exact Hmax|lia].
  - intros j Hmax Hj. apply Hin in Hj as (_ & _ & m & Hm & _). congruence.
  - pose proof (list_jobs_answered (with_salary_min (Some x) p) db) as Hans.
    rewrite list_jobs_run in *.
    destruct (refusal (build_filter (with_salary_min (Some x) p)));
      [exact Hans|].
    destruct (negb (int64 _)); [exact Hans|].
    cbv zeta in *. destruct Hans as (Hdb & Hans).
    split; [exact Hdb|]. split; [exact Hans|].
    cbn [pagination total page_jobs with_salary_min page page_size sort_by].
    unfold Cursor.count_documents.
    change (List.filter
              (matches (build_filter (with_salary_min (Some x) p)))
              (jobs db))
      with (Cursor.find
              (matches (build_filter (with_salary_min (Some x) p)))
              (jobs db)).
    rewrite Hfind. split; reflexivity.
Qed.

(** C6, as the code has it: for [page >= 1] and [page_size] between 1 and
    50, a query that the driver and the store answer returns, without
    writing, the window of the sorted matching listings that starts at
    offset [(page - 1) * page_size] and holds at most [page_size]
    entries, each with its company attached.  The reported total is the
    number of matching listings, and [total_pages] is the ceiling of total
    over [page_size], but 1 when that is smaller; a page after the last
    one is empty.  A query that is not answered (an offset or a salary
    floor beyond 8 bytes, a pattern that does not compile) raises and
    writes nothing. *)
Theorem pagination_window (p : ListJobsParams) (db : DB) :
  1 <= page p ->
  1 <= page_size p <= 50 ->
  let matching :=
    Cursor.sort
      (job_le (dict_get sort_map (sort_by p) (by_created_at, DESCENDING)))
      (Cursor.find (matches (build_filter p)) (jobs db)) in
  let offset := Z.to_nat ((page p - 1) * page_size p) in
  (answered p ->
   exists r,
     list_jobs p db = (Returned r, db) /\
     map job (page_jobs r) =
       List.firstn (Z.to_nat (page_size p)) (List.skipn offset matching) /\
     page_jobs r = map (enriched db) (map job (page_jobs r)) /\
     Z.of_nat (List.length (page_jobs r)) <= page_size p /\
     Permutation matching
       (List.filter (matches (build_filter p)) (jobs db)) /\
     total (pagination r) = Z.of_nat (List.length matching) /\
     total_pages (pagination r) =
       Z.max 1 (ceil_div (total (pagination r)) (page_size p)) /\
     1 <= total_pages (pagination r) /\
     total (pagination r) <= total_pages (pagination r) * page_size p /\
     (0 < total (pagination r) ->
      (total_pages (pagination r) - 1) * page_size p
      < total (pagination r)) /\
     (total (pagination r) = 0 -> total_pages (pagination r) = 1) /\
     (total_pages (pagination r) < page p -> page_jobs r = [])) /\
  (~ answered p ->
   exists e,
     list_jobs p db = (Raised e, db) /\
     (e = OverflowError \/ e = OperationFailure)).
Proof.
  intros Hpage Hsize matching offset. split.
  2:{ intros Hnot. pose proof (list_jobs_answered p db) as Hans.
      destruct (list_jobs p db) as [[r|e] db'].
      - now destruct Hans as (_ & Hans).
      - destruct Hans as (-> & _ & He). now exists e. }
  intros (Hq & Hskip).
  assert (Hlen : List.length matching =
                 List.length (Cursor.find (matches (build_filter p)) (jobs db))).
  { apply Permutation_length, sort_perm. }
  assert (Hlimit : forall l : list Job.t,
            Cursor.limit (page_size p) l
            = List.firstn (Z.to_nat (page_size p)) l).
  { intros l. unfold Cursor.limit.
    destruct (Z.eqb_spec (page_size p) 0); [lia|].
    now rewrite Z.abs_eq by lia. }
  eexists. split; [rewrite list_jobs_run, Hq, Hskip; reflexivity|].
  cbv zeta. cbn [page_jobs pagination total total_pages].
  rewrite Hlimit. unfold Cursor.skip. fold matching. fold offset.
  unfold Cursor.count_documents.
  fold (Cursor.find (matches (build_filter p)) (jobs db)).
  rewrite <- Hlen.
  set (n := Z.of_nat (List.length matching)).
  assert (Hjobs : map job
                    (map (enriched db)
                       (List.firstn (Z.to_nat (page_size p))
                          (List.skipn offset matching)))
                  = List.firstn (Z.to_nat (page_size p))
                      (List.skipn offset matching)).
  { rewrite List.map_map. simpl. apply List.map_id. }
  rewrite ceil_div_floor by lia.
  pose proof (ceil_div_bounds n (page_size p) ltac:(lia)) as Hceil.
  split; [exact Hjobs|]. split; [now rewrite Hjobs|].
  split.
  { rewrite List.length_map.
    pose proof (List.firstn_le_length (Z.to_nat (page_size p))
                  (List.skipn offset matching)). lia. }
  split; [apply sort_perm|]. split; [reflexivity|].
  split; [reflexivity|]. split; [lia|]. split; [nia|].
  split; [intros Hpos; assert (1 <= ceil_div n (page_size p)) by nia; nia|].
  split.
  { intros Hz. rewrite Hz in *.
    assert (ceil_div 0 (page_size p) <= 0) by nia. lia. }
  intros Hbeyond. rewrite List.skipn_all2; [now rewrite List.firstn_nil|].
  subst offset. assert (Z.of_nat (List.length matching)
                        <= (page p - 1) * page_size p) by (fold n; nia).
  lia.
Qed.

End ListJobsProperties.

(** * The properties on the sample data *)

Lemma seeded_unique_job_ids : unique_job_ids Sample.seeded.
Proof.
  unfold unique_job_ids. vm_compute.
  repeat constructor; simpl; intuition discriminate.
Defined.

Lemma seeded_counters_agree : counters_agree Sample.seeded.
Proof.
  intros L HL. vm_compute in HL.
  destruct HL as [<-|[<-|[<-|[<-|[]]]]]; reflexivity.
Defined.

Lemma applied_has_application :
  applied_already "j1" "asha@example.com" Sample.applied.
Proof.
  eexists. split; [left; reflexivity|]. split; reflexivity.
Defined.

Lemma first_application_stored :
  exists a,
    _submit_application RequestException "a1" 2000 "j1" Sample.asha
      Sample.seeded = (Returned a, Sample.applied).
Proof. eexists. vm_compute. reflexivity. Defined.

(** The first submission succeeds; the same submission again is a
    Conflict and stores nothing. *)
Lemma apply_twice_succeeds_once_witness :
  (exists a,
     _submit_application RequestException "a1" 2000 "j1" Sample.asha
       Sample.seeded = (Returned a, Sample.applied)) /\
  _submit_application (Response 200 JsonError) "a2" 3000 "j1" Sample.asha
    Sample.applied =
  (Raised (HTTPException 409 "You have already applied for this job"),
   Sample.applied).
Proof.
  split; [exact first_application_stored|].
  destruct first_application_stored as (a & Hrun).
  destruct (apply_twice_succeeds_once RequestException "a1" 2000 "j1"
              Sample.asha Sample.seeded) as (_ & _ & Hthen).
  destruct (Hthen a Sample.applied Hrun) as (_ & _ & Hagain).
  apply (Hagain (Response 200 JsonError) "a2" 3000). reflexivity.
Defined.

(** An application is stored for the pair and the job is open, yet the
    failure is Unauthorized: the token sent with the second submission is
    rejected, and verification runs before the duplicate check. *)
Lemma conflict_is_not_the_only_failure :
  ~ (forall tokeninfo uuid4 utcnow job_id data db,
       applied_already job_id (ApplicationCreate.applicant_email data) db ->
       fst (_submit_application tokeninfo uuid4 utcnow job_id data db) =
       Raised (HTTPException 409 "You have already applied for this job")).
Proof.
  intros Hall.
  specialize (Hall (Response 401 JsonError) "a2" 3000 "j1"
                Sample.asha_with_token Sample.applied
                applied_has_application).
  vm_compute in Hall. discriminate.
Qed.

Example rejected_token_on_duplicate :
  _submit_application (Response 401 JsonError) "a2" 3000 "j1"
    Sample.asha_with_token Sample.applied =
  (Raised (HTTPException 401 "Invalid Google authentication token."),
   Sample.applied).
Proof. reflexivity. Qed.

(** The same holds when the job was closed or deleted after the first
    application. *)
Example closed_job_on_duplicate :
  applied_already "j1" "asha@example.com" Sample.applied_closed /\
  _submit_application RequestException "a2" 3000 "j1" Sample.asha
    Sample.applied_closed =
  (Raised (HTTPException 400 "This job listing is no longer active"),
   Sample.applied_closed).
Proof.
  split; [|reflexivity].
  eexists. split; [left; reflexivity|]. split; reflexivity.
Qed.

Example deleted_job_on_duplicate :
  applied_already "j1" "asha@example.com" Sample.applied_deleted /\
  _submit_application RequestException "a2" 3000 "j1" Sample.asha
    Sample.applied_deleted =
  (Raised (HTTPException 404 "Job not found"), Sample.applied_deleted).
Proof.
  split; [|reflexivity].
  eexists. split; [left; reflexivity|]. split; reflexivity.
Qed.

Lemma counter_tracks_applications_witness :
  counters_agree Sample.applied /\
  Cursor.count_documents (application_for "j1")
    (applications Sample.applied) = 1.
Proof.
  destruct first_application_stored as (a & Hrun).
  destruct (counter_tracks_applications RequestException "a1" 2000 "j1"
              Sample.asha Sample.seeded a Sample.applied
              seeded_unique_job_ids seeded_counters_agree Hrun)
    as (Hagree & _ & _ & _ & Hcount & _).
  split; [exact Hagree|exact Hcount].
Defined.

Lemma submit_check_order_witness :
  _submit_application (Response 401 JsonError) "a2" 3000 "j1"
    Sample.asha_with_token Sample.applied_deleted =
  (Raised (HTTPException 404 "Job not found"), Sample.applied_deleted) /\
  _submit_application (Response 401 JsonError) "a2" 3000 "j1"
    Sample.asha_with_token Sample.applied_closed =
  (Raised (HTTPException 400 "This job listing is no longer active"),
   Sample.applied_closed) /\
  _submit_application (Response 401 JsonError) "a2" 3000 "j1"
    Sample.asha_with_token Sample.applied =
  (Raised (HTTPException 401 "Invalid Google authentication token."),
   Sample.applied) /\
  _submit_application (Response 200 (JsonObject (Some "asha@example.com")))
    "a2" 3000 "j1" Sample.asha_with_token Sample.applied =
  (Raised (HTTPException 409 "You have already applied for this job"),
   Sample.applied).
Proof.
  split; [|split; [|split]].
  - destruct (submit_check_order (Response 401 JsonError) "a2" 3000 "j1"
                Sample.asha_with_token Sample.applied_deleted)
      as (Hmissing & _).
    apply Hmissing. reflexivity.
  - destruct (submit_check_order (Response 401 JsonError) "a2" 3000 "j1"
                Sample.asha_with_token Sample.applied_closed)
      as (_ & Hclosed & _).
    eapply Hclosed; reflexivity.
  - destruct (submit_check_order (Response 401 JsonError) "a2" 3000 "j1"
                Sample.asha_with_token Sample.applied)
      as (_ & _ & Hverify & _).
    eapply Hverify; reflexivity.
  - destruct (submit_check_order
                (Response 200 (JsonObject (Some "asha@example.com")))
                "a2" 3000 "j1" Sample.asha_with_token Sample.applied)
      as (_ & _ & _ & Hdup).
    eapply Hdup;
      [reflexivity|reflexivity|reflexivity|exact applied_has_application].
Defined.

Lemma token_verification_outcomes_witness :
  verify_google_token (Response 500 JsonError) Sample.asha_with_token
    Sample.seeded =
  (Raised (HTTPException 401 "Invalid Google authentication token."),
   Sample.seeded) /\
  verify_google_token (Response 200 (JsonObject (Some "rao@example.com")))
    Sample.asha_with_token Sample.seeded =
  (Raised (HTTPException 403 "Email mismatch with Google account."),
   Sample.seeded) /\
  _submit_application (Response 500 JsonError) "a1" 2000 "j1"
    Sample.asha_with_token Sample.seeded =
  (Raised (HTTPException 401 "Invalid Google authentication token."),
   Sample.seeded) /\
  _submit_application RequestException "a1" 2000 "j1"
    Sample.asha_with_token Sample.seeded =
  _submit_application (Response 200 (JsonObject (Some "asha@example.com")))
    "a1" 2000 "j1" Sample.asha_with_token Sample.seeded /\
  _submit_application (Response 500 JsonError) "a1" 2000 "j1" Sample.asha
    Sample.seeded =
  _submit_application RequestException "a1" 2000 "j1" Sample.asha
    Sample.seeded.
Proof.
  destruct (token_verification_outcomes "a1" 2000 "j1"
              Sample.asha_with_token Sample.seeded)
    as (_ & Hsupplied & Hfails & Hswallowed & _).
  destruct (Hsupplied eq_refl) as (H401 & H403 & _).
  split; [apply H401; lia|].
  split; [apply H403; discriminate|].
  split; [eapply Hfails; [reflexivity|reflexivity|apply H401; lia]|].
  split; [apply (Hswallowed RequestException); now left|].
  destruct (token_verification_outcomes "a1" 2000 "j1" Sample.asha
              Sample.seeded) as (_ & _ & _ & _ & Hnone & _).
  apply (Hnone eq_refl).
Defined.

(** A success response whose JSON object has no email is an unexpected
    payload, yet it is not swallowed: the comparison with the applicant's
    email fails and the step raises Forbidden. *)
Lemma unexpected_payload_is_not_swallowed :
  ~ (forall tokeninfo data db,
       truthy (ApplicationCreate.google_access_token data) = true ->
       other_failure tokeninfo ->
       verify_google_token tokeninfo data db = (Returned tt, db)).
Proof.
  intros Hall.
  specialize (Hall (Response 200 (JsonObject None)) Sample.asha_with_token
                Sample.seeded eq_refl).
  unfold other_failure in Hall.
  specialize (Hall (or_intror (or_intror eq_refl))).
  vm_compute in Hall. discriminate.
Qed.

Example payload_without_email_is_forbidden :
  _submit_application (Response 200 (JsonObject None)) "a1" 2000 "j1"
    Sample.asha_with_token Sample.seeded =
  (Raised (HTTPException 403 "Email mismatch with Google account."),
   Sample.seeded).
Proof. reflexivity. Qed.

Example stored_token_is_the_only_difference :
  forget_tokens
    (_submit_application (Response 200 JsonError) "a1" 2000 "j1"
       Sample.asha_with_token Sample.seeded) =
  forget_tokens
    (_submit_application RequestException "a1" 2000 "j1" Sample.asha
       Sample.seeded).
Proof. vm_compute. reflexivity. Qed.

#[local] Existing Instance Sample.literal_engine.

Lemma floor_25000_answered : answered Sample.floor_25000.
Proof. split; vm_compute; reflexivity. Defined.

(** On the seeded store the floor 25000 returns the three listings whose
    maximum reaches it, the one at exactly 25000 among them. *)
Lemma salary_floor_compares_maximum_witness :
  match list_jobs Sample.floor_25000 Sample.seeded with
  | (Returned r, _) =>
      map (fun e => Job.id (job e)) (page_jobs r) = ["j1"; "j3"; "j2"] /\
      total (pagination r) = 3
  | (Raised _, _) => False
  end /\
  (forall j,
     In j (jobs Sample.seeded) -> Job.salary_max j = Some 25000 ->
     In j (Cursor.find (matches (build_filter Sample.floor_25000))
             (jobs Sample.seeded))).
Proof.
  destruct (@salary_floor_compares_maximum Sample.literal_engine
              Sample.floor_25000 25000 Sample.seeded
              ltac:(simpl; lia) ltac:(simpl; lia))
    as (_ & Hfind & Hbound & _ & Hrun).
  change (with_salary_min (Some 25000) Sample.floor_25000)
    with Sample.floor_25000 in *.
  split.
  - destruct (list_jobs Sample.floor_25000 Sample.seeded) as [[r|e] db'].
    + destruct Hrun as (_ & _ & Htotal & Hpage).
      rewrite Hpage, Htotal. vm_compute. split; reflexivity.
    + destruct Hrun as (_ & Hnot & _). exact (Hnot floor_25000_answered).
  - intros j Hj Hmax. rewrite Hfind. apply Hbound; [exact Hj| |exact Hmax].
    vm_compute in Hj. destruct Hj as [<-|[<-|[<-|[<-|[]]]]]; reflexivity.
Defined.

(** A salary floor beyond 8 bytes has no result set, not the empty one:
    the driver refuses the query. *)
Lemma huge_salary_floor_is_refused :
  ~ (forall (engine : RegexEngine) (p : ListJobsParams) (x : Z) (db : DB),
       1 <= page p ->
       1 <= page_size p <= 50 ->
       exists r,
         list_jobs (with_salary_min (Some x) p) db = (Returned r, db) /\
         forall j,
           In j (map job (page_jobs r)) -> max_salary_at_least x j).
Proof.
  intros Hall.
  destruct (Hall Sample.literal_engine (Sample.tenth 1) (2 ^ 63)
              Sample.seeded ltac:(simpl; lia) ltac:(simpl; lia))
    as (r & Hrun & _).
  vm_compute in Hrun. discriminate.
Qed.

Example salary_floor_beyond_the_encoder :
  list_jobs (with_salary_min (Some (2 ^ 63)) (Sample.tenth 1)) Sample.seeded
  = (Raised OverflowError, Sample.seeded) /\
  exists r,
    list_jobs (with_salary_min (Some (2 ^ 63 - 1)) (Sample.tenth 1))
      Sample.seeded = (Returned r, Sample.seeded) /\
    page_jobs r = [] /\ total (pagination r) = 0.
Proof. split; [|eexists]; vm_compute; repeat split. Qed.

Lemma tenth_3_answered : answered (Sample.tenth 3).
Proof. split; vm_compute; reflexivity. Defined.

(** Twenty-five matching listings in pages of ten. *)
Lemma pagination_window_witness :
  exists r,
    list_jobs (Sample.tenth 3) Sample.twenty_five
    = (Returned r, Sample.twenty_five) /\
    List.length (page_jobs r) = 5%nat /\
    total (pagination r) = 25 /\
    total_pages (pagination r) = 3.
Proof.
  destruct (@pagination_window Sample.literal_engine (Sample.tenth 3)
              Sample.twenty_five ltac:(simpl; lia) ltac:(simpl; lia))
    as (Hanswered & _).
  destruct (Hanswered tenth_3_answered)
    as (r & Hrun & Hjobs & _ & _ & _ & Htotal & Hpages & _).
  exists r. split; [exact Hrun|]. split; [|split].
  - rewrite <- (List.length_map job), Hjobs. vm_compute. reflexivity.
  - rewrite Htotal. vm_compute. reflexivity.
  - rewrite Hpages, Htotal. vm_compute. reflexivity.
Defined.

(** A page whose offset is beyond 8 bytes is no empty page: the driver
    refuses the query. *)
Lemma huge_page_is_refused :
  ~ (forall (engine : RegexEngine) (p : ListJobsParams) (db : DB),
       1 <= page p ->
       1 <= page_size p <= 50 ->
       exists r, list_jobs p db = (Returned r, db)).
Proof.
  intros Hall.
  destruct (Hall Sample.literal_engine (Sample.tenth (2 ^ 62))
              Sample.twenty_five ltac:(simpl; lia) ltac:(simpl; lia))
    as (r & Hrun).
  vm_compute in Hrun. discriminate.
Qed.

Example page_beyond_the_encoder :
  list_jobs (Sample.tenth (2 ^ 62)) Sample.twenty_five =
  (Raised OverflowError, Sample.twenty_five).
Proof. vm_compute. reflexivity. Qed.

Example pattern_that_does_not_compile :
  list_jobs Sample.open_paren Sample.twenty_five =
  (Raised OperationFailure, Sample.twenty_five).
Proof. vm_compute. reflexivity. Qed.

Example pagination_of_twenty_five :
  let size n :=
    match fst (list_jobs (Sample.tenth n) Sample.twenty_five) with
    | Returned r =>
        Some (List.length (page_jobs r), total_pages (pagination r))
    | Raised _ => None
    end in
  size 1 = Some (10%nat, 3) /\ size 2 = Some (10%nat, 3) /\
  size 3 = Some (5%nat, 3) /\ size 10 = Some (0%nat, 3).
Proof. vm_compute. repeat split. Qed.

Example no_matches_is_one_page :
  match fst (list_jobs (Sample.tenth 1) Sample.empty) with
  | Returned r => page_jobs r = [] /\ total_pages (pagination r) = 1
  | Raised _ => False
  end.
Proof. vm_compute. split; reflexivity. Qed.

Example get_job_three_times :
  let fetch db :=
    match get_job "j1" db with
    | (Returned r, db') => (Job.views (job r), db')
    | (Raised _, db') => (-1, db')
    end in
  let (v1, db1) := fetch Sample.seeded in
  let (v2, db2) := fetch db1 in
  let (v3, db3) := fetch db2 in
  (v1, v2, v3) = (1, 2, 3) /\
  option_map Job.views (Cursor.find_one (job_with_id "j1") (jobs db3))
  = Some 3.
Proof. vm_compute. split; reflexivity. Qed.

Example compat_sample :
  apply_for_job_compat RequestException "a1" 2000 Sample.asha_compat
    Sample.seeded =
  apply_for_job RequestException "a1" 2000 "j1" Sample.asha Sample.seeded.
Proof. reflexivity. Qed.

(** Posting a job for company [c1] and deleting it again. *)
Lemma delete_job_removes_only_the_job_witness :
  exists posted db1,
    create_job "j9" 5000 Sample.new_job Sample.seeded = (Returned posted, db1) /\
    jobs (snd (delete_job "j9" db1)) = jobs Sample.seeded /\
    option_map Company.total_jobs_posted
      (Cursor.find_one (company_with_id "c1") (companies Sample.seeded))
    = Some 2 /\
    option_map Company.total_jobs_posted
      (Cursor.find_one (company_with_id "c1")
         (companies (snd (delete_job "j9" db1))))
    = Some 3.
Proof.
  destruct (create_job "j9" 5000 Sample.new_job Sample.seeded)
    as [[posted|e] db1] eqn:Hrun; [|vm_compute in Hrun; discriminate].
  exists posted, db1. split; [reflexivity|].
  destruct (delete_job_removes_only_the_job "j9" Sample.seeded)
    as (_ & _ & _ & _ & Hposted).
  destruct (Hposted 5000 Sample.new_job posted db1 Hrun)
    as (Hjobs & _ & c & Hbefore & Hafter & Hinc).
  split; [exact Hjobs|].
  change (JobCreate.company_id Sample.new_job) with "c1" in *.
  rewrite Hafter. split; [reflexivity|].
  vm_compute in Hbefore. injection Hbefore as <-. reflexivity.
Defined.

Example deleting_keeps_the_applications :
  applications Sample.applied_deleted = applications Sample.applied /\
  companies Sample.applied_deleted = companies Sample.applied /\
  map Job.id (jobs Sample.applied_deleted) = ["j2"; "j3"; "j4"].
Proof. vm_compute. repeat split. Qed.

(** * Further properties *)

(** ** Companies and posting *)

Lemma existsb_company_id (company_id : string) (c : list Company.t) :
  List.existsb (fun x => String.eqb (Company.id x) company_id) c = false ->
  Cursor.find_one (company_with_id company_id) c = None.
Proof.
  intros He. apply find_one_None. intros d Hd. unfold company_with_id.
  destruct (String.eqb (Company.id d) company_id) eqn:E; [|reflexivity].
  rewrite <- He. symmetry. apply List.existsb_exists. now exists d.
Qed.

Lemma find_one_app_new {A : Type} (p : A -> bool) (c : list A) (d : A) :
  Cursor.find_one p c = None -> p d = true ->
  Cursor.find_one p (c ++ [d]) = Some d.
Proof.
  induction c as [|x c IH]; simpl; intros Hn Hp; [now rewrite Hp|].
  destruct (p x); [discriminate|]. now apply IH.
Qed.

Lemma find_one_app_old {A : Type} (p : A -> bool) (c : list A) (d x : A) :
  Cursor.find_one p c = Some x -> Cursor.find_one p (c ++ [d]) = Some x.
Proof.
  induction c as [|y c IH]; simpl; [discriminate|].
  destruct (p y); [trivial|]. apply IH.
Qed.

Lemma create_company_run uuid4 utcnow data db :
  create_company uuid4 utcnow data db =
  let doc := Company.mk data uuid4 utcnow 0 in
  if List.existsb (fun x => String.eqb (Company.id x) uuid4) (companies db)
  then (Raised DuplicateKeyError, db)
  else
    (Returned doc,
     mkDB (companies db ++ [doc]) (jobs db) (applications db) (bookmarks db)).
Proof.
  unfold create_company, bind, insert_one.
  cbn [docs col_companies unique_id Company.id store].
  destruct (List.existsb _ (companies db)); reflexivity.
Qed.

Lemma get_company_run company_id db :
  get_company company_id db =
  match Cursor.find_one (company_with_id company_id) (companies db) with
  | None => (Raised (HTTPException 404 "Company not found"), db)
  | Some c =>
      let found := Cursor.find (active_job_of company_id) (jobs db) in
      (Returned (CompanyProfile.mk c found (Z.of_nat (List.length found))),
       db)
  end.
Proof.
  unfold get_company, bind, find_one, find, ret, _clean.
  cbn [docs col_companies col_jobs].
  destruct (Cursor.find_one _ (companies db)); [|reflexivity].
  now rewrite List.map_id.
Qed.

Lemma list_companies_run db :
  list_companies db =
  (Returned
     (CompanyList.mk (companies db) (Z.of_nat (List.length (companies db)))),
   db).
Proof.
  unfold list_companies, bind, find, count_documents, ret, _clean.
  cbn [docs col_companies].
  change (List.filter every (companies db))
    with (Cursor.find every (companies db)).
  unfold Cursor.count_documents.
  change (List.filter every (companies db))
    with (Cursor.find every (companies db)).
  assert (Hall : Cursor.find every (companies db) = companies db).
  { unfold Cursor.find. induction (companies db) as [|x l IH];
      simpl; [reflexivity|now rewrite IH]. }
  now rewrite Hall, List.map_id.
Qed.

(** X1: registering a company stores it when, and only when, its new
    identifier is not stored yet: the company goes last with a zero
    [total_jobs_posted] and nothing else is written; fetched at once under
    the identifier it is, timestamp apart, the company that was returned,
    and the company list shows it last, one company more than before.
    With a stored identifier the insert is refused and nothing is
    written. *)
Theorem create_company_then_get uuid4 utcnow data db :
  match create_company uuid4 utcnow data db with
  | (Returned c, db') =>
      Cursor.find_one (company_with_id uuid4) (companies db) = None /\
      c = Company.mk data uuid4 utcnow 0 /\
      db' = mkDB (companies db ++ [c]) (jobs db) (applications db)
              (bookmarks db) /\
      (exists profile,
         get_company uuid4 db' = (Returned profile, db') /\
         company_undated (CompanyProfile.company profile) =
         company_undated c) /\
      (exists listed,
         list_companies db' = (Returned listed, db') /\
         map company_undated (CompanyList.companies listed) =
         map company_undated (companies db) ++ [company_undated c] /\
         CompanyList.total listed =
         Z.of_nat (List.length (companies db)) + 1)
  | (Raised e, db') =>
      e = DuplicateKeyError /\ db' = db /\
      exists c, Cursor.find_one (company_with_id uuid4) (companies db)
                = Some c
  end.
Proof.
  rewrite create_company_run. cbv zeta.
  destruct (List.existsb _ (companies db)) eqn:He.
  - split; [reflexivity|]. split; [reflexivity|].
    apply List.existsb_exists in He as (x & Hx & Hid).
    apply find_one_exists. now exists x.
  - apply existsb_company_id in He.
    split; [exact He|]. split; [reflexivity|]. split; [reflexivity|].
    split.
    + eexists. rewrite get_company_run. cbn [companies].
      rewrite (find_one_app_new _ _ _ He); [|apply String.eqb_refl].
      split; reflexivity.
    + eexists. rewrite list_companies_run. cbn [companies].
      split; [reflexivity|]. cbn [CompanyList.companies CompanyList.total].
      split; [now rewrite List.map_app|].
      now rewrite List.length_app, Nat2Z.inj_add.
Qed.

Lemma create_job_returned uuid4 utcnow data db r db' :
  create_job uuid4 utcnow data db = (Returned r, db') ->
  exists c,
    Cursor.find_one (company_with_id (JobCreate.company_id data))
      (companies db) = Some c /\
    List.existsb (fun x => String.eqb (Job.id x) uuid4) (jobs db) = false /\
    job (jp_job r) = new_job_doc data uuid4 utcnow /\
    db' = mkDB
            (Cursor.update_one (company_with_id (JobCreate.company_id data))
               (inc_total_jobs_posted 1) (companies db))
            (jobs db ++ [new_job_doc data uuid4 utcnow]) (applications db)
            (bookmarks db).
Proof.
  rewrite create_job_run.
  destruct (Cursor.find_one _ (companies db)) as [c|]; [|discriminate].
  destruct (negb (job_request_encodable data)); [discriminate|].
  destruct (List.existsb _ (jobs db)); [discriminate|].
  cbv zeta. intros [= <- <-]. exists c. repeat split.
Qed.

(** X2: posting a job either fails before anything is written (NotFound
    when the company is not stored, then the driver's OverflowError when a
    salary bound or the number of openings does not fit 8 bytes, then a
    refused insert when the new identifier is stored) or appends exactly
    one job, open and with both counters at zero, adds one to
    [total_jobs_posted] of the first company with that identifier, and
    returns the job with that updated company attached. *)
Theorem create_job_outcomes uuid4 utcnow data db :
  let company_id := JobCreate.company_id data in
  match create_job uuid4 utcnow data db with
  | (Raised e, db') =>
      db' = db /\
      ((e = HTTPException 404 "Company not found. Create the company first."
        /\ Cursor.find_one (company_with_id company_id) (companies db) = None)
       \/ (e = OverflowError /\
           Cursor.find_one (company_with_id company_id) (companies db)
           <> None /\
           job_request_encodable data = false)
       \/ (e = DuplicateKeyError /\
           Cursor.find_one (company_with_id company_id) (companies db)
           <> None /\
           job_request_encodable data = true /\
           exists j, In j (jobs db) /\ Job.id j = uuid4))
  | (Returned r, db') =>
      let doc := job (jp_job r) in
      exists c,
        Cursor.find_one (company_with_id company_id) (companies db) = Some c /\
        job_request_encodable data = true /\
        company (jp_job r) = Some (inc_total_jobs_posted 1 c) /\
        db' = mkDB
                (Cursor.update_one (company_with_id company_id)
                   (inc_total_jobs_posted 1) (companies db))
                (jobs db ++ [doc]) (applications db) (bookmarks db) /\
        Job.id doc = uuid4 /\ Job.company_id doc = company_id /\
        Job.is_active doc = true /\ Job.views doc = 0 /\
        Job.applications_count doc = 0 /\
        (forall j, In j (jobs db) -> Job.id j <> uuid4)
  end.
Proof.
  intros company_id. subst company_id. rewrite create_job_run.
  destruct (Cursor.find_one _ (companies db)) as [c|] eqn:Hc.
  - destruct (job_request_encodable data) eqn:Henc; cbn [negb].
    2:{ split; [reflexivity|]. right. left. now repeat split. }
    destruct (List.existsb _ (jobs db)) eqn:He.
    + split; [reflexivity|]. right. right. split; [reflexivity|].
      split; [discriminate|]. split; [reflexivity|].
      apply List.existsb_exists in He as (j & Hj & Hid).
      exists j. split; [exact Hj|]. now apply String.eqb_eq.
    + cbv zeta. cbn [jp_job job company]. exists c.
      split; [reflexivity|]. split; [reflexivity|]. split.
      * cbn [companies].
        now apply (find_one_after_update _ (inc_total_jobs_posted 1)).
      * repeat (split; [reflexivity|]).
        intros j Hj Hid. pose proof (existsb_job_id _ _ He j Hj) as Hne.
        unfold job_with_id in Hne. rewrite Hid, String.eqb_refl in Hne.
        discriminate.
  - split; [reflexivity|]. left. now split.
Qed.

Lemma find_app {A : Type} (p : A -> bool) (c : list A) (d : A) :
  Cursor.find p (c ++ [d]) =
  Cursor.find p c ++ (if p d then [d] else []).
Proof. unfold Cursor.find. rewrite List.filter_app. reflexivity. Qed.

(** X3: right after a job is posted, the profile of its company shows the
    company with the raised counter and lists the new job, timestamps
    apart the job that was returned, last among the active jobs, one more
    than before. *)
Theorem company_profile_after_posting uuid4 utcnow data db r db' :
  create_job uuid4 utcnow data db = (Returned r, db') ->
  let company_id := JobCreate.company_id data in
  exists before after,
    get_company company_id db = (Returned before, db) /\
    get_company company_id db' = (Returned after, db') /\
    CompanyProfile.company after =
      inc_total_jobs_posted 1 (CompanyProfile.company before) /\
    map job_undated (CompanyProfile.active_jobs after) =
      map job_undated (CompanyProfile.active_jobs before)
      ++ [job_undated (job (jp_job r))] /\
    CompanyProfile.active_jobs_count after =
      CompanyProfile.active_jobs_count before + 1.
Proof.
  intros Hrun company_id. subst company_id.
  apply create_job_returned in Hrun as (c & Hc & _ & -> & ->).
  assert (Hnew : active_job_of (JobCreate.company_id data)
                   (new_job_doc data uuid4 utcnow) = true).
  { unfold active_job_of. simpl. now rewrite String.eqb_refl. }
  rewrite !get_company_run. cbn [companies jobs]. rewrite Hc.
  rewrite (find_one_after_update _ (inc_total_jobs_posted 1) _ c);
    [|reflexivity|exact Hc].
  eexists. eexists. split; [reflexivity|]. split; [reflexivity|].
  cbn [CompanyProfile.company CompanyProfile.active_jobs
       CompanyProfile.active_jobs_count].
  rewrite find_app, Hnew.
  split; [reflexivity|]. split; [now rewrite List.map_app|].
  rewrite List.length_app, Nat2Z.inj_add. reflexivity.
Qed.

(** ** Fetching, deleting and updating a job *)

Lemma update_one_twice {A : Type} (p : A -> bool) (f g : A -> A)
  (c : list A) :
  (forall x, p (g x) = p x) ->
  Cursor.update_one p f (Cursor.update_one p g c) =
  Cursor.update_one p (fun x => f (g x)) c.
Proof.
  intros Hg. induction c as [|d c IH]; simpl; [reflexivity|].
  destruct (p d) eqn:Pd; simpl.
  - now rewrite Hg, Pd.
  - now rewrite Pd, IH.
Qed.

Lemma update_one_ext {A : Type} (p : A -> bool) (f g : A -> A)
  (c : list A) :
  (forall x, f x = g x) -> Cursor.update_one p f c = Cursor.update_one p g c.
Proof.
  intros Hfg. induction c as [|d c IH]; simpl; [reflexivity|].
  destruct (p d); [now rewrite Hfg|now rewrite IH].
Qed.

Lemma update_one_same {A : Type} (p : A -> bool) (f : A -> A) (c : list A) :
  (forall x, f x = x) -> Cursor.update_one p f c = c.
Proof.
  intros Hf. induction c as [|d c IH]; simpl; [reflexivity|].
  destruct (p d); [now rewrite Hf|now rewrite IH].
Qed.

Lemma inc_views_add (a b : Z) (j : Job.t) :
  Job.inc_views a (Job.inc_views b j) = Job.inc_views (b + a) j.
Proof. unfold Job.inc_views. simpl. f_equal. lia. Qed.

Lemma inc_views_zero (j : Job.t) : Job.inc_views 0 j = j.
Proof. destruct j. unfold Job.inc_views. simpl. f_equal. lia. Qed.

(** X4: [n] fetches of a stored job in a row add exactly [n] to the view
    counter of that one job document and change nothing else in the
    store, and the next fetch returns the counter [n + 1] above the
    start; fetches of an identifier that is not stored change nothing. *)
Theorem views_count_fetches (n : nat) (job_id : string) (db : DB) :
  match Cursor.find_one (job_with_id job_id) (jobs db) with
  | None => fetched n job_id db = db
  | Some j =>
      fetched n job_id db =
        mkDB (companies db)
          (Cursor.update_one (job_with_id job_id)
             (Job.inc_views (Z.of_nat n)) (jobs db))
          (applications db) (bookmarks db) /\
      Cursor.find_one (job_with_id job_id) (jobs (fetched n job_id db)) =
        Some (Job.inc_views (Z.of_nat n) j) /\
      exists r db',
        get_job job_id (fetched n job_id db) = (Returned r, db') /\
        Job.views (job r) = Job.views j + Z.of_nat n + 1
  end.
Proof.
  destruct (Cursor.find_one (job_with_id job_id) (jobs db)) as [j|] eqn:Hj.
  - assert (Hdb : fetched n job_id db =
                  mkDB (companies db)
                    (Cursor.update_one (job_with_id job_id)
                       (Job.inc_views (Z.of_nat n)) (jobs db))
                    (applications db) (bookmarks db)).
    { clear Hj. revert db. induction n as [|n IH]; intros db.
      - simpl. rewrite update_one_same by apply inc_views_zero.
        now destruct db.
      - cbn [fetched]. rewrite get_job_run.
        destruct (Cursor.find_one (job_with_id job_id) (jobs db)) eqn:Hj.
        + cbv zeta. cbn [snd]. rewrite IH. cbn [companies jobs applications
                                                 bookmarks].
          rewrite update_one_twice by reflexivity. f_equal.
          apply update_one_ext. intros x. rewrite inc_views_add.
          f_equal. lia.
        + cbn [snd]. rewrite IH. f_equal.
          now rewrite !update_one_absent. }
    assert (Hfind : Cursor.find_one (job_with_id job_id)
                      (jobs (fetched n job_id db))
                    = Some (Job.inc_views (Z.of_nat n) j)).
    { rewrite Hdb. cbn [jobs].
      now apply (find_one_after_update _ (Job.inc_views (Z.of_nat n))). }
    split; [exact Hdb|]. split; [exact Hfind|].
    eexists. eexists. rewrite get_job_run, Hfind. split; [reflexivity|].
    simpl. lia.
  - revert db Hj. induction n as [|n IH]; intros db Hj; [reflexivity|].
    cbn [fetched]. rewrite get_job_run, Hj. cbn [snd]. now apply IH.
Qed.

Lemma find_one_after_delete (job_id : string) (c : list Job.t) :
  NoDup (map Job.id c) ->
  Cursor.find_one (job_with_id job_id)
    (fst (Cursor.delete_one (job_with_id job_id) c)) = None.
Proof.
  induction c as [|d c IH]; simpl; [reflexivity|].
  intros Hnd. apply List.NoDup_cons_iff in Hnd as (Hd & Hc).
  destruct (job_with_id job_id d) eqn:Pd; simpl.
  - apply find_one_None. intros x Hx. unfold job_with_id.
    apply job_with_id_eq in Pd. apply String.eqb_neq. intros Hid.
    apply Hd. rewrite Pd, <- Hid. now apply List.in_map.
  - specialize (IH Hc).
    destruct (Cursor.delete_one (job_with_id job_id) c) as [r n].
    simpl in *. now rewrite Pd.
Qed.

(** X5: on a store with unique job identifiers, once a job is deleted its
    identifier is unknown to every handler that resolves a job: fetching
    it, deleting it again and applying to it all raise NotFound and write
    nothing. *)
Theorem deleted_job_is_unknown (job_id : string) (db : DB) :
  unique_job_ids db ->
  let db' := snd (delete_job job_id db) in
  Cursor.find_one (job_with_id job_id) (jobs db') = None /\
  get_job job_id db' = (Raised (HTTPException 404 "Job not found"), db') /\
  delete_job job_id db' = (Raised (HTTPException 404 "Job not found"), db') /\
  forall tokeninfo uuid4 utcnow data,
    _submit_application tokeninfo uuid4 utcnow job_id data db' =
    (Raised (HTTPException 404 "Job not found"), db').
Proof.
  intros Hu db'.
  assert (Hgone : Cursor.find_one (job_with_id job_id) (jobs db') = None).
  { subst db'. rewrite delete_job_run.
    destruct (Cursor.find_one (job_with_id job_id) (jobs db)) eqn:Hj;
      [|exact Hj].
    cbn [snd jobs]. now apply find_one_after_delete. }
  split; [exact Hgone|]. split; [now rewrite get_job_run, Hgone|].
  split; [now rewrite delete_job_run, Hgone|].
  intros. now rewrite submit_application_unfold, Hgone.
Qed.

Lemma update_job_run utcnow job_id data db :
  update_job utcnow job_id data db =
  match Cursor.find_one (job_with_id job_id) (jobs db) with
  | None => (inr (Raised (HTTPException 404 "Job not found")), db)
  | Some j =>
      match updates_refusal data with
      | Some (inl c) => (inl c, db)
      | Some (inr e) => (inr (Raised e), db)
      | None =>
          let db1 :=
            mkDB (companies db)
              (Cursor.update_one (job_with_id job_id)
                 (set_updates data utcnow) (jobs db))
              (applications db) (bookmarks db) in
          (inr (Returned
                  (JobUpdated.mk "Job updated"
                     (enriched db1 (set_updates data utcnow j)))),
           db1)
      end
  end.
Proof.
  unfold update_job.
  destruct (Cursor.find_one (job_with_id job_id) (jobs db)) as [j|] eqn:Hj;
    [|reflexivity].
  destruct (updates_refusal data) as [[c|e]|]; [reflexivity..|].
  unfold update_one. cbn [snd docs store col_jobs jobs].
  rewrite (find_one_after_update _ (set_updates data utcnow) _ j);
    [|reflexivity|exact Hj].
  rewrite enrich_job_run. reflexivity.
Qed.



(** X7: once an update has set [is_active] to false, every submission
    for the job, whatever the applicant data and the token service's
    answer, raises the inactive-listing failure and writes nothing. *)
Theorem closed_job_takes_no_applications utcnow job_id data db r db' :
  JobUpdate.is_active data = Some false ->
  update_job utcnow job_id data db = (inr (Returned r), db') ->
  forall tokeninfo uuid4 utcnow' applicant,
    _submit_application tokeninfo uuid4 utcnow' job_id applicant db' =
    (Raised (HTTPException 400 "This job listing is no longer active"), db').
Proof.
  intros Hclose. rewrite update_job_run.
  destruct (Cursor.find_one (job_with_id job_id) (jobs db)) as [j|] eqn:Hj;
    [|discriminate].
  destruct (updates_refusal data) as [[c|e]|]; [discriminate..|].
  cbv zeta. intros [= _ <-] tokeninfo uuid4 utcnow' applicant.
  rewrite submit_application_unfold. cbn [jobs].
  rewrite (find_one_after_update _ (set_updates data utcnow) _ j);
    [|reflexivity|exact Hj].
  cbn [set_updates Job.is_active]. now rewrite Hclose.
Qed.

(** ** Bookmarks *)

Lemma set_bookmarks_same (db : DB) : set_bookmarks (bookmarks db) db = db.
Proof. now destruct db. Qed.

Lemma bookmarked_find student_email job_id db :
  bookmarked student_email job_id db <->
  exists b, Cursor.find_one (bookmark_of student_email job_id) (bookmarks db)
            = Some b.
Proof.
  split.
  - intros (b & Hb & Hs & Hj). apply find_one_exists. exists b.
    split; [exact Hb|]. unfold bookmark_of.
    now rewrite Hs, Hj, !String.eqb_refl.
  - intros (b & Hf). apply find_one_Some_In in Hf as (Hb & Hp).
    unfold bookmark_of in Hp. apply andb_true_iff in Hp as (Hs & Hj).
    exists b. now rewrite String.eqb_eq in Hs, Hj.
Qed.

Lemma bookmark_job_run utcnow data db :
  bookmark_job utcnow data db =
  let student := BookmarkCreate.student_email data in
  let job_id := BookmarkCreate.job_id data in
  match Cursor.find_one (job_with_id job_id) (jobs db) with
  | None => (Raised (HTTPException 404 "Job not found"), db)
  | Some _ =>
      match Cursor.find_one (bookmark_of student job_id) (bookmarks db) with
      | Some _ => (Raised (HTTPException 409 "Job already bookmarked"), db)
      | None =>
          (Returned "Job bookmarked successfully",
           set_bookmarks (bookmarks db ++ [Bookmark.mk student job_id utcnow])
             db)
      end
  end.
Proof.
  unfold bookmark_job, bind, find_one, bookmarks_find_one. cbn [docs col_jobs].
  destruct (Cursor.find_one _ (jobs db)); [|reflexivity].
  destruct (Cursor.find_one _ (bookmarks db)); reflexivity.
Qed.

Lemma remove_bookmark_run data db :
  remove_bookmark data db =
  let p := bookmark_of (BookmarkCreate.student_email data)
             (BookmarkCreate.job_id data) in
  match Cursor.find_one p (bookmarks db) with
  | None => (Raised (HTTPException 404 "Bookmark not found"), db)
  | Some _ =>
      (Returned "Bookmark removed",
       set_bookmarks (fst (Cursor.delete_one p (bookmarks db))) db)
  end.
Proof.
  unfold remove_bookmark, bind, bookmarks_delete_one. cbv zeta.
  destruct (Cursor.find_one _ (bookmarks db)) as [b|] eqn:Hb.
  - destruct (find_one_split _ _ _ Hb) as (l1 & l2 & -> & Hp & Hl1).
    rewrite delete_one_split by assumption. reflexivity.
  - rewrite delete_one_absent by assumption. simpl.
    now rewrite set_bookmarks_same.
Qed.

(** X8: bookmarking fails with NotFound when the job is not stored and
    with Conflict when the student already bookmarked it, the job check
    first, and a failure writes nothing; otherwise exactly one bookmark
    for the pair is appended, nothing else changes, and bookmarking the
    pair again is a Conflict. *)
Theorem bookmark_job_outcomes utcnow data db :
  let student := BookmarkCreate.student_email data in
  let job_id := BookmarkCreate.job_id data in
  match bookmark_job utcnow data db with
  | (Raised e, db') =>
      db' = db /\
      ((e = HTTPException 404 "Job not found" /\
        Cursor.find_one (job_with_id job_id) (jobs db) = None) \/
       (e = HTTPException 409 "Job already bookmarked" /\
        Cursor.find_one (job_with_id job_id) (jobs db) <> None /\
        bookmarked student job_id db))
  | (Returned _, db') =>
      ~ bookmarked student job_id db /\
      db' = mkDB (companies db) (jobs db) (applications db)
              (bookmarks db ++ [Bookmark.mk student job_id utcnow]) /\
      bookmarked student job_id db' /\
      forall utcnow',
        bookmark_job utcnow' data db' =
        (Raised (HTTPException 409 "Job already bookmarked"), db')
  end.
Proof.
  intros student job_id. subst student job_id. rewrite bookmark_job_run.
  cbv zeta.
  destruct (Cursor.find_one _ (jobs db)) as [j|] eqn:Hj.
  - destruct (Cursor.find_one _ (bookmarks db)) as [b|] eqn:Hb.
    + split; [reflexivity|]. right. split; [reflexivity|].
      split; [discriminate|]. apply bookmarked_find. now exists b.
    + split.
      { intros Hin. apply bookmarked_find in Hin as (b & Hb'). congruence. }
      split; [reflexivity|].
      assert (Hnow : bookmarked (BookmarkCreate.student_email data)
                       (BookmarkCreate.job_id data)
                       (set_bookmarks
                          (bookmarks db ++
                           [Bookmark.mk (BookmarkCreate.student_email data)
                              (BookmarkCreate.job_id data) utcnow]) db)).
      { eexists. split; [apply List.in_or_app; right; now left|].
        split; reflexivity. }
      split; [exact Hnow|]. intros utcnow'.
      rewrite bookmark_job_run. cbv zeta.
      cbn [jobs bookmarks set_bookmarks]. rewrite Hj.
      rewrite (find_one_app_new _ _ _ Hb); [reflexivity|].
      unfold bookmark_of. simpl. now rewrite !String.eqb_refl.
  - split; [reflexivity|]. left. now split.
Qed.

(** X10: removing a bookmark right after it was set gives back the store
    exactly as it was before; removing a pair that is not bookmarked
    raises NotFound and writes nothing. *)
Theorem bookmark_then_remove utcnow data db :
  (forall m db',
     bookmark_job utcnow data db = (Returned m, db') ->
     remove_bookmark data db' = (Returned "Bookmark removed", db)) /\
  (~ bookmarked (BookmarkCreate.student_email data)
       (BookmarkCreate.job_id data) db ->
   remove_bookmark data db =
   (Raised (HTTPException 404 "Bookmark not found"), db)).
Proof.
  split.
  - intros m db'. rewrite bookmark_job_run. cbv zeta.
    destruct (Cursor.find_one _ (jobs db)); [|discriminate].
    destruct (Cursor.find_one _ (bookmarks db)) eqn:Hb; [discriminate|].
    intros [= _ <-]. rewrite remove_bookmark_run. cbv zeta.
    cbn [bookmarks set_bookmarks].
    rewrite (find_one_app_new _ _ _ Hb);
      [|unfold bookmark_of; simpl; now rewrite !String.eqb_refl].
    rewrite delete_one_split;
      [|unfold bookmark_of; simpl; now rewrite !String.eqb_refl
       |apply (proj1 (find_one_None _ _) Hb)].
    cbn [fst]. rewrite List.app_nil_r. now destruct db.
  - intros Hnot. rewrite remove_bookmark_run. cbv zeta.
    destruct (Cursor.find_one _ (bookmarks db)) as [b|] eqn:Hb;
      [|reflexivity].
    exfalso. apply Hnot. apply bookmarked_find. now exists b.
Qed.

Lemma bookmark_of_key student_email job_id b :
  bookmark_of student_email job_id b = true <->
  bookmark_key b = (student_email, job_id).
Proof.
  unfold bookmark_of, bookmark_key.
  rewrite andb_true_iff, !String.eqb_eq.
  split; [now intros (-> & ->)|now intros [= -> ->]].
Qed.

(** X9: at most one bookmark per (student, job) is an invariant of the
    two handlers that write bookmarks, and under it a removed pair is no
    longer bookmarked. *)
Theorem bookmarks_stay_unique utcnow data db :
  unique_bookmarks db ->
  unique_bookmarks (snd (bookmark_job utcnow data db)) /\
  unique_bookmarks (snd (remove_bookmark data db)) /\
  (forall m db',
     remove_bookmark data db = (Returned m, db') ->
     ~ bookmarked (BookmarkCreate.student_email data)
         (BookmarkCreate.job_id data) db').
Proof.
  intros Hu. unfold unique_bookmarks in *. split; [|split].
  - rewrite bookmark_job_run. cbv zeta.
    destruct (Cursor.find_one _ (jobs db)); [|exact Hu].
    destruct (Cursor.find_one _ (bookmarks db)) eqn:Hb; [exact Hu|].
    cbn [snd bookmarks set_bookmarks]. rewrite List.map_app.
    apply List.NoDup_app; [exact Hu|repeat constructor; intros []|].
    intros k Hk [<-|[]]. apply List.in_map_iff in Hk as (b & Hkey & Hin).
    apply (proj2 (bookmark_of_key (BookmarkCreate.student_email data)
                    (BookmarkCreate.job_id data) b)) in Hkey.
    rewrite (proj1 (find_one_None _ _) Hb b Hin) in Hkey. discriminate.
  - rewrite remove_bookmark_run. cbv zeta.
    destruct (Cursor.find_one _ (bookmarks db)); [|exact Hu].
    cbn [snd bookmarks set_bookmarks]. now apply nodup_delete_one.
  - intros m db'. rewrite remove_bookmark_run. cbv zeta.
    destruct (Cursor.find_one _ (bookmarks db)) as [b|] eqn:Hb;
      [|discriminate].
    intros [= _ <-] (x & Hx & Hs & Hj). cbn [bookmarks set_bookmarks] in Hx.
    destruct (find_one_split _ _ _ Hb) as (l1 & l2 & Hl & Hp & Hl1).
    rewrite Hl, delete_one_split in Hx by assumption. cbn [fst] in Hx.
    rewrite Hl, List.map_app in Hu. simpl in Hu.
    apply List.NoDup_remove_2 in Hu. apply Hu.
    apply bookmark_of_key in Hp. rewrite Hp, <- List.map_app.
    apply List.in_map_iff. exists x. split; [|exact Hx].
    unfold bookmark_key. now rewrite Hs, Hj.
Qed.

Lemma flat_map_at_most_one {A B : Type} (f : A -> list B) (l : list A) :
  (forall x, (List.length (f x) <= 1)%nat) ->
  (List.length (List.flat_map f l) <= List.length l)%nat.
Proof.
  intros Hf. induction l as [|x l IH]; simpl; [lia|].
  rewrite List.length_app. specialize (Hf x). lia.
Qed.

Lemma bookmarked_jobs_run (bms : list Bookmark.t) (acc : list EnrichedJob)
  (db : DB) :
  bookmarked_jobs bms acc db =
  (Returned
     (acc ++
      List.flat_map
        (fun bm =>
           match
             Cursor.find_one (job_with_id (Bookmark.job_id bm)) (jobs db)
           with
           | Some j => [enriched db j]
           | None => []
           end)
        bms),
   db).
Proof.
  revert acc. induction bms as [|bm bms IH]; intros acc; simpl.
  - now rewrite List.app_nil_r.
  - unfold bind, find_one. cbn [docs col_jobs].
    destruct (Cursor.find_one _ (jobs db)) as [j|].
    + rewrite enrich_job_run. fold (enriched db j). rewrite IH.
      now rewrite <- List.app_assoc.
    + now rewrite IH.
Qed.

(** X11: listing a student's bookmarks never raises and never writes.
    It returns, with the company attached, exactly the stored jobs that a
    bookmark of the student points to; a bookmark whose job is no longer
    stored is skipped without a trace, so the listing is never longer
    than the student's bookmarks, and on a store with unique job
    identifiers a job that has been deleted is never listed. *)
Theorem get_bookmarks_skips_missing_jobs email db :
  exists r,
    get_bookmarks email db = (Returned r, db) /\
    BookmarkList.total r = Z.of_nat (List.length (BookmarkList.bookmarks r)) /\
    (forall e,
       In e (BookmarkList.bookmarks r) <->
       exists b j,
         In b (bookmarks db) /\ Bookmark.student_email b = email /\
         Cursor.find_one (job_with_id (Bookmark.job_id b)) (jobs db) = Some j /\
         e = enriched db j) /\
    (List.length (BookmarkList.bookmarks r) <=
     List.length (Cursor.find (bookmark_by email) (bookmarks db)))%nat /\
    (forall job_id,
       Cursor.find_one (job_with_id job_id) (jobs db) = None ->
       forall e, In e (BookmarkList.bookmarks r) -> Job.id (job e) <> job_id).
Proof.
  eexists. split.
  { unfold get_bookmarks, bind, bookmarks_find.
    rewrite bookmarked_jobs_run. reflexivity. }
  cbn [BookmarkList.total BookmarkList.bookmarks app].
  assert (Hin : forall e,
            In e (List.flat_map
                    (fun bm =>
                       match
                         Cursor.find_one (job_with_id (Bookmark.job_id bm))
                           (jobs db)
                       with
                       | Some j => [enriched db j]
                       | None => []
                       end)
                    (Cursor.find (bookmark_by email) (bookmarks db))) <->
            exists b j,
              In b (bookmarks db) /\ Bookmark.student_email b = email /\
              Cursor.find_one (job_with_id (Bookmark.job_id b)) (jobs db)
              = Some j /\ e = enriched db j).
  { intros e. rewrite List.in_flat_map. split.
    - intros (b & Hb & He). unfold Cursor.find in Hb.
      apply List.filter_In in Hb as (Hb & Hs).
      unfold bookmark_by in Hs. apply String.eqb_eq in Hs.
      destruct (Cursor.find_one _ (jobs db)) as [j|] eqn:Hj; [|destruct He].
      destruct He as [<-|[]]. now exists b, j.
    - intros (b & j & Hb & Hs & Hj & ->). exists b. split.
      + apply List.filter_In. split; [exact Hb|].
        unfold bookmark_by. now apply String.eqb_eq.
      + rewrite Hj. now left. }
  split; [reflexivity|]. split; [exact Hin|]. split.
  - apply flat_map_at_most_one. intros b.
    destruct (Cursor.find_one _ (jobs db)); simpl; lia.
  - intros job_id Hgone e He Hid.
    apply Hin in He as (b & j & _ & _ & Hj & ->).
    apply find_one_Some_In in Hj as (Hj & _). cbn [enriched job] in Hid.
    apply (proj1 (find_one_None _ _) Hgone) in Hj.
    unfold job_with_id in Hj. rewrite Hid, String.eqb_refl in Hj.
    discriminate.
Qed.

(** ** Reading applications *)

Lemma get_job_applications_run job_id status db :
  get_job_applications job_id status db =
  match Cursor.find_one (job_with_id job_id) (jobs db) with
  | None => (Raised (HTTPException 404 "Job not found"), db)
  | Some _ =>
      let found :=
        Cursor.find
          (fun a => application_for job_id a &&
                    when_set status (fun s => with_status s a))
          (applications db) in
      (Returned (ApplicationList.mk found (Z.of_nat (List.length found))),
       db)
  end.
Proof.
  unfold get_job_applications, bind, find_one, find, ret, _clean.
  cbn [docs col_jobs col_applications].
  destruct (Cursor.find_one _ (jobs db)); [|reflexivity].
  now rewrite List.map_id.
Qed.

Lemma get_application_run application_id db :
  get_application application_id db =
  match
    Cursor.find_one (application_with_id application_id) (applications db)
  with
  | None => (Raised (HTTPException 404 "Application not found"), db)
  | Some a => (Returned a, db)
  end.
Proof.
  unfold get_application, bind, find_one. cbn [docs col_applications].
  now destruct (Cursor.find_one _ (applications db)).
Qed.

Lemma get_student_applications_run email db :
  get_student_applications email db =
  let found := Cursor.find (application_by email) (applications db) in
  (Returned
     (StudentApplications.mk found (Z.of_nat (List.length found))
        (match found with
         | [] => Some "No applications found for this email"
         | _ :: _ => None
         end)),
   db).
Proof.
  unfold get_student_applications, bind, find, ret, _clean.
  cbn [docs col_applications]. now rewrite List.map_id.
Qed.

Lemma length_filter_le {A : Type} (p q : A -> bool) (l : list A) :
  (forall x, p x = true -> q x = true) ->
  (List.length (List.filter p l) <= List.length (List.filter q l))%nat.
Proof.
  intros Hpq. induction l as [|x l IH]; simpl; [lia|].
  destruct (p x) eqn:Px.
  - rewrite (Hpq x Px). simpl. lia.
  - destruct (q x); simpl; lia.
Qed.

(** X12: on a store whose counters agree with the applications, the
    applications listed for a stored job are exactly the stored ones that
    reference it, and their number is the job's [applications_count]; a
    status filter lists a part of them, all in that status; the listing
    never writes. *)
Theorem listed_applications_match_counter job_id db j :
  counters_agree db ->
  Cursor.find_one (job_with_id job_id) (jobs db) = Some j ->
  exists r,
    get_job_applications job_id None db = (Returned r, db) /\
    ApplicationList.total r = Job.applications_count j /\
    ApplicationList.total r
    = Z.of_nat (List.length (ApplicationList.applications r)) /\
    (forall a,
       In a (ApplicationList.applications r) <->
       In a (applications db) /\ Application.job_id a = job_id) /\
    forall status,
      exists r',
        get_job_applications job_id (Some status) db = (Returned r', db) /\
        ApplicationList.total r' <= ApplicationList.total r /\
        forall a,
          In a (ApplicationList.applications r') <->
          In a (ApplicationList.applications r) /\
          Application.status a = status.
Proof.
  intros Hagree Hj.
  apply find_one_Some_In in Hj as Hin. destruct Hin as (Hin & Hid).
  apply job_with_id_eq in Hid.
  eexists. rewrite get_job_applications_run, Hj. cbv zeta.
  split; [reflexivity|].
  cbn [ApplicationList.total ApplicationList.applications when_set].
  assert (Hsame : Cursor.find (fun a => application_for job_id a && true)
                    (applications db)
                  = Cursor.find (application_for job_id) (applications db)).
  { apply List.filter_ext. intros a. apply andb_true_r. }
  rewrite Hsame. split.
  { rewrite (Hagree j Hin), Hid. reflexivity. }
  split; [reflexivity|]. split.
  { intros a. unfold Cursor.find. rewrite List.filter_In.
    rewrite application_for_unfold, String.eqb_eq. tauto. }
  intros status. eexists. rewrite get_job_applications_run, Hj. cbv zeta.
  split; [reflexivity|].
  cbn [ApplicationList.total ApplicationList.applications when_set]. split.
  - apply Nat2Z.inj_le. apply length_filter_le.
    intros a Ha. now apply andb_true_iff in Ha.
  - intros a. unfold Cursor.find. rewrite !List.filter_In, andb_true_iff.
    unfold with_status. rewrite String.eqb_eq.
    assert (Hst : ApplicationStatus_value (Application.status a)
                  = ApplicationStatus_value status <->
                  Application.status a = status).
    { split; [|now intros ->].
      destruct (Application.status a), status; simpl; congruence. }
    rewrite Hst. tauto.
Qed.


(** X14: on a store with unique job identifiers, the applications of a
    deleted job are orphaned, not removed: listing them by job raises
    NotFound, while reading one by its identifier or listing a student's
    applications answers exactly as before the deletion. *)
Theorem deleted_job_orphans_applications job_id db :
  unique_job_ids db ->
  let db' := snd (delete_job job_id db) in
  (forall status,
     get_job_applications job_id status db' =
     (Raised (HTTPException 404 "Job not found"), db')) /\
  (forall application_id,
     get_application application_id db' =
     (fst (get_application application_id db), db')) /\
  (forall email,
     get_student_applications email db' =
     (fst (get_student_applications email db), db')).
Proof.
  intros Hu db'.
  assert (Hgone : Cursor.find_one (job_with_id job_id) (jobs db') = None).
  { subst db'. rewrite delete_job_run.
    destruct (Cursor.find_one (job_with_id job_id) (jobs db)) eqn:Hj;
      [|exact Hj].
    cbn [snd jobs]. now apply find_one_after_delete. }
  assert (Happs : applications db' = applications db).
  { subst db'. rewrite delete_job_run.
    now destruct (Cursor.find_one (job_with_id job_id) (jobs db)). }
  split; [|split].
  - intros status. now rewrite get_job_applications_run, Hgone.
  - intros application_id. rewrite !get_application_run, Happs.
    now destruct (Cursor.find_one _ (applications db)).
  - intros email. rewrite !get_student_applications_run, Happs.
    reflexivity.
Qed.

Lemma application_of_key job_id email a :
  application_of job_id email a = true <->
  application_key a = (job_id, email).
Proof.
  unfold application_of, application_key.
  rewrite andb_true_iff, !String.eqb_eq.
  split; [now intros (-> & ->)|now intros [= -> ->]].
Qed.

Lemma nodup_snoc {A : Type} (l : list A) (x : A) :
  NoDup l -> ~ In x l -> NoDup (l ++ [x]).
Proof.
  intros Hl Hx. apply List.NoDup_app; [exact Hl|repeat constructor; intros []|].
  intros y Hy [<-|[]]. now apply Hx.
Qed.

Lemma update_application_status_run format_status utcnow application_id
  data db :
  update_application_status format_status utcnow application_id data db =
  match
    Cursor.find_one (application_with_id application_id) (applications db)
  with
  | None => (Raised (HTTPException 404 "Application not found"), db)
  | Some a =>
      (Returned
         (StatusUpdated.mk
            (String.append "Status updated to '"
               (String.append
                  (format_status (ApplicationStatusUpdate.status data)) "'"))
            (Some (set_status data utcnow a))),
       mkDB (companies db) (jobs db)
         (Cursor.update_one (application_with_id application_id)
            (set_status data utcnow) (applications db))
         (bookmarks db))
  end.
Proof.
  unfold update_application_status, bind, find_one, update_one.
  cbn [docs store col_applications applications].
  destruct (Cursor.find_one _ (applications db)) as [a|] eqn:Ha;
    [|reflexivity].
  rewrite (find_one_after_update _ (set_status data utcnow) _ a);
    [reflexivity|reflexivity|exact Ha].
Qed.

(** X15: at most one application per (job, applicant email) and per
    application identifier are invariants of the two handlers that write
    applications: a submission and a status update both keep them. *)
Theorem applications_stay_unique db :
  unique_applications db ->
  unique_application_ids db ->
  (forall tokeninfo uuid4 utcnow job_id data,
     let db' :=
       snd (_submit_application tokeninfo uuid4 utcnow job_id data db) in
     unique_applications db' /\ unique_application_ids db') /\
  (forall format_status utcnow application_id data,
     let db' :=
       snd (update_application_status format_status utcnow application_id
              data db) in
     unique_applications db' /\ unique_application_ids db').
Proof.
  intros Hk Hi. unfold unique_applications, unique_application_ids in *.
  split.
  - intros tokeninfo uuid4 utcnow job_id data. cbv zeta.
    rewrite submit_application_unfold.
    destruct (Cursor.find_one (job_with_id job_id) (jobs db)) as [j|];
      [|now split].
    destruct (negb (Job.is_active j)); [now split|].
    destruct (fst (verify_google_token tokeninfo data db)); [|now split].
    destruct (Cursor.find_one (application_of _ _) _) eqn:Hd; [now split|].
    cbv zeta. destruct (negb (opt_int64 _)); [now split|].
    destruct (List.existsb _ (applications db)) eqn:He;
      [now split|].
    cbn [snd applications]. rewrite !List.map_app. split.
    + apply nodup_snoc; [exact Hk|]. intros Hin.
      apply List.in_map_iff in Hin as (x & Hkey & Hx).
      apply (proj2 (application_of_key job_id
                      (ApplicationCreate.applicant_email data) x)) in Hkey.
      rewrite (proj1 (find_one_None _ _) Hd x Hx) in Hkey. discriminate.
    + apply nodup_snoc; [exact Hi|]. intros Hin.
      apply List.in_map_iff in Hin as (x & Hid & Hx).
      cbn [new_app_doc Application.id] in Hid.
      enough (Hyes : List.existsb
                       (fun y => String.eqb (Application.id y) uuid4)
                       (applications db) = true) by congruence.
      apply List.existsb_exists. exists x.
      split; [exact Hx|]. now apply String.eqb_eq.
  - intros format_status utcnow application_id data. cbv zeta.
    rewrite update_application_status_run.
    destruct (Cursor.find_one _ (applications db)); [|now split].
    cbn [snd applications]. now rewrite !map_update_one.
Qed.


(** ** Stats *)

Lemma filter_every {A : Type} (l : list A) : Cursor.find every l = l.
Proof.
  unfold Cursor.find. induction l as [|x l IH]; simpl; [reflexivity|].
  now rewrite IH.
Qed.

Lemma count_every {A : Type} (l : list A) :
  Cursor.count_documents every l = Z.of_nat (List.length l).
Proof.
  unfold Cursor.count_documents.
  change (List.filter every l) with (Cursor.find every l).
  now rewrite filter_every.
Qed.

Lemma dict_get_set {V : Type} (d : list (string * V)) (k k' : string)
  (v default : V) :
  dict_get (dict_set d k v) k' default =
  if String.eqb k k' then v else dict_get d k' default.
Proof.
  induction d as [|[k0 v0] d IH]; simpl.
  - reflexivity.
  - destruct (String.eqb_spec k0 k) as [->|Hne]; simpl.
    + now destruct (String.eqb k k').
    + rewrite IH. destruct (String.eqb_spec k0 k') as [->|Hne'];
        [|reflexivity].
      destruct (String.eqb_spec k k') as [->|_]; [congruence|reflexivity].
Qed.

Lemma dict_total_set (d : list (string * Z)) (k : string) (v : Z) :
  dict_total (dict_set d k v) = dict_total d - dict_get d k 0 + v.
Proof.
  unfold dict_total. induction d as [|[k0 v0] d IH]; simpl; [lia|].
  destruct (String.eqb k0 k); simpl; lia.
Qed.

(** Counting a list of keys into a breakdown. *)
Lemma count_keys (ks : list string) (d : list (string * Z)) :
  (forall k,
     dict_get (List.fold_left count_one ks d) k 0 =
     dict_get d k 0 + Cursor.count_documents (String.eqb k) ks) /\
  dict_total (List.fold_left count_one ks d) =
  dict_total d + Z.of_nat (List.length ks).
Proof.
  revert d. induction ks as [|k0 ks IH]; intros d; simpl.
  - split; [intros k|]; unfold Cursor.count_documents; simpl; lia.
  - destruct (IH (count_one d k0)) as (Hget & Htot). split.
    + intros k. rewrite Hget. unfold count_one at 1. rewrite dict_get_set.
      unfold Cursor.count_documents. simpl. rewrite (String.eqb_sym k k0).
      destruct (String.eqb k0 k) eqn:E; simpl.
      * apply String.eqb_eq in E as ->. lia.
      * lia.
    + rewrite Htot. unfold count_one. rewrite dict_total_set. lia.
Qed.

Lemma count_documents_map {A B : Type} (f : A -> B) (p : B -> bool)
  (l : list A) :
  Cursor.count_documents p (map f l) =
  Cursor.count_documents (fun x => p (f x)) l.
Proof.
  unfold Cursor.count_documents. induction l as [|x l IH]; simpl;
    [reflexivity|].
  destruct (p (f x)); simpl; lia.
Qed.

Lemma fold_two_breakdowns (l : list Job.t) (c t : list (string * Z)) :
  List.fold_left
    (fun (acc : list (string * Z) * list (string * Z)) j =>
       (count_one (fst acc) (Job.category j),
        count_one (snd acc) (Job.job_type j)))
    l (c, t) =
  (List.fold_left count_one (map Job.category l) c,
   List.fold_left count_one (map Job.job_type l) t).
Proof.
  revert c t. induction l as [|j l IH]; intros c t; simpl; [reflexivity|].
  apply IH.
Qed.

Lemma fold_status_breakdown (l : list Application.t) (d : list (string * Z)) :
  List.fold_left
    (fun acc a =>
       count_one acc (ApplicationStatus_value (Application.status a)))
    l d =
  List.fold_left count_one
    (map (fun a => ApplicationStatus_value (Application.status a)) l) d.
Proof.
  revert d. induction l as [|a l IH]; intros d; simpl; [reflexivity|].
  apply IH.
Qed.

Lemma get_stats_run db :
  get_stats db =
  (Returned
     (Stats.mk
        (Overview.mk (Z.of_nat (List.length (companies db)))
           (Z.of_nat (List.length (jobs db)))
           (Cursor.count_documents active (jobs db))
           (Z.of_nat (List.length (applications db)))
           (Z.of_nat (List.length (bookmarks db))))
        (List.fold_left count_one (map Job.category (jobs db)) [])
        (List.fold_left count_one (map Job.job_type (jobs db)) [])
        (List.fold_left count_one
           (map (fun a => ApplicationStatus_value (Application.status a))
              (applications db)) [])
        (List.firstn 5 (sorted_reverse Job.views (jobs db)))
        (List.firstn 5 (sorted_reverse Job.applications_count (jobs db)))),
   db).
Proof.
  unfold get_stats, bind, find, count_documents, bookmarks_count_documents,
    ret, _clean.
  cbn [docs col_jobs col_applications col_companies].
  rewrite !filter_every, fold_two_breakdowns, fold_status_breakdown.
  rewrite !count_every, !List.map_id. reflexivity.
Qed.

(** X17: the statistics never write, and each breakdown is a true tally:
    under every category, job type and status it holds the number of
    stored jobs or applications with that value, values that do not occur
    are absent (count 0 on lookup), and the counts of a breakdown add up
    to the number of jobs or applications in the overview. *)
Theorem stats_breakdowns_are_tallies db :
  exists r,
    get_stats db = (Returned r, db) /\
    (forall k,
       dict_get (Stats.jobs_by_category r) k 0 =
       Cursor.count_documents (fun j => String.eqb k (Job.category j))
         (jobs db)) /\
    (forall k,
       dict_get (Stats.jobs_by_type r) k 0 =
       Cursor.count_documents (fun j => String.eqb k (Job.job_type j))
         (jobs db)) /\
    (forall s,
       dict_get (Stats.applications_by_status r)
         (ApplicationStatus_value s) 0 =
       Cursor.count_documents (with_status s) (applications db)) /\
    dict_total (Stats.jobs_by_category r)
    = Overview.total_jobs (Stats.overview r) /\
    dict_total (Stats.jobs_by_type r)
    = Overview.total_jobs (Stats.overview r) /\
    dict_total (Stats.applications_by_status r)
    = Overview.total_applications (Stats.overview r) /\
    Overview.total_jobs (Stats.overview r)
    = Z.of_nat (List.length (jobs db)) /\
    0 <= Overview.active_jobs (Stats.overview r)
      <= Overview.total_jobs (Stats.overview r).
Proof.
  eexists. split; [apply get_stats_run|].
  cbn [Stats.jobs_by_category Stats.jobs_by_type
       Stats.applications_by_status Stats.overview Overview.total_jobs
       Overview.total_applications Overview.active_jobs].
  split.
  { intros k. rewrite (proj1 (count_keys _ _)), count_documents_map.
    reflexivity. }
  split.
  { intros k. rewrite (proj1 (count_keys _ _)), count_documents_map.
    reflexivity. }
  split.
  { intros s. rewrite (proj1 (count_keys _ _)), count_documents_map.
    simpl. unfold Cursor.count_documents. f_equal. f_equal.
    apply List.filter_ext. intros a. unfold with_status.
    apply String.eqb_sym. }
  split.
  { rewrite (proj2 (count_keys _ _)), List.length_map. reflexivity. }
  split.
  { rewrite (proj2 (count_keys _ _)), List.length_map. reflexivity. }
  split.
  { rewrite (proj2 (count_keys _ _)), List.length_map. reflexivity. }
  split; [reflexivity|].
  unfold Cursor.count_documents.
  pose proof (List.filter_length_le active (jobs db)). lia.
Qed.

Lemma insert_sorted_descending {A : Type} (key : A -> Z) (x : A)
  (l : list A) :
  descending key l ->
  descending key (Cursor.insert_sorted (fun a b => Z.leb (key b) (key a)) x l).
Proof.
  induction l as [|y l IH]; simpl; intros Hd.
  - split; [intros ? []|exact I].
  - destruct Hd as (Hy & Hl).
    destruct (Z.leb_spec (key y) (key x)) as [Hle|Hlt]; simpl.
    + split; [|now split].
      intros z [<-|Hz]; [exact Hle|]. specialize (Hy z Hz). lia.
    + split; [|now apply IH].
      intros z Hz.
      apply (Permutation_in _ (insert_sorted_perm _ x l)) in Hz.
      destruct Hz as [<-|Hz]; [lia|now apply Hy].
Qed.

Lemma sorted_reverse_descending {A : Type} (key : A -> Z) (l : list A) :
  descending key (sorted_reverse key l).
Proof.
  unfold sorted_reverse, Cursor.sort.
  induction l as [|x l IH]; simpl; [exact I|].
  now apply insert_sorted_descending.
Qed.

Lemma descending_app {A : Type} (key : A -> Z) (l1 l2 : list A) :
  descending key (l1 ++ l2) ->
  descending key l1 /\
  forall x y, In x l1 -> In y l2 -> key y <= key x.
Proof.
  induction l1 as [|a l1 IH]; simpl.
  - intros _. split; [exact I|intros ? ? []].
  - intros (Ha & Hd). destruct (IH Hd) as (Hd1 & Hcross). split.
    + split; [|exact Hd1]. intros y Hy. apply Ha.
      apply List.in_or_app. now left.
    + intros x y [<-|Hx] Hy; [|now apply Hcross].
      apply Ha. apply List.in_or_app. now right.
Qed.

(** The first [n] of a list sorted by falling [key]. *)
Lemma top_of_sorted {A : Type} (key : A -> Z) (n : nat) (l : list A) :
  let top := List.firstn n (sorted_reverse key l) in
  List.length top = Nat.min n (List.length l) /\
  descending key top /\
  (forall x, In x top -> In x l) /\
  (forall j x, In j l -> In x top -> In j top \/ key j <= key x).
Proof.
  intros top. subst top.
  pose proof (sorted_reverse_descending key l) as Hd.
  pose proof (sort_perm (fun a b => Z.leb (key b) (key a)) l) as Hperm.
  fold (sorted_reverse key l) in Hperm.
  rewrite <- (List.firstn_skipn n (sorted_reverse key l)) in Hd.
  apply descending_app in Hd as (Htop & Hcross).
  split.
  { rewrite List.length_firstn. now rewrite (Permutation_length Hperm). }
  split; [exact Htop|]. split.
  - intros x Hx. apply (Permutation_in _ Hperm). now apply in_firstn in Hx.
  - intros j x Hj Hx.
    apply (Permutation_in _ (Permutation_sym Hperm)) in Hj.
    rewrite <- (List.firstn_skipn n (sorted_reverse key l)) in Hj.
    apply List.in_app_or in Hj as [Hj|Hj]; [now left|right].
    now apply Hcross.
Qed.

(** X18: the two rankings of the statistics hold the five stored jobs
    with the most views, and with the most applications: at most five
    and all of them when there are fewer, stored jobs only, in falling
    order of the counter, and no job left out has a higher counter than
    a job listed. *)
Theorem stats_rankings_are_top_five db :
  exists r,
    get_stats db = (Returned r, db) /\
    (List.length (Stats.most_viewed_jobs r)
     = Nat.min 5 (List.length (jobs db)) /\
     descending Job.views (Stats.most_viewed_jobs r) /\
     (forall x, In x (Stats.most_viewed_jobs r) -> In x (jobs db)) /\
     (forall j x,
        In j (jobs db) -> In x (Stats.most_viewed_jobs r) ->
        In j (Stats.most_viewed_jobs r) \/ Job.views j <= Job.views x)) /\
    (List.length (Stats.most_applied_jobs r)
     = Nat.min 5 (List.length (jobs db)) /\
     descending Job.applications_count (Stats.most_applied_jobs r) /\
     (forall x, In x (Stats.most_applied_jobs r) -> In x (jobs db)) /\
     (forall j x,
        In j (jobs db) -> In x (Stats.most_applied_jobs r) ->
        In j (Stats.most_applied_jobs r) \/
        Job.applications_count j <= Job.applications_count x)).
Proof.
  eexists. split; [apply get_stats_run|].
  cbn [Stats.most_viewed_jobs Stats.most_applied_jobs].
  split; apply top_of_sorted.
Qed.

Lemma root_run db :
  root db =
  (Returned
     (Health.mk "CareerNest API running (MongoDB)"
        (Z.of_nat (List.length (companies db)))
        (Z.of_nat (List.length (jobs db)))
        (Cursor.count_documents active (jobs db))
        (Z.of_nat (List.length (applications db))) "/docs"),
   db).
Proof.
  unfold root, bind, count_documents, ret.
  cbn [docs col_jobs col_applications col_companies].
  now rewrite !count_every.
Qed.

Lemma count_update_one {A : Type} (p q : A -> bool) (f : A -> A)
  (c : list A) :
  (forall x, p (f x) = p x) ->
  Cursor.count_documents p (Cursor.update_one q f c) =
  Cursor.count_documents p c.
Proof.
  intros Hp. unfold Cursor.count_documents. f_equal.
  induction c as [|d c IH]; simpl; [reflexivity|].
  destruct (q d); simpl.
  - rewrite Hp. now destruct (p d).
  - destruct (p d); simpl; now rewrite IH.
Qed.

(** X19: the health check never writes and reports the same totals as
    the overview of the statistics; a successful submission raises its
    [total_applications] by exactly one and leaves the other totals as
    they were. *)
Theorem health_counts_follow_the_store db :
  (exists h s,
     root db = (Returned h, db) /\ get_stats db = (Returned s, db) /\
     Health.total_companies h = Overview.total_companies (Stats.overview s) /\
     Health.total_jobs h = Overview.total_jobs (Stats.overview s) /\
     Health.active_jobs h = Overview.active_jobs (Stats.overview s) /\
     Health.total_applications h
     = Overview.total_applications (Stats.overview s)) /\
  forall tokeninfo uuid4 utcnow job_id data a db',
    _submit_application tokeninfo uuid4 utcnow job_id data db
    = (Returned a, db') ->
    exists h h',
      root db = (Returned h, db) /\ root db' = (Returned h', db') /\
      Health.total_applications h' = Health.total_applications h + 1 /\
      Health.total_jobs h' = Health.total_jobs h /\
      Health.active_jobs h' = Health.active_jobs h /\
      Health.total_companies h' = Health.total_companies h.
Proof.
  split.
  - eexists. eexists. rewrite root_run, get_stats_run. repeat split.
  - intros tokeninfo uuid4 utcnow job_id data a db' Hrun.
    apply submit_returns_stored in Hrun as (j & _ & _ & _ & _ & ->).
    eexists. eexists. rewrite !root_run. split; [reflexivity|].
    split; [reflexivity|].
    cbn [Health.total_applications Health.total_jobs Health.active_jobs
         Health.total_companies companies jobs applications].
    split; [rewrite List.length_app, Nat2Z.inj_add; reflexivity|].
    split.
    { f_equal. now rewrite <- !(List.length_map Job.id), map_update_one. }
    split; [now apply count_update_one|reflexivity].
Qed.

(** ** More on the listing query *)

Lemma dict_get_absent {V : Type} (d : list (string * V)) (k : string)
  (default : V) :
  (forall k', In k' (map fst d) -> k <> k') -> dict_get d k default = default.
Proof.
  induction d as [|[k0 v0] d IH]; simpl; intros Hk; [reflexivity|].
  destruct (String.eqb_spec k0 k) as [->|_].
  - now destruct (Hk k (or_introl eq_refl)).
  - apply IH. intros k' Hk'. apply Hk. now right.
Qed.

Lemma firstn_add {A : Type} (a b : nat) (l : list A) :
  List.firstn (a + b) l = List.firstn a l ++ List.firstn b (List.skipn a l).
Proof.
  revert l. induction a as [|a IH]; intros l; simpl; [reflexivity|].
  destruct l as [|x l]; simpl.
  - now rewrite List.firstn_nil.
  - now rewrite IH.
Qed.

(** Windows of [k] entries, one after the other. *)
Lemma windows_concat {A : Type} (k n : nat) (l : list A) :
  List.flat_map (fun i => List.firstn k (List.skipn (i * k) l))
    (List.seq 0 n) = List.firstn (n * k) l.
Proof.
  induction n as [|n IH]; [reflexivity|].
  rewrite List.seq_S, List.flat_map_app, IH. simpl.
  rewrite List.app_nil_r. rewrite (Nat.add_comm k (n * k)).
  symmetry. apply firstn_add.
Qed.

Section MoreOnListJobs.
Context `{RegexEngine}.

(** X20: a sort key that is not one of the five known keys sorts like
    [newest]: the whole response is the same. *)
Theorem unknown_sort_key_means_newest (p : ListJobsParams) (db : DB) :
  (forall k, In k (map fst sort_map) -> sort_by p <> k) ->
  list_jobs p db = list_jobs (with_sort_by "newest" p) db.
Proof.
  intros Hk. rewrite !list_jobs_run. cbv zeta.
  rewrite (dict_get_absent sort_map (sort_by p) _ Hk). reflexivity.
Qed.

Lemma int64_bounds (z : Z) : - 2 ^ 63 <= z < 2 ^ 63 -> int64 z = true.
Proof.
  intros (Hlo & Hhi). unfold int64.
  apply andb_true_iff. split; [now apply Z.leb_le|now apply Z.ltb_lt].
Qed.

(** X21: for a page size between 1 and 50, a query that the driver and
    the store accept, and a store of fewer than 2^63 jobs, every page
    from the first to the last reported one is returned, and walking them
    in turn yields every matching listing exactly once, in the order of
    the sort, each with its company attached: paging loses and repeats
    nothing. *)
Theorem pages_cover_the_matches (p : ListJobsParams) (db : DB) :
  1 <= page_size p <= 50 ->
  refusal (build_filter p) = None ->
  Z.of_nat (List.length (jobs db)) < 2 ^ 63 ->
  1 <= page_count p db /\
  (forall n,
     1 <= n <= page_count p db ->
     exists r,
       list_jobs (with_page n p) db = (Returned r, db) /\
       total_pages (pagination r) = page_count p db) /\
  pages (Z.to_nat (page_count p db)) p db =
  map (enriched db)
    (Cursor.sort
       (job_le (dict_get sort_map (sort_by p) (by_created_at, DESCENDING)))
       (Cursor.find (matches (build_filter p)) (jobs db))).
Proof.
  intros Hsize Hq Hstore.
  assert (Hfilter : forall n, build_filter (with_page n p) = build_filter p)
    by reflexivity.
  set (l := Cursor.sort
              (job_le
                 (dict_get sort_map (sort_by p) (by_created_at, DESCENDING)))
              (Cursor.find (matches (build_filter p)) (jobs db))).
  set (k := Z.to_nat (page_size p)).
  set (n := Z.of_nat (List.length l)).
  assert (Hn : n <= Z.of_nat (List.length (jobs db))).
  { subst n l. rewrite (Permutation_length (sort_perm _ _)).
    unfold Cursor.find. pose proof (List.filter_length_le
      (matches (build_filter p)) (jobs db)). lia. }
  pose proof (ceil_div_bounds n (page_size p) ltac:(lia)) as Hc.
  assert (Hcount : page_count p db = Z.max 1 (ceil_div n (page_size p))).
  { unfold page_count. rewrite list_jobs_run, Hfilter, Hq.
    cbn [with_page page page_size]. rewrite Z.mul_0_l || idtac.
    replace ((1 - 1) * page_size p) with 0 by lia.
    rewrite int64_zero. cbv zeta.
    cbn [negb fst pagination total_pages].
    unfold Cursor.count_documents.
    change (List.filter (matches (build_filter p)) (jobs db))
      with (Cursor.find (matches (build_filter p)) (jobs db)).
    rewrite <- (Permutation_length (sort_perm
       (job_le (dict_get sort_map (sort_by p) (by_created_at, DESCENDING)))
       (Cursor.find (matches (build_filter p)) (jobs db)))).
    fold l. fold n. now rewrite ceil_div_floor by lia. }
  assert (Hoffset : forall m,
            1 <= m <= page_count p db ->
            int64 ((m - 1) * page_size p) = true).
  { intros m Hm. apply int64_bounds. rewrite Hcount in Hm.
    assert (0 <= (m - 1) * page_size p) by nia.
    assert ((m - 1) * page_size p <= n) by nia.
    lia. }
  assert (Hrun : forall m,
            1 <= m <= page_count p db ->
            list_jobs (with_page m p) db =
            (Returned
               (mkJobsPage
                  (map (enriched db)
                     (List.firstn k (List.skipn (Z.to_nat (m - 1) * k) l)))
                  (mkPagination n m (page_size p) (page_count p db))),
             db)).
  { intros m Hm. rewrite list_jobs_run, Hfilter, Hq.
    cbn [with_page page page_size sort_by].
    rewrite (Hoffset m Hm). cbv zeta. cbn [negb].
    unfold Cursor.limit, Cursor.skip.
    destruct (Z.eqb_spec (page_size p) 0) as [E|_]; [lia|].
    rewrite Z.abs_eq by lia. fold k. fold l.
    replace (Z.to_nat ((m - 1) * page_size p))
      with (Z.to_nat (m - 1) * k)%nat by (subst k; nia).
    unfold Cursor.count_documents.
    change (List.filter (matches (build_filter p)) (jobs db))
      with (Cursor.find (matches (build_filter p)) (jobs db)).
    rewrite <- (Permutation_length (sort_perm
       (job_le (dict_get sort_map (sort_by p) (by_created_at, DESCENDING)))
       (Cursor.find (matches (build_filter p)) (jobs db)))).
    fold l. fold n. rewrite ceil_div_floor by lia.
    now rewrite <- Hcount. }
  split; [lia|]. split.
  { intros m Hm. eexists. split; [now apply Hrun|reflexivity]. }
  unfold pages.
  rewrite List.flat_map_concat_map.
  rewrite (List.map_ext_in _
             (fun i => map (enriched db)
                         (List.firstn k (List.skipn (i * k) l)))).
  2:{ intros i Hi. apply List.in_seq in Hi. unfold page_of.
      rewrite Hrun by lia. cbn [fst page_jobs].
      now replace (Z.to_nat (Z.of_nat i + 1 - 1)) with i by lia. }
  rewrite <- List.map_map.
  rewrite <- List.concat_map, <- List.flat_map_concat_map.
  rewrite windows_concat. f_equal. apply List.firstn_all2.
  rewrite Hcount. subst k n. nia.
Qed.

End MoreOnListJobs.

Section ClosedJobs.
Context `{RegexEngine}.

(** X22: on a store with unique job identifiers, once an update has set
    [is_active] to false, no listing query ([page >= 1], [page_size]
    between 1 and 50) that asks for active listings only (the default)
    returns the job on any page: the query returns whenever the driver
    and the store answer it, and every listing that it returns is open
    and has another identifier. *)
Theorem closed_job_is_not_listed utcnow job_id data db r db'
  (p : ListJobsParams) :
  unique_job_ids db ->
  JobUpdate.is_active data = Some false ->
  update_job utcnow job_id data db = (inr (Returned r), db') ->
  active_only p = true ->
  1 <= page p ->
  1 <= page_size p <= 50 ->
  (answered p -> exists res, list_jobs p db' = (Returned res, db')) /\
  (forall res,
     fst (list_jobs p db') = Returned res ->
     forall e,
       In e (page_jobs res) ->
       Job.is_active (job e) = true /\ Job.id (job e) <> job_id).
Proof.
  intros Hu Hclose Hrun Hactive Hpage Hsize. rewrite update_job_run in Hrun.
  destruct (Cursor.find_one (job_with_id job_id) (jobs db)) as [j|] eqn:Hj;
    [|discriminate].
  destruct (updates_refusal data) as [[c|x]|]; [discriminate..|].
  cbv zeta in Hrun. injection Hrun as _ <-.
  destruct (find_one_split _ _ _ Hj) as (l1 & l2 & Hjobs & Hp & Hl1).
  rewrite list_jobs_run. split.
  { intros (-> & ->). eexists. reflexivity. }
  destruct (refusal (build_filter p)); [discriminate|].
  destruct (negb (int64 _)); [discriminate|].
  cbv zeta. cbn [fst]. intros res [= <-]. cbn [page_jobs].
  intros e He. apply List.in_map_iff in He as (x & <- & Hx).
  cbn [enriched job]. apply in_limit, in_skipn in Hx.
  apply (Permutation_in _ (sort_perm _ _)) in Hx.
  unfold Cursor.find in Hx. apply List.filter_In in Hx as (Hx & Hm).
  assert (Hopen : Job.is_active x = true).
  { unfold matches, build_filter in Hm. cbn [q_is_active] in Hm.
    rewrite Hactive in Hm. cbn [when_set] in Hm.
    apply andb_true_iff in Hm as (Hm & _).
    repeat (apply andb_true_iff in Hm as (Hm & _)).
    now destruct (Job.is_active x). }
  split; [exact Hopen|]. intros Hid.
  cbn [jobs] in Hx. rewrite Hjobs, update_one_split in Hx by assumption.
  apply job_with_id_eq in Hp.
  apply List.in_app_or in Hx as [Hx|[<-|Hx]].
  - apply Hl1 in Hx. unfold job_with_id in Hx.
    rewrite Hid, String.eqb_refl in Hx. discriminate.
  - cbn [set_updates Job.is_active] in Hopen. rewrite Hclose in Hopen.
    discriminate.
  - unfold unique_job_ids in Hu. rewrite Hjobs in Hu.
    apply (unique_id_elsewhere l1 l2 j x Hu);
      [apply List.in_or_app; now right|congruence].
Qed.

End ClosedJobs.

(** ** Seeding *)

Lemma insert_seeds_companies seeds ids now db :
  companies (snd (insert_seeds seeds ids now db)) = companies db.
Proof.
  revert ids db. induction seeds as [|s seeds IH]; intros ids db;
    [reflexivity|].
  destruct ids as [|id ids]; [reflexivity|].
  cbn [insert_seeds]. unfold bind, insert_one. cbn [docs col_jobs].
  destruct (negb (encodable col_jobs (s id now))); [reflexivity|].
  destruct (List.existsb _ (jobs db)); [reflexivity|].
  rewrite IH. reflexivity.
Qed.

Lemma seed_skips c1 c2 c3 ids now db :
  companies db <> [] -> _seed c1 c2 c3 ids now db = (Returned tt, db).
Proof.
  intros Hne. unfold _seed, bind, count_documents.
  cbn [docs col_companies]. rewrite count_every.
  destruct (companies db) as [|c l]; [congruence|].
  reflexivity.
Qed.

Lemma bind_keeps {A B : Type} (P : DB -> Prop) (m : Handler A)
  (k : A -> Handler B) (db : DB) :
  P (snd (m db)) -> (forall a d, P d -> P (snd (k a d))) ->
  P (snd (bind m k db)).
Proof.
  intros Hm Hk. unfold bind. destruct (m db) as [[a|e] d]; simpl in *; auto.
Qed.

Lemma insert_company_first d db :
  company_encodable d = true ->
  companies db = [] -> companies (snd (insert_one col_companies d db)) <> [].
Proof.
  intros Hd Hc. unfold insert_one.
  cbn [docs col_companies store encodable]. rewrite Hd, Hc.
  simpl. discriminate.
Qed.

Lemma insert_company_keeps d db :
  companies db <> [] -> companies (snd (insert_one col_companies d db)) <> [].
Proof.
  intros Hc. unfold insert_one. cbn [docs col_companies store].
  destruct (negb (encodable _ d)); [exact Hc|].
  destruct (List.existsb _ (companies db)); [exact Hc|].
  simpl. now destruct (companies db).
Qed.

(** X23: seeding is skipped on a store that holds a company, and a store
    that has been seeded holds one: after one start-up a further start-up,
    with whatever fresh identifiers, returns without writing. *)
Theorem seed_runs_once c1 c2 c3 ids now c1' c2' c3' ids' now' db :
  let db1 := snd (_seed c1 c2 c3 ids now db) in
  (companies db <> [] -> db1 = db) /\
  companies db1 <> [] /\
  _seed c1' c2' c3' ids' now' db1 = (Returned tt, db1).
Proof.
  intros db1.
  assert (Hne : companies db1 <> []).
  { subst db1. destruct (companies db) as [|c l] eqn:Hc.
    - unfold _seed. unfold bind at 1. unfold count_documents.
      cbn [docs col_companies]. rewrite count_every, Hc.
      cbn [List.length Z.of_nat Z.ltb Z.compare].
      apply (bind_keeps (fun d => companies d <> []));
        [now apply insert_company_first|].
      intros _ d1 H1. apply (bind_keeps (fun d => companies d <> []));
        [now apply insert_company_keeps|].
      intros _ d2 H2. apply (bind_keeps (fun d => companies d <> []));
        [now apply insert_company_keeps|].
      intros _ d3 H3. now rewrite insert_seeds_companies.
    - rewrite seed_skips by (rewrite Hc; discriminate).
      cbn [snd]. rewrite Hc. discriminate. }
  split; [|split; [exact Hne|now apply seed_skips]].
  intros Hdb. subst db1. now rewrite seed_skips.
Qed.

Lemma nodup3_eqb (a b c : string) :
  NoDup [a; b; c] ->
  String.eqb a b = false /\ String.eqb a c = false /\
  String.eqb b c = false /\ String.eqb b a = false /\
  String.eqb c a = false /\ String.eqb c b = false.
Proof.
  intros Hnd.
  apply List.NoDup_cons_iff in Hnd as (Ha & Hnd).
  apply List.NoDup_cons_iff in Hnd as (Hb & _).
  simpl in Ha, Hb. repeat split; apply String.eqb_neq; intuition congruence.
Qed.

Lemma nodup4_eqb (a b c d : string) :
  NoDup [a; b; c; d] ->
  String.eqb a b = false /\ String.eqb a c = false /\
  String.eqb b c = false /\ String.eqb a d = false /\
  String.eqb b d = false /\ String.eqb c d = false.
Proof.
  intros Hnd.
  apply List.NoDup_cons_iff in Hnd as (Ha & Hnd).
  apply List.NoDup_cons_iff in Hnd as (Hb & Hnd).
  apply List.NoDup_cons_iff in Hnd as (Hc & _).
  simpl in Ha, Hb, Hc.
  repeat split; apply String.eqb_neq; intuition congruence.
Qed.

(** X24: start-up on an empty store with distinct fresh identifiers
    stores the three companies and the four jobs in order, every job open
    with both counters at zero, and the hard-coded [total_jobs_posted] of
    each company is the number of stored jobs that reference it; the
    seeded store is consistent. *)
Theorem seed_counts_its_jobs c1 c2 c3 j1 j2 j3 j4 now :
  NoDup [c1; c2; c3] ->
  NoDup [j1; j2; j3; j4] ->
  let r := _seed c1 c2 c3 [j1; j2; j3; j4] now (mkDB [] [] [] []) in
  fst r = Returned tt /\
  map Company.id (companies (snd r)) = [c1; c2; c3] /\
  map Job.id (jobs (snd r)) = [j1; j2; j3; j4] /\
  applications (snd r) = [] /\ bookmarks (snd r) = [] /\
  (forall j,
     In j (jobs (snd r)) ->
     Job.is_active j = true /\ Job.views j = 0 /\
     Job.applications_count j = 0 /\
     exists c, In c (companies (snd r)) /\ Company.id c = Job.company_id j) /\
  (forall c,
     In c (companies (snd r)) ->
     Company.total_jobs_posted c =
     Cursor.count_documents
       (fun j => String.eqb (Job.company_id j) (Company.id c))
       (jobs (snd r))) /\
  consistent (snd r).
Proof.
  intros Hc Hj r.
  pose proof Hj as Hj'.
  apply nodup3_eqb in Hc as (C12 & C13 & C23 & C21 & C31 & C32).
  apply nodup4_eqb in Hj as (J12 & J13 & J23 & J14 & J24 & J34).
  assert (Hr : r =
    (Returned tt,
     snd (_seed c1 c2 c3 [j1; j2; j3; j4] now (mkDB [] [] [] [])))).
  { subst r. unfold _seed, bind, count_documents, insert_one, insert_seeds,
      seeds, ret.
    do 8 (cbv -[String.eqb];
          rewrite ?C12, ?C13, ?C23, ?J12, ?J13, ?J23, ?J14, ?J24, ?J34).
    reflexivity. }
  assert (Hdb : snd r =
    mkDB (companies (snd r)) (jobs (snd r)) [] []
    /\ map Company.id (companies (snd r)) = [c1; c2; c3]
    /\ map Job.id (jobs (snd r)) = [j1; j2; j3; j4]
    /\ map Company.total_jobs_posted (companies (snd r)) = [2; 1; 1]
    /\ map Job.company_id (jobs (snd r)) = [c1; c1; c2; c3]
    /\ map Job.is_active (jobs (snd r)) = [true; true; true; true]
    /\ map Job.views (jobs (snd r)) = [0; 0; 0; 0]
    /\ map Job.applications_count (jobs (snd r)) = [0; 0; 0; 0]).
  { subst r. unfold _seed, bind, count_documents, insert_one, insert_seeds,
      seeds, ret.
    do 8 (cbv -[String.eqb];
          rewrite ?C12, ?C13, ?C23, ?J12, ?J13, ?J23, ?J14, ?J24, ?J34).
    repeat split. }
  destruct Hdb as (Hshape & Hcid & Hjid & Hposted & Hjc & Hact & Hviews & Hcnt).
  split; [now rewrite Hr|].
  set (db := snd r) in *. clearbody db. clear Hr r.
  destruct db as [cs js apps bms]. cbn [companies jobs applications bookmarks]
    in *.
  injection Hshape as -> ->.
  destruct cs as [|x1 [|x2 [|x3 [|? ?]]]]; try discriminate.
  destruct js as [|y1 [|y2 [|y3 [|y4 [|? ?]]]]]; try discriminate.
  cbn [map] in *.
  injection Hcid as <- <- <-. injection Hjid as <- <- <- <-.
  injection Hposted as P1 P2 P3. injection Hjc as K1 K2 K3 K4.
  injection Hact as A1 A2 A3 A4. injection Hviews as V1 V2 V3 V4.
  injection Hcnt as N1 N2 N3 N4.
  split; [reflexivity|].
  split; [reflexivity|]. split; [reflexivity|]. split; [reflexivity|].
  split.
  { intros j [<-|[<-|[<-|[<-|[]]]]]; repeat (split; [assumption|]).
    - exists x1. rewrite K1. simpl. auto.
    - exists x1. rewrite K2. simpl. auto.
    - exists x2. rewrite K3. simpl. auto.
    - exists x3. rewrite K4. simpl. auto. }
  split.
  { intros c [<-|[<-|[<-|[]]]]; unfold Cursor.count_documents; cbn;
      rewrite K1, K2, K3, K4, ?String.eqb_refl, ?C12, ?C13, ?C23, ?C21,
        ?C31, ?C32; cbn; assumption. }
  split.
  - exact Hj'.
  - intros L [<-|[<-|[<-|[<-|[]]]]]; unfold Cursor.count_documents; cbn;
      assumption.
Qed.

(** * The further properties on the sample data *)

Lemma applied_consistent : consistent Sample.applied.
Proof.
  destruct first_application_stored as (a & Hrun).
  destruct (submit_keeps_counters _ _ _ _ _ _ _ _ seeded_unique_job_ids
              seeded_counters_agree Hrun) as (Ha & Hu).
  now split.
Defined.

Lemma company_profile_after_posting_witness :
  exists r db' after,
    create_job "j9" 5000 Sample.new_job Sample.seeded = (Returned r, db') /\
    get_company "c1" db' = (Returned after, db') /\
    CompanyProfile.active_jobs_count after = 3 /\
    Company.total_jobs_posted (CompanyProfile.company after) = 3.
Proof.
  destruct (create_job "j9" 5000 Sample.new_job Sample.seeded)
    as [[r|e] db'] eqn:Hrun; [|vm_compute in Hrun; discriminate].
  destruct (company_profile_after_posting "j9" 5000 Sample.new_job
              Sample.seeded r db' Hrun)
    as (before & after & Hb & Ha & Hc & _ & Hn).
  exists r, db', after. split; [reflexivity|]. split; [exact Ha|].
  vm_compute in Hb. injection Hb as <-.
  split; [rewrite Hn|rewrite Hc]; reflexivity.
Defined.

Lemma deleted_job_is_unknown_witness :
  get_job "j1" (snd (delete_job "j1" Sample.seeded)) =
  (Raised (HTTPException 404 "Job not found"),
   snd (delete_job "j1" Sample.seeded)).
Proof.
  apply (deleted_job_is_unknown "j1" Sample.seeded seeded_unique_job_ids).
Defined.

Lemma closed_job_takes_no_applications_witness :
  exists r db',
    Scenario.closed = (inr (Returned r), db') /\
    _submit_application RequestException "a2" 7000 "j1" Sample.asha db' =
    (Raised (HTTPException 400 "This job listing is no longer active"), db').
Proof.
  destruct Scenario.closed as [[c|[r|e]] db'] eqn:Hrun;
    try (vm_compute in Hrun; discriminate).
  exists r, db'. split; [reflexivity|].
  now apply (closed_job_takes_no_applications 6000 "j1"
               Scenario.close_request Sample.applied r db' eq_refl Hrun).
Defined.

Lemma bookmarks_stay_unique_witness :
  unique_bookmarks
    (snd (bookmark_job 8000 Scenario.asha_bookmark Sample.seeded)).
Proof.
  apply (bookmarks_stay_unique 8000 Scenario.asha_bookmark Sample.seeded).
  constructor.
Defined.

Lemma bookmark_then_remove_witness :
  exists m db',
    bookmark_job 8000 Scenario.asha_bookmark Sample.seeded = (Returned m, db')
    /\ remove_bookmark Scenario.asha_bookmark db' =
       (Returned "Bookmark removed", Sample.seeded).
Proof.
  destruct (bookmark_job 8000 Scenario.asha_bookmark Sample.seeded)
    as [[m|e] db'] eqn:Hrun; [|vm_compute in Hrun; discriminate].
  exists m, db'. split; [reflexivity|].
  destruct (bookmark_then_remove 8000 Scenario.asha_bookmark Sample.seeded)
    as (Hback & _).
  exact (Hback m db' Hrun).
Defined.

Lemma listed_applications_match_counter_witness :
  exists r,
    get_job_applications "j1" None Sample.applied = (Returned r, Sample.applied)
    /\ ApplicationList.total r = 1.
Proof.
  destruct (Cursor.find_one (job_with_id "j1") (jobs Sample.applied))
    as [j|] eqn:Hj; [|vm_compute in Hj; discriminate].
  destruct (listed_applications_match_counter "j1" Sample.applied j
              (proj2 applied_consistent) Hj) as (r & Hrun & Htotal & _).
  exists r. split; [exact Hrun|]. rewrite Htotal.
  vm_compute in Hj. injection Hj as <-. reflexivity.
Defined.


Lemma deleted_job_orphans_applications_witness :
  get_job_applications "j1" None Sample.applied_deleted =
  (Raised (HTTPException 404 "Job not found"), Sample.applied_deleted) /\
  get_application "a1" Sample.applied_deleted =
  (fst (get_application "a1" Sample.applied), Sample.applied_deleted).
Proof.
  destruct (deleted_job_orphans_applications "j1" Sample.applied
              (proj1 applied_consistent)) as (Hlist & Hget & _).
  split; [apply Hlist|apply Hget].
Defined.

Lemma applications_stay_unique_witness :
  unique_applications Sample.applied /\ unique_application_ids Sample.applied.
Proof.
  destruct (applications_stay_unique Sample.seeded) as (Hsubmit & _);
    [constructor|constructor|].
  apply (Hsubmit RequestException "a1" 2000 "j1" Sample.asha).
Defined.

Lemma health_counts_follow_the_store_witness :
  exists h h',
    root Sample.seeded = (Returned h, Sample.seeded) /\
    root Sample.applied = (Returned h', Sample.applied) /\
    Health.total_applications h' = Health.total_applications h + 1.
Proof.
  destruct first_application_stored as (a & Hrun).
  destruct (health_counts_follow_the_store Sample.seeded) as (_ & Hthen).
  destruct (Hthen _ _ _ _ _ _ _ Hrun) as (h & h' & H1 & H2 & H3 & _).
  now exists h, h'.
Defined.

Lemma unknown_sort_key_means_newest_witness :
  list_jobs Scenario.by_unknown_key Sample.seeded =
  list_jobs (Sample.tenth 1) Sample.seeded.
Proof.
  apply (unknown_sort_key_means_newest Scenario.by_unknown_key Sample.seeded).
  intros k Hk. simpl in Hk.
  repeat (destruct Hk as [<-|Hk]; [discriminate|]). destruct Hk.
Defined.

Lemma pages_cover_the_matches_witness :
  List.length (pages 3 (Sample.tenth 1) Sample.twenty_five) = 25%nat.
Proof.
  destruct (pages_cover_the_matches (Sample.tenth 1) Sample.twenty_five
              ltac:(simpl; lia) eq_refl ltac:(vm_compute; reflexivity))
    as (_ & _ & Hall).
  change (Z.to_nat (page_count (Sample.tenth 1) Sample.twenty_five))
    with 3%nat in Hall.
  rewrite Hall. vm_compute. reflexivity.
Defined.

Lemma closed_job_is_not_listed_witness :
  exists r db' res,
    Scenario.closed = (inr (Returned r), db') /\
    list_jobs (Sample.tenth 1) db' = (Returned res, db') /\
    forall e, In e (page_jobs res) -> Job.id (job e) <> "j1".
Proof.
  destruct Scenario.closed as [[c|[r|e]] db'] eqn:Hrun;
    try (vm_compute in Hrun; discriminate).
  destruct (closed_job_is_not_listed 6000 "j1" Scenario.close_request
              Sample.applied r db' (Sample.tenth 1)
              (proj1 applied_consistent) eq_refl Hrun eq_refl
              ltac:(simpl; lia) ltac:(simpl; lia))
    as (Hreturns & Hnone).
  destruct (Hreturns ltac:(split; vm_compute; reflexivity)) as (res & Hlist).
  exists r, db', res. split; [reflexivity|]. split; [exact Hlist|].
  intros e He. apply (Hnone res); [now rewrite Hlist|exact He].
Defined.

Lemma seed_runs_once_witness :
  _seed "c7" "c8" "c9" ["j5"; "j6"; "j7"; "j8"] 9000 Sample.seeded =
  (Returned tt, Sample.seeded).
Proof.
  apply (seed_runs_once "c1" "c2" "c3" ["j1"; "j2"; "j3"; "j4"] 1000
           "c7" "c8" "c9" ["j5"; "j6"; "j7"; "j8"] 9000 Sample.empty).
Defined.

Lemma seed_counts_its_jobs_witness : consistent Sample.seeded.
Proof.
  apply (seed_counts_its_jobs "c1" "c2" "c3" "j1" "j2" "j3" "j4" 1000).
  - repeat constructor; simpl; intuition discriminate.
  - repeat constructor; simpl; intuition discriminate.
Defined.
